(** * pyflink.table.table_environment: element conversion, sink lifecycle,
      environment creation and path resolution

    A shallow embedding of [flink-python/pyflink/table/table_environment.py].
    The file is a bridge: most methods forward to the JVM through py4j.  The
    parts with behaviour of their own are [TableEnvironment.from_elements],
    [TableEnvironment._from_elements], [TableEnvironment.from_pandas] and
    [StreamTableEnvironment.create]; they are embedded line by line below.

    Code the file imports but that lives in other modules of the project
    ([pyflink.table.types], [pyflink.serializers], the JVM side) is taken as
    an interface ([TypesModule], [Serializers], [Gateway]); the schema
    inference, verification, conversion and path resolution those modules
    perform are in addition modelled from the specification, each definition
    marked as such. *)

From Stdlib Require Import ZArith List String Ascii Lia Bool Permutation.
From Stdlib.Strings Require Import Byte.
From stdpp Require Import gmap strings list pretty.

Set Warnings "-register-all,-clear-no-such-hyp".
Local Open Scope Z_scope.

(* ================================================================== *)
(** * 1. Python runtime: exceptions and results                        *)
(* ================================================================== *)

(** Why an inference failed (specification 4.1, "Fails with SchemaError
    when"). *)
Inductive schema_fault : Type :=
| EmptyInput
| ShapeMismatch (record : nat)
| ArityMismatch (record : nat)
| NameHintLength (hint arity : nat)
| Untypeable (record field : nat)
| TypeMismatch (record field : nat).

(** Why a path did not parse (specification 4.2 step 5 and step 1). *)
Inductive parse_fault : Type :=
| ZeroSegments
| EmptySegment
| UnterminatedBacktick
| StrayBacktick
| TooManySegments
| ReservedWord (word : string).

(** The exceptions the embedded code raises or lets through.  [TypeError],
    [ValueError], [IndexError], [AttributeError], [ZeroDivisionError] and
    [OSError] are Python's; the last four are the taxonomy of specification 7;
    [JavaError] is a py4j error coming back from the JVM. *)
Inductive exn : Type :=
| TypeError (msg : string)
| ValueError (msg : string)
| IndexError
| AttributeError
| ZeroDivisionError
| OSError (path : string)
| JavaError (call : string)
| SchemaError (why : schema_fault)
| ValidationError (field expected : string)
| ParseError (why : parse_fault)
| TransportError.

Inductive result (A : Type) : Type :=
| Ok (a : A)
| Raise (e : exn).
Arguments Ok {A} a.
Arguments Raise {A} e.

Definition result_bind {A B} (r : result A) (k : A -> result B) : result B :=
  match r with
  | Ok a => k a
  | Raise e => Raise e
  end.

Notation "'let?' x ':=' c 'in' k" := (result_bind c (fun x => k))
  (at level 10, x name, c at level 100, k at level 200).

Definition is_ok {A} (r : result A) : bool :=
  match r with Ok _ => true | Raise _ => false end.

(** [[f(x) for x in xs]]: the comprehension stops at the first exception. *)
Fixpoint result_map {A B} (f : A -> result B) (xs : list A) : result (list B) :=
  match xs with
  | [] => Ok []
  | x :: rest =>
      let? y := f x in
      let? ys := result_map f rest in
      Ok (y :: ys)
  end.

(* ================================================================== *)
(** * 2. Data model                                                    *)
(* ================================================================== *)

(** Atomic type descriptors (specification 3, TypeDescriptor; the docstring
    of [from_elements] lists the matching Python types). *)
Inductive Atomic : Type :=
| ABoolean | AInteger | ALong | AFloat | ADouble | AString | AByteArray
| ADate | ATime | ATimestamp | ADuration | ADecimal.

Definition Atomic_eqb (a b : Atomic) : bool :=
  match a, b with
  | ABoolean, ABoolean | AInteger, AInteger | ALong, ALong | AFloat, AFloat
  | ADouble, ADouble | AString, AString | AByteArray, AByteArray
  | ADate, ADate | ATime, ATime | ATimestamp, ATimestamp
  | ADuration, ADuration | ADecimal, ADecimal => true
  | _, _ => false
  end.

(** [pyflink.table.types.DataType] and its subclass [RowType]: atomic
    types and the composites row, list and map, each with its nullability
    flag.  A row's fields are the [RowField(name, data_type)] pairs, in
    order. *)
Inductive DataType : Type :=
| AtomicType (a : Atomic) (nullable : bool)
| RowType (fields : list (string * DataType)) (nullable : bool)
| ListType (element : DataType) (nullable : bool)
| MapType (key value : DataType) (nullable : bool).

Definition RowField (name : string) (data_type : DataType) : string * DataType :=
  (name, data_type).

(** [isinstance(schema, RowType)] *)
Definition is_RowType (t : DataType) : bool :=
  match t with RowType _ _ => true | _ => false end.

Definition nullable (t : DataType) : bool :=
  match t with
  | AtomicType _ n | RowType _ n | ListType _ n | MapType _ _ n => n
  end.

(** [RowType()]: no fields, nullable (the constructor's defaults). *)
Definition RowType_new : DataType := RowType [] true.

(** [row.add(name, data_type)]: appends one field; on anything that is not
    a row there is no such method, and the embedding never calls it there. *)
Definition add (row : DataType) (name : string) (data_type : DataType) : DataType :=
  match row with
  | RowType fields n => RowType (fields ++ [RowField name data_type]) n
  | other => other
  end.

Definition field_names (t : DataType) : list string :=
  match t with RowType fields _ => map fst fields | _ => [] end.

Definition field_types (t : DataType) : list DataType :=
  match t with RowType fields _ => map snd fields | _ => [] end.

(** Python values that reach [from_elements].  One constructor per atomic
    descriptor, carrying the width the type inference sees (integer and
    long, float and double); floating point numbers are kept as mantissa
    and binary exponent.  A dict is its items in insertion order, keyed by
    field name.  [PyExpression] is a [pyflink.table.Expression]. *)
Inductive PyObj : Type :=
| PyNone
| PyBool (b : bool)
| PyInt (z : Z)
| PyLong (z : Z)
| PyFloat (m e : Z)
| PyDouble (m e : Z)
| PyStr (s : string)
| PyBytearray (bs : list byte)
| PyDate (days : Z)
| PyTime (micros : Z)
| PyDatetime (micros : Z)
| PyTimedelta (micros : Z)
| PyDecimal (unscaled scale : Z)
| PyTuple (items : list PyObj)
| PyDict (items : list (string * PyObj))
| PyList (items : list PyObj)
| PyRow (names : option (list string)) (values : list PyObj)
| PyExpression (expr : string).

(** [isinstance(elem, Expression)] *)
Definition is_Expression (elem : PyObj) : bool :=
  match elem with PyExpression _ => true | _ => false end.

(** The engine's row representation, the result of [to_sql_type]: rows and
    lists are positional, a map is a finite map. *)
Inductive EngineRow : Type :=
| ENull
| EScalar (a : Atomic) (v : PyObj)
| ERow (values : list EngineRow)
| EList (items : list EngineRow)
| EMap (entries : gmap string EngineRow).

(** What the caller may pass as [schema] to [from_elements]:
    [None], a list or tuple of names, a [DataType], or anything else. *)
Inductive SchemaArg : Type :=
| SchemaNone
| SchemaNames (names : list string)
| SchemaType (t : DataType)
| SchemaOther (repr : string).

(* ================================================================== *)
(** * 3. The world outside the interpreter                             *)
(* ================================================================== *)

(** Java objects are kept symbolically: a marshalled argument or the call
    that produced the object. *)
Inductive JObj : Type :=
| JString (s : string)
| JBoolean (b : bool)
| JDataType (t : DataType)
| JExpression (e : PyObj)
| JArray (items : list JObj)
| JFileContents (data : list byte)
| JCall (method : string) (args : list JObj).

(** The file system as far as [tempfile] and [os.unlink] touch it, the
    source of fresh temporary names, and the calls that crossed the
    gateway, oldest first. *)
Record World : Type := mkWorld {
  fs_dirs : gset string;
  fs_files : gmap string (list byte);
  fs_open : gset string;
  fs_next : nat;
  jvm_calls : list (string * list JObj)
}.

Definition Py (A : Type) : Type := World -> result A * World.

Definition ret {A} (a : A) : Py A := fun w => (Ok a, w).
Definition raise {A} (e : exn) : Py A := fun w => (Raise e, w).
Definition lift {A} (r : result A) : Py A := fun w => (r, w).

Definition bind {A B} (c : Py A) (k : A -> Py B) : Py B := fun w =>
  match c w with
  | (Ok a, w1) => k a w1
  | (Raise e, w1) => (Raise e, w1)
  end.

Notation "'let*' x ':=' c 'in' k" := (bind c (fun x => k))
  (at level 10, x name, c at level 100, k at level 200).

(** [try: body finally: cleanup].  The cleanup always runs; an exception of
    its own replaces the body's outcome. *)
Definition try_finally {A} (body : Py A) (cleanup : Py unit) : Py A := fun w =>
  let (r, w1) := body w in
  match cleanup w1 with
  | (Ok _, w2) => (r, w2)
  | (Raise e, w2) => (Raise e, w2)
  end.

(** [tempfile.mkdtemp()] *)
Definition mkdtemp : Py string := fun w =>
  let d := "/tmp/tmp" +:+ pretty (fs_next w) in
  (Ok d, mkWorld ({[d]} ∪ fs_dirs w) (fs_files w) (fs_open w) (S (fs_next w)) (jvm_calls w)).

(** [tempfile.NamedTemporaryFile(delete=False, dir=d)]: a new empty file in
    [d], open for writing; the value is [temp_file.name]. *)
Definition NamedTemporaryFile (d : string) : Py string := fun w =>
  if decide (d ∈ fs_dirs w) then
    let name := d +:+ "/tmp" +:+ pretty (fs_next w) in
    (Ok name,
     mkWorld (fs_dirs w) (<[name := []]> (fs_files w)) ({[name]} ∪ fs_open w)
             (S (fs_next w)) (jvm_calls w))
  else (Raise (OSError d), w).

(** [temp_file.write(data)] *)
Definition write (name : string) (data : list byte) : Py unit := fun w =>
  if decide (name ∈ fs_open w) then
    match fs_files w !! name with
    | Some old =>
        (Ok tt, mkWorld (fs_dirs w) (<[name := old ++ data]> (fs_files w)) (fs_open w)
                        (fs_next w) (jvm_calls w))
    | None => (Raise (OSError name), w)
    end
  else (Raise (ValueError "I/O operation on closed file"), w).

(** [temp_file.close()], as [__exit__] calls it. *)
Definition close (name : string) (w : World) : World :=
  mkWorld (fs_dirs w) (fs_files w) (fs_open w ∖ {[name]}) (fs_next w) (jvm_calls w).

(** [with temp_file: body] *)
Definition with_ {A} (name : string) (body : Py A) : Py A := fun w =>
  let (r, w1) := body w in (r, close name w1).

(** [os.unlink(name)] *)
Definition unlink (name : string) : Py unit := fun w =>
  match fs_files w !! name with
  | Some _ =>
      (Ok tt, mkWorld (fs_dirs w) (delete name (fs_files w)) (fs_open w) (fs_next w)
                      (jvm_calls w))
  | None => (Raise (OSError name), w)
  end.

(* ================================================================== *)
(** * 4. Interfaces of the modules the file imports                    *)
(* ================================================================== *)

(** [pyflink.table.types].  Everything here may raise:
    [_create_type_verifier(data_type, name)] and [_create_converter(schema)]
    when they build their function, and the function when it is applied.
    [to_sql_type] is the method of [RowType]. *)
Class TypesModule : Type := {
  _create_type_verifier : DataType -> option string -> result (PyObj -> result unit);
  _infer_schema_from_data : list PyObj -> option (list string) -> result DataType;
  _create_converter : DataType -> result (PyObj -> result PyObj);
  to_sql_type : DataType -> PyObj -> result EngineRow;
  from_arrow_type : string -> bool -> result DataType;
  create_arrow_schema : list string -> list DataType -> result unit
}.

(** [pyflink.serializers.BatchedSerializer(...).serialize(elements, stream)]
    and [pyflink.table.serializers.ArrowSerializer(...).serialize(data,
    stream)]: the bytes written to the stream, and the exception the call
    ends with if it does not finish.  [pytz_timezone] is [pytz.timezone],
    whose result the Arrow serializer is built with. *)
Class Serializers : Type := {
  BatchedSerializer_serialize : list EngineRow -> list byte * option exn;
  pytz_timezone : JObj -> result JObj;
  ArrowSerializer_serialize :
    DataType -> JObj -> list (list (list PyObj)) -> list byte * option exn
}.

(** The py4j gateway: which calls come back with an exception, and what
    the JVM answers where Python branches on a Java boolean. *)
Class Gateway : Type := {
  java_raises : string -> list JObj -> option exn;
  java_truth : string -> list JObj -> bool
}.

Record TableEnvironment : Type := mkTableEnvironment {
  _j_tenv : JObj
}.

(** [Table(j_table, t_env)] *)
Inductive Table : Type :=
| mkTable (j_table : JObj) (t_env : TableEnvironment).

Section Bridge.
Context `{Gateway}.

(** A call through the gateway: it is recorded, then returns the Java
    object or raises. *)
Definition jcall (method : string) (args : list JObj) : Py JObj := fun w =>
  let w1 := mkWorld (fs_dirs w) (fs_files w) (fs_open w) (fs_next w)
                    (jvm_calls w ++ [(method, args)]) in
  match java_raises method args with
  | Some e => (Raise e, w1)
  | None => (Ok (JCall method args), w1)
  end.

(** A call whose Java result Python uses as a boolean. *)
Definition jcall_bool (method : string) (args : list JObj) : Py bool :=
  let* _ := jcall method args in ret (java_truth method args).

(** [gateway.jvm.PythonBridgeUtils.readPythonObjects(name, batched)]: the
    JVM opens the file; what it returns depends on what the file holds. *)
Definition readPythonObjects (name : string) (batched : bool) : Py JObj := fun w =>
  match fs_files w !! name with
  | Some data =>
      jcall "PythonBridgeUtils.readPythonObjects"
            [JString name; JBoolean batched; JFileContents data] w
  | None =>
      (Raise (JavaError "PythonBridgeUtils.readPythonObjects"),
       mkWorld (fs_dirs w) (fs_files w) (fs_open w) (fs_next w)
               (jvm_calls w ++ [("PythonBridgeUtils.readPythonObjects",
                                 [JString name; JBoolean batched])]))
  end.

(** [_to_java_type], [_to_java_data_type] ([pyflink.table.types]) and
    [to_expression_jarray] ([pyflink.table.utils]) build Java objects. *)
Definition _to_java_type (schema : DataType) : Py JObj :=
  jcall "_to_java_type" [JDataType schema].

Definition _to_java_data_type (schema : DataType) : Py JObj :=
  jcall "_to_java_data_type" [JDataType schema].

Definition to_expression_jarray (elements : list PyObj) : Py JObj :=
  jcall "to_expression_jarray" [JArray (map JExpression elements)].

(** [TableEnvironment._get_j_env] (line 1591) *)
Definition _get_j_env (self : TableEnvironment) : Py JObj :=
  let* planner := jcall "getPlanner" [_j_tenv self] in
  jcall "getExecEnv" [planner].

End Bridge.

(* ================================================================== *)
(** * 5. TableEnvironment.from_elements (lines 1349-1488)              *)
(* ================================================================== *)

Section FromElements.
Context `{TypesModule} `{Serializers} `{Gateway}.

(** [def verify_obj(obj): verify_func(obj); return obj] (lines 1413-1415
    and 1423-1425) *)
Definition verify_obj_with (verify_func : PyObj -> result unit) (obj : PyObj)
  : result PyObj :=
  let? _ := verify_func obj in Ok obj.

(** Lines 1410-1428: the schema the rest of the method works with, and
    [verify_obj].  [lambda _: True] is the verifier that accepts all. *)
Definition prepare_schema (schema : SchemaArg) (verify_schema : bool)
  : result (SchemaArg * (PyObj -> result PyObj)) :=
  match schema with
  | SchemaType t =>
      if is_RowType t then
        let? verify_func :=
          if verify_schema then _create_type_verifier t None
          else Ok (fun _ => Ok tt) in
        Ok (schema, verify_obj_with verify_func)
      else
        let data_type := t in
        let schema := add RowType_new "value" t in
        let? verify_func :=
          if verify_schema then _create_type_verifier data_type (Some "field value")
          else Ok (fun _ => Ok tt) in
        Ok (SchemaType schema, verify_obj_with verify_func)
  | _ => Ok (schema, fun obj => Ok obj)
  end.

(** Lines 1431-1440: inference when no type was given, the [TypeError] for
    an unusable [schema], and [list(elements)], which is where the lazy
    [map(converter, elements)] of line 1434 runs. *)
Definition infer_if_needed (elements : list PyObj) (schema : SchemaArg)
  : result (DataType * list PyObj) :=
  let infer names :=
    let? schema := _infer_schema_from_data elements names in
    let? converter := _create_converter schema in
    let? elements := result_map converter elements in
    Ok (schema, elements) in
  match schema with
  | SchemaNone => infer None
  | SchemaNames names => infer (Some names)
  | SchemaType t =>
      if is_RowType t then Ok (t, elements)
      else Raise (TypeError "schema should be RowType, list, tuple or None")
  | SchemaOther _ => Raise (TypeError "schema should be RowType, list, tuple or None")
  end.

(** [len(elements) > 0 and all(isinstance(elem, Expression) ...)] *)
Definition all_expressions (elements : list PyObj) : bool :=
  (0 <? Z.of_nat (length elements)) && forallb is_Expression elements.

(** [any(isinstance(elem, Expression) for elem in elements)] *)
Definition any_expression (elements : list PyObj) : bool :=
  existsb is_Expression elements.

(** Lines 1454-1457: [map(verify_obj, elements)] is lazy, so the list
    comprehension verifies and converts element by element. *)
Definition verify_and_convert (schema : DataType) (verify_obj : PyObj -> result PyObj)
    (elements : list PyObj) : result (list EngineRow) :=
  result_map (fun element => let? element := verify_obj element in
                             to_sql_type schema element) elements.

(** [TableEnvironment._from_elements] (lines 1460-1488) *)
Definition _from_elements (self : TableEnvironment) (elements : list EngineRow)
    (schema : DataType) : Py Table :=
  let* d := mkdtemp in
  let* temp_file := NamedTemporaryFile d in
  (* serializer = BatchedSerializer(self._serializer): stores its argument *)
  try_finally
    (let* _ := with_ temp_file
                 (let (data, failure) := BatchedSerializer_serialize elements in
                  let* _ := write temp_file data in
                  match failure with Some e => raise e | None => ret tt end) in
     let* row_type_info := _to_java_type schema in
     let* j_env := _get_j_env self in
     let* execution_config := jcall "getConfig" [j_env] in
     let* j_objs := readPythonObjects temp_file true in
     let* j_input_format :=
       jcall "PythonTableUtils.getInputFormat" [j_objs; row_type_info; execution_config] in
     let* j_table_source :=
       jcall "PythonInputFormatTableSource" [j_input_format; row_type_info] in
     let* j_table := jcall "fromTableSource" [_j_tenv self; j_table_source] in
     ret (mkTable j_table self))
    (unlink temp_file).

(** [TableEnvironment.from_elements].  After line 1440 [schema] is the
    inferred row type or the given one, never [None], so of the two
    [fromValues] calls of lines 1444-1449 only the second can run. *)
Definition from_elements (self : TableEnvironment) (elements : list PyObj)
    (schema : SchemaArg) (verify_schema : bool) : Py Table :=
  let* prepared := lift (prepare_schema schema verify_schema) in
  let '(schema, verify_obj) := prepared in
  let* inferred := lift (infer_if_needed elements schema) in
  let '(schema, elements) := inferred in
  if all_expressions elements then
    let* j_type := _to_java_data_type schema in
    let* j_exprs := to_expression_jarray elements in
    let* j_table := jcall "fromValues" [_j_tenv self; j_type; j_exprs] in
    ret (mkTable j_table self)
  else if any_expression elements then
    raise (ValueError
      "It doesn't support part of the elements are Expression, while the others are not.")
  else
    let* elements := lift (verify_and_convert schema verify_obj elements) in
    _from_elements self elements schema.

End FromElements.

(* ================================================================== *)
(** * 6. TableEnvironment.from_pandas (lines 1490-1570)                *)
(* ================================================================== *)

(** A column of a [pandas.DataFrame] with the Arrow field pyarrow derives
    for it ([pa.Schema.from_pandas(pdf, preserve_index=False)]); an Arrow
    type is kept by name. *)
Record Column : Type := mkColumn {
  col_name : string;
  col_type : string;
  col_nullable : bool;
  col_data : list PyObj
}.

(** [len(pdf)] is the number of rows. *)
Record DataFrame : Type := mkDataFrame {
  df_columns : list Column;
  df_len : nat
}.

Inductive PandasArg : Type :=
| IsDataFrame (pdf : DataFrame)
| NotDataFrame (repr : string).

(** The [schema] argument of [from_pandas]: [None], a [DataType], a list
    or tuple of names, a list or tuple of [DataType]s, or anything else.
    Line 1530 and 1534 look at [schema[0]] only; the empty list is
    [PdNames []]. *)
Inductive PandasSchema : Type :=
| PdNone
| PdType (t : DataType)
| PdNames (names : list string)
| PdTypes (types : list DataType)
| PdOther (repr : string).

(** [range(start, stop, step)] for [start = 0], by the number of values
    left to produce; Python raises [ValueError] for [step = 0]. *)
Fixpoint range_from (n : nat) (start step : Z) : list Z :=
  match n with
  | O => []
  | S n' => start :: range_from n' (start + step) step
  end.

Definition range (stop step : Z) : result (list Z) :=
  if step =? 0 then Raise (ValueError "range() arg 3 must not be zero")
  else if 0 <? step then Ok (range_from (Z.to_nat ((stop + step - 1) / step)) 0 step)
  else Ok [].

(** [a // b] *)
Definition floordiv (a b : Z) : result Z :=
  if b =? 0 then Raise ZeroDivisionError else Ok (a / b).

(** [pdf.iloc[start:start + step]], column by column, as
    [[c for (_, c) in pdf_slice.iteritems()]] lists them. *)
Definition iloc (pdf : DataFrame) (start step : Z) : list (list PyObj) :=
  map (fun c => take (Z.to_nat step) (drop (Z.to_nat start) (col_data c)))
      (df_columns pdf).

Section FromPandas.
Context `{TypesModule} `{Serializers} `{Gateway}.

(** Lines 1527-1543: the row type of the table. [zip] stops at the
    shorter of its arguments. *)
Definition pandas_result_type (arrow_schema : list Column) (schema : PandasSchema)
  : result DataType :=
  let from_field (field : Column) := from_arrow_type (col_type field) (col_nullable field) in
  match schema with
  | PdType t =>
      if is_RowType t then Ok t
      else Raise (TypeError "Unsupported schema type")
  | PdNames [] | PdTypes [] => Raise IndexError
  | PdNames names =>
      let? fields := result_map (fun '(field_name, field) =>
                                   let? t := from_field field in
                                   Ok (RowField field_name t))
                                (zip names arrow_schema) in
      Ok (RowType fields true)
  | PdTypes types =>
      Ok (RowType (map (fun '(field_name, field_type) => RowField field_name field_type)
                       (zip (map col_name arrow_schema) types)) true)
  | PdOther _ => Raise (TypeError "Unsupported schema type")
  | PdNone =>
      let? fields := result_map (fun field =>
                                   let? t := from_field field in
                                   Ok (RowField (col_name field) t))
                                arrow_schema in
      Ok (RowType fields true)
  end.

(** [TableEnvironment.get_config] (line 1082), its cache left out. *)
Definition get_config (self : TableEnvironment) : Py JObj :=
  let* table_config := jcall "TableConfig" [] in
  jcall "getConfig" [_j_tenv self].

(** [TableEnvironment.from_pandas] *)
Definition from_pandas (self : TableEnvironment) (pdf : PandasArg)
    (schema : PandasSchema) (splits_num : Z) : Py Table :=
  match pdf with
  | NotDataFrame _ => raise (TypeError "Unsupported type, expected pandas.DataFrame")
  | IsDataFrame pdf =>
      let arrow_schema := df_columns pdf in
      let* result_type := lift (pandas_result_type arrow_schema schema) in
      let* d := mkdtemp in
      let* temp_file := NamedTemporaryFile d in
      let* _ := lift (create_arrow_schema (field_names result_type)
                                          (field_types result_type)) in
      let* config := get_config self in
      let* tz := jcall "getLocalTimeZone" [config] in
      let* timezone := lift (pytz_timezone tz) in
      let* q := lift (floordiv (- Z.of_nat (df_len pdf)) splits_num) in
      let step := - q in
      let* starts := lift (range (Z.of_nat (df_len pdf)) step) in
      let data := map (fun start => iloc pdf start step) starts in
      try_finally
        (let* _ := with_ temp_file
                     (let (bytes, failure) :=
                        ArrowSerializer_serialize result_type timezone data in
                      let* _ := write temp_file bytes in
                      match failure with Some e => raise e | None => ret tt end) in
         let* j_type := _to_java_type result_type in
         let* legacy := jcall "TypeConversions.fromLegacyInfoToDataType" [j_type] in
         let* data_type := jcall "notNull" [legacy] in
         let* row_data := jcall "load_java_class"
                                [JString "org.apache.flink.table.data.RowData"] in
         let* data_type := jcall "bridgedTo" [data_type; row_data] in
         let* j_arrow_table_source :=
           jcall "ArrowUtils.createArrowTableSource" [data_type; JString temp_file] in
         let* j_table := jcall "fromTableSource" [_j_tenv self; j_arrow_table_source] in
         ret (mkTable j_table self))
        (unlink temp_file)
  end.

End FromPandas.

(** Lines 1552-1554 of [from_pandas]: the slices of the frame, each as
    the list of its columns. *)
Definition pandas_slices (pdf : DataFrame) (splits_num : Z)
  : result (list (list (list PyObj))) :=
  let? q := floordiv (- Z.of_nat (df_len pdf)) splits_num in
  let step := - q in
  let? starts := range (Z.of_nat (df_len pdf)) step in
  Ok (map (fun start => iloc pdf start step) starts).

(* ================================================================== *)
(** * 7. StreamTableEnvironment (lines 1651-1766)                      *)
(* ================================================================== *)

Record StreamExecutionEnvironment : Type := mkStreamExecutionEnvironment {
  _j_stream_execution_environment : JObj
}.

Record TableConfig : Type := mkTableConfig {
  _j_table_config : JObj
}.

(** [is_streaming_mode] is the answer of
    [environment_settings.is_streaming_mode()]. *)
Record EnvironmentSettings : Type := mkEnvironmentSettings {
  _j_environment_settings : JObj;
  is_streaming_mode : bool
}.

Module StreamTableEnvironment.
Section Create.
Context `{Gateway}.

(** [TableEnvironment._set_python_executable_for_local_executor]
    (line 1572), which [__init__] runs. *)
Definition _set_python_executable_for_local_executor (self : TableEnvironment)
  : Py unit :=
  let* j_env := _get_j_env self in
  let* j_config := jcall "get_j_env_configuration" [j_env] in
  let* key := jcall "PythonOptions.PYTHON_EXECUTABLE.key" [] in
  let* contains := jcall_bool "containsKey" [j_config; key] in
  if negb contains then
    let* is_local := jcall_bool "is_local_deployment" [j_config] in
    if is_local then
      let* key := jcall "PythonOptions.PYTHON_EXECUTABLE.key" [] in
      let* _ := jcall "setString" [j_config; key; JString "sys.executable"] in
      ret tt
    else ret tt
  else ret tt.

(** [StreamTableEnvironment.__init__] (line 1653) *)
Definition __init__ (j_tenv : JObj) : Py TableEnvironment :=
  let self := mkTableEnvironment j_tenv in
  let* _ := _set_python_executable_for_local_executor self in
  ret self.

(** [StreamTableEnvironment.create] (lines 1691-1726) *)
Definition create
    (stream_execution_environment : option StreamExecutionEnvironment)
    (table_config : option TableConfig)
    (environment_settings : option EnvironmentSettings) : Py TableEnvironment :=
  let* _ :=
    match stream_execution_environment, table_config, environment_settings with
    | None, None, None =>
        raise (ValueError
          "No argument found, the param 'stream_execution_environment' or 'environment_settings' is required.")
    | None, Some _, None =>
        raise (ValueError
          "Only the param 'table_config' is found, the param 'stream_execution_environment' is also required.")
    | _, _, _ => ret tt
    end in
  let* _ :=
    match table_config, environment_settings with
    | Some _, Some _ =>
        raise (ValueError
          "The param 'table_config' and 'environment_settings' cannot be used at the same time")
    | _, _ => ret tt
    end in
  let* j_tenv :=
    match environment_settings with
    | Some settings =>
        if negb (is_streaming_mode settings) then
          raise (ValueError
            "The environment settings for StreamTableEnvironment must be set to streaming mode.")
        else
          match stream_execution_environment with
          | None =>
              jcall "TableEnvironment.create" [_j_environment_settings settings]
          | Some env =>
              jcall "StreamTableEnvironment.create"
                    [_j_stream_execution_environment env; _j_environment_settings settings]
          end
    | None =>
        match table_config, stream_execution_environment with
        | Some config, Some env =>
            jcall "StreamTableEnvironment.create"
                  [_j_stream_execution_environment env; _j_table_config config]
        | None, Some env =>
            jcall "StreamTableEnvironment.create" [_j_stream_execution_environment env]
        | _, None => raise AttributeError
        end
    end in
  __init__ j_tenv.

End Create.
End StreamTableEnvironment.

(** A [pyflink.datastream.DataStream], by the Java stream it wraps. *)
Record DataStream : Type := mkDataStream {
  _j_data_stream : JObj
}.

Section FromDataStream.
Context `{Gateway}.

(** [StreamTableEnvironment.from_data_stream] (lines 1728-1766).  The
    variadic [fields] are the list of the arguments given.  Line 1766
    formats the message with the tuple of the fields as the arguments of
    its single [%r]: one field is formatted and the [ValueError] is raised
    (its text is kept without the field), two or more make the formatting
    itself raise [TypeError].  The [DeprecationWarning] of line 1762 is
    not kept. *)
Definition from_data_stream (self : TableEnvironment) (data_stream : DataStream)
    (fields : list PyObj) : Py Table :=
  let j_data_stream := _j_data_stream data_stream in
  let* j_env := jcall "getExecutionEnvironment" [j_data_stream] in
  let* _ := jcall "PythonConfigUtil.configPythonOperator" [j_env] in
  if (length fields =? 0)%nat then
    let* j_table := jcall "fromDataStream" [_j_tenv self; j_data_stream] in
    ret (mkTable j_table self)
  else if forallb is_Expression fields then
    let* j_fields := to_expression_jarray fields in
    let* j_table := jcall "fromDataStream" [_j_tenv self; j_data_stream; j_fields] in
    ret (mkTable j_table self)
  else
    match fields with
    | [PyStr names] =>
        let* j_table :=
          jcall "fromDataStream" [_j_tenv self; j_data_stream; JString names] in
        ret (mkTable j_table self)
    | [_] => raise (ValueError "Invalid arguments for 'fields'")
    | _ => raise (TypeError "not all arguments converted during string formatting")
    end.

End FromDataStream.

(* ================================================================== *)
(** * 8. Configuration strings (lines 1192-1319 and 1579-1589)         *)
(* ================================================================== *)

(** [sep.join(items)] *)
Fixpoint join (sep : string) (items : list string) : string :=
  match items with
  | [] => EmptyString
  | [item] => item
  | item :: rest => item +:+ sep +:+ join sep rest
  end.

(** [s.split(sep)] for a separator of one character: the pieces between
    the separators, empty pieces included; never the empty list. *)
Fixpoint split (sep : ascii) (s : string) : list string :=
  match s with
  | EmptyString => [EmptyString]
  | String c rest =>
      if Ascii.eqb c sep then EmptyString :: split sep rest
      else match split sep rest with
           | piece :: pieces => String c piece :: pieces
           | [] => [String c EmptyString]
           end
  end.

(** The methods below read and write the Java [Configuration] behind
    [self.get_config().get_configuration()]: [get_string(key, None)] is a
    lookup, [set_string(key, value)] an insertion.  The option keys and
    the two delimiters are constants of the JVM classes [PythonOptions]
    and [PythonDependencyUtils]. *)
Section PythonDependencies.
Variables PYTHON_FILES PYTHON_REQUIREMENTS PYTHON_ARCHIVES : string.
Variables FILE_DELIMITER PARAM_DELIMITER : string.

(** [TableEnvironment.add_python_file] (lines 1192-1210) *)
Definition add_python_file (configuration : gmap string string) (file_path : string)
  : gmap string string :=
  let python_files := configuration !! PYTHON_FILES in
  let python_files :=
    match python_files with
    | Some python_files => join FILE_DELIMITER [file_path; python_files]
    | None => file_path
    end in
  <[PYTHON_FILES := python_files]> configuration.

(** [TableEnvironment.set_python_requirements] (lines 1212-1254) *)
Definition set_python_requirements (configuration : gmap string string)
    (requirements_file_path : string) (requirements_cache_dir : option string)
  : gmap string string :=
  let python_requirements := requirements_file_path in
  let python_requirements :=
    match requirements_cache_dir with
    | Some cache_dir => join PARAM_DELIMITER [python_requirements; cache_dir]
    | None => python_requirements
    end in
  <[PYTHON_REQUIREMENTS := python_requirements]> configuration.

(** [TableEnvironment.add_python_archive] (lines 1256-1319) *)
Definition add_python_archive (configuration : gmap string string)
    (archive_path : string) (target_dir : option string) : gmap string string :=
  let archive_path :=
    match target_dir with
    | Some target_dir => join PARAM_DELIMITER [archive_path; target_dir]
    | None => archive_path
    end in
  let python_archives := configuration !! PYTHON_ARCHIVES in
  let python_files :=
    match python_archives with
    | Some python_archives => join FILE_DELIMITER [python_archives; archive_path]
    | None => archive_path
    end in
  <[PYTHON_ARCHIVES := python_files]> configuration.

End PythonDependencies.

(** [TableEnvironment._add_jars_to_j_env_config] (lines 1579-1589), on the
    table configuration it reads and the environment configuration it
    writes ([get_j_env_configuration(self._get_j_env())]), which is passed
    in and handed back with the outcome.  [normalize] is
    [jvm.java.net.URL(url).toString()], which raises for a malformed URL.
    The Python [set] is kept as the values inserted into it, oldest first:
    its members are those values, and the order in which Python iterates
    it, [set_order], is a matter of the insertions and not of the members
    alone. *)
Section Jars.
Variable normalize : string -> result string.
Variable set_order : list string -> list string.

Definition _add_jars_to_j_env_config (table_configuration : gmap string string)
    (config_key : string) (j_configuration : gmap string string)
  : result unit * gmap string string :=
  match table_configuration !! config_key with
  | Some jar_urls =>
      match result_map normalize (split ";" jar_urls) with
      | Ok urls =>
          let jar_urls_set : list string := urls in
          let jar_urls_set :=
            match j_configuration !! config_key with
            | Some existing =>
                foldl (fun (inserted : list string) url => inserted ++ [url]) jar_urls_set
                      (split ";" existing)
            | None => jar_urls_set
            end in
          (Ok tt, <[config_key := join ";" (set_order jar_urls_set)]> j_configuration)
      | Raise e => (Raise e, j_configuration)
      end
  | None => (Ok tt, j_configuration)
  end.

(** [TableEnvironment._before_execute] (lines 1630-1635): the jars, then
    the classpaths. *)
Definition _before_execute (jars_key classpaths_key : string)
    (table_configuration j_configuration : gmap string string)
  : result unit * gmap string string :=
  match _add_jars_to_j_env_config table_configuration jars_key j_configuration with
  | (Ok _, j_configuration) =>
      _add_jars_to_j_env_config table_configuration classpaths_key j_configuration
  | (Raise e, j_configuration) => (Raise e, j_configuration)
  end.

End Jars.

(* ================================================================== *)
(** * 9. SchemaInferenceConverter (specification 4.1)                  *)
(* ================================================================== *)

(** [_infer_schema_from_data], [_create_type_verifier] and
    [RowType.to_sql_type] are defined in [pyflink/table/types.py], which is
    not among the sources.  This module models what they do from the
    specification's operations [infer_schema], [verify] and [convert]. *)
Module SchemaInferenceConverter.

(** Modelled from the spec: the atomic descriptor of a raw value (4.1,
    "inspect value types"); [None], composites and expressions have none. *)
Definition atom_of (v : PyObj) : option Atomic :=
  match v with
  | PyBool _ => Some ABoolean
  | PyInt _ => Some AInteger
  | PyLong _ => Some ALong
  | PyFloat _ _ => Some AFloat
  | PyDouble _ _ => Some ADouble
  | PyStr _ => Some AString
  | PyBytearray _ => Some AByteArray
  | PyDate _ => Some ADate
  | PyTime _ => Some ATime
  | PyDatetime _ => Some ATimestamp
  | PyTimedelta _ => Some ADuration
  | PyDecimal _ _ => Some ADecimal
  | _ => None
  end.

(** Modelled from the spec: the position of a type in the widening order
    "boolean < integer < long < float < double"; the other atomic types
    are outside it. *)
Definition numeric_rank (a : Atomic) : option nat :=
  match a with
  | ABoolean => Some 0%nat
  | AInteger => Some 1%nat
  | ALong => Some 2%nat
  | AFloat => Some 3%nat
  | ADouble => Some 4%nat
  | _ => None
  end.

(** Modelled from the spec: the narrowest common type of two column
    types; equal types agree, two types of the widening order widen to the
    larger, and anything else cannot be reconciled (9, open question:
    "treat any case not covered ... as a SchemaError"). *)
Definition widen (a b : Atomic) : option Atomic :=
  if Atomic_eqb a b then Some a
  else match numeric_rank a, numeric_rank b with
       | Some i, Some j => Some (if (i <=? j)%nat then b else a)
       | _, _ => None
       end.

(** Modelled from the spec: the four shapes of a RawRecord (3). *)
Inductive Shape : Type := TupleShape | MappingShape | SequenceShape | RowShape.

Definition shape_of (r : PyObj) : option Shape :=
  match r with
  | PyTuple _ => Some TupleShape
  | PyDict _ => Some MappingShape
  | PyList _ => Some SequenceShape
  | PyRow _ _ => Some RowShape
  | _ => None
  end.

Definition Shape_eqb (a b : Shape) : bool :=
  match a, b with
  | TupleShape, TupleShape | MappingShape, MappingShape
  | SequenceShape, SequenceShape | RowShape, RowShape => true
  | _, _ => false
  end.

(** Modelled from the spec: the number of fields of a record. *)
Definition arity (r : PyObj) : nat :=
  match r with
  | PyTuple vs | PyList vs | PyRow _ vs => length vs
  | PyDict kvs => length kvs
  | _ => 0%nat
  end.

(** Modelled from the spec: the generated names "_1", "_2", ... the
    docstring of [from_elements] shows for records without names. *)
Definition generated_names (n : nat) : list string :=
  map (fun i => "_" +:+ pretty (S i)) (seq 0 n).

(** Modelled from the spec: the field names a record carries, in its own
    order ("examine the first record to determine ... field name order"). *)
Definition own_names (r : PyObj) : list string :=
  match r with
  | PyDict kvs => map fst kvs
  | PyRow (Some names) _ => names
  | _ => generated_names (arity r)
  end.

(** [d.get(key)] on a dict kept as its items. *)
Fixpoint assoc (key : string) (kvs : list (string * PyObj)) : option PyObj :=
  match kvs with
  | [] => None
  | (k, v) :: rest => if String.eqb key k then Some v else assoc key rest
  end.

(** [[d[key] for key in keys]], if every key is there. *)
Fixpoint assoc_all (keys : list string) (kvs : list (string * PyObj))
  : option (list PyObj) :=
  match keys with
  | [] => Some []
  | k :: rest =>
      match assoc k kvs, assoc_all rest kvs with
      | Some v, Some vs => Some (v :: vs)
      | _, _ => None
      end
  end.

(** Modelled from the spec: the values of record [r] in the field order of
    the first record, or nothing when [r] has another arity or field set
    (3, RawRecord invariant).  A mapping is read by the first record's
    keys; the other shapes are positional, and a row must carry the same
    names as the first. *)
Definition aligned_values (first r : PyObj) : option (list PyObj) :=
  if negb (arity r =? arity first)%nat then None
  else match first, r with
       | PyTuple _, PyTuple vs => Some vs
       | PyList _, PyList vs => Some vs
       | PyRow names _, PyRow names' vs =>
           if bool_decide (names = names') then Some vs else None
       | PyDict kvs0, PyDict kvs => assoc_all (map fst kvs0) kvs
       | _, _ => None
       end.

(** Modelled from the spec: the atomic types of a list of field values;
    the first value without one is reported with its position. *)
Fixpoint atoms_of (record field : nat) (vs : list PyObj) : result (list Atomic) :=
  match vs with
  | [] => Ok []
  | v :: rest =>
      match atom_of v with
      | Some a => let? r := atoms_of record (S field) rest in Ok (a :: r)
      | None => Raise (SchemaError (Untypeable record field))
      end
  end.

(** Modelled from the spec: the field types of record number [record],
    checked against the first record's shape and arity. *)
Definition record_types (first : PyObj) (record : nat) (r : PyObj)
  : result (list Atomic) :=
  match shape_of first, shape_of r with
  | Some s0, Some s =>
      if Shape_eqb s0 s then
        match aligned_values first r with
        | Some vs => atoms_of record 0 vs
        | None => Raise (SchemaError (ArityMismatch record))
        end
      else Raise (SchemaError (ShapeMismatch record))
  | _, _ => Raise (SchemaError (ShapeMismatch record))
  end.

(** Modelled from the spec: column by column, the common type of the
    types so far and those of record number [record] ("widening on
    conflict ... failing ... if two records disagree in incompatible
    ways").  Both lists have the first record's arity. *)
Fixpoint merge_types (record field : nat) (acc ts : list Atomic)
  : result (list Atomic) :=
  match acc, ts with
  | a :: acc', t :: ts' =>
      match widen a t with
      | Some c => let? r := merge_types record (S field) acc' ts' in Ok (c :: r)
      | None => Raise (SchemaError (TypeMismatch record field))
      end
  | [], [] => Ok []
  | _, _ => Raise (SchemaError (ArityMismatch record))
  end.

(** Modelled from the spec: the column types over all records, from
    record number [record] on. *)
Fixpoint infer_columns (first : PyObj) (record : nat) (acc : list Atomic)
    (records : list PyObj) : result (list Atomic) :=
  match records with
  | [] => Ok acc
  | r :: rest =>
      let? ts := record_types first record r in
      let? acc := merge_types record 0 acc ts in
      infer_columns first (S record) acc rest
  end.

(** Modelled from the spec: [_infer_schema_from_data(elements, names)]
    (pyflink/table/types.py, not among the sources), after
    [infer_schema(records, name_hint)] of 4.1 for an absent or names-only
    hint, which is all [from_elements] asks of it.  The first record
    fixes shape, arity and field names; a names hint replaces the names
    and must have the arity's length; the column types are widened over
    all records.  Inferred fields are nullable. *)
Definition infer_schema (records : list PyObj) (name_hint : option (list string))
  : result DataType :=
  match records with
  | [] => Raise (SchemaError EmptyInput)
  | first :: rest =>
      let? ts := record_types first 0 first in
      let? names :=
        match name_hint with
        | Some hint =>
            if (length hint =? arity first)%nat then Ok hint
            else Raise (SchemaError (NameHintLength (length hint) (arity first)))
        | None =>
            if (length (own_names first) =? arity first)%nat then Ok (own_names first)
            else Raise (SchemaError (ArityMismatch 0))
        end in
      let? columns := infer_columns first 1 ts rest in
      Ok (RowType (zip names (map (fun a => AtomicType a true) columns)) true)
  end.

(** The name of a type in a [ValidationError]. *)
Definition type_name (t : DataType) : string :=
  match t with
  | AtomicType ABoolean _ => "BOOLEAN"
  | AtomicType AInteger _ => "INT"
  | AtomicType ALong _ => "BIGINT"
  | AtomicType AFloat _ => "FLOAT"
  | AtomicType ADouble _ => "DOUBLE"
  | AtomicType AString _ => "STRING"
  | AtomicType AByteArray _ => "BYTES"
  | AtomicType ADate _ => "DATE"
  | AtomicType ATime _ => "TIME"
  | AtomicType ATimestamp _ => "TIMESTAMP"
  | AtomicType ADuration _ => "INTERVAL"
  | AtomicType ADecimal _ => "DECIMAL"
  | RowType _ _ => "ROW"
  | ListType _ _ => "ARRAY"
  | MapType _ _ _ => "MAP"
  end.

Definition mismatch {A} (field : string) (t : DataType) : result A :=
  Raise (ValidationError field (type_name t)).

(** Modelled from the spec: a row's fields against positional values, one
    by one and in order; [bad] is raised when the counts differ. *)
Fixpoint row_positional {R} (f : string -> DataType -> PyObj -> result R) (bad : exn)
    (fields : list (string * DataType)) (vs : list PyObj) : result (list R) :=
  match fields, vs with
  | [], [] => Ok []
  | (name, ft) :: fields', x :: vs' =>
      let? e := f name ft x in
      let? es := row_positional f bad fields' vs' in
      Ok (e :: es)
  | _, _ => Raise bad
  end.

(** Modelled from the spec: a row's fields against a mapping, "looked up
    by name then placed positionally"; [missing] is raised for a field
    the mapping does not have. *)
Fixpoint row_named {R} (f : string -> DataType -> PyObj -> result R)
    (missing : string -> DataType -> exn) (kvs : list (string * PyObj))
    (fields : list (string * DataType)) : result (list R) :=
  match fields with
  | [] => Ok []
  | (name, ft) :: fields' =>
      match assoc name kvs with
      | Some x =>
          let? e := f name ft x in
          let? es := row_named f missing kvs fields' in
          Ok (e :: es)
      | None => Raise (missing name ft)
      end
  end.

(** Modelled from the spec: the verifier that [_create_type_verifier]
    (pyflink/table/types.py, not among the sources) returns, after
    [verify(schema, record)] of 4.1.  "For each field, checks the record's
    corresponding value is type-compatible with the field's TypeDescriptor
    (accounting for nullability)"; [field] names the place for the error.  A row accepts the four record shapes: the
    positional ones by position, a mapping by field name; both must have
    the row's arity.  A list accepts a sequence, a map a mapping whose
    keys fit the key type. *)
Fixpoint verify (t : DataType) (field : string) (v : PyObj) {struct t} : result unit :=
  match v with
  | PyNone => if nullable t then Ok tt else mismatch field t
  | _ =>
      match t with
      | AtomicType a _ =>
          match atom_of v with
          | Some a' => if Atomic_eqb a a' then Ok tt else mismatch field t
          | None => mismatch field t
          end
      | RowType fields _ =>
          let check name ft x := verify ft name x in
          match v with
          | PyTuple vs | PyList vs | PyRow _ vs =>
              let? _ := row_positional check (ValidationError field (type_name t))
                                       fields vs in
              Ok tt
          | PyDict kvs =>
              if (length kvs =? length fields)%nat then
                let? _ := row_named check
                            (fun name ft => ValidationError name (type_name ft))
                            kvs fields in
                Ok tt
              else mismatch field t
          | _ => mismatch field t
          end
      | ListType element _ =>
          match v with
          | PyList vs =>
              let? _ := result_map (verify element field) vs in Ok tt
          | _ => mismatch field t
          end
      | MapType key value _ =>
          match v with
          | PyDict kvs =>
              let? _ := result_map (fun '(k, x) =>
                                      let? _ := verify key field (PyStr k) in
                                      verify value field x) kvs in
              Ok tt
          | _ => mismatch field t
          end
      end
  end.

(** Modelled from the spec: [DataType.to_sql_type] (pyflink/table/types.py,
    not among the sources), after [convert(schema, record)] of 4.1.  "Maps
    each positional/named raw value into the internal row representation,
    recursing into composite fields"; "for mapping-shaped records, values
    are looked up by name then placed positionally".  It is total on
    verified input; elsewhere it may raise. *)
Fixpoint convert (t : DataType) (v : PyObj) {struct t} : result EngineRow :=
  match v with
  | PyNone => Ok ENull
  | _ =>
      match t with
      | AtomicType _ _ =>
          match atom_of v with
          | Some a => Ok (EScalar a v)
          | None => Raise (TypeError "not an atomic value")
          end
      | RowType fields _ =>
          let field_value (_ : string) ft x := convert ft x in
          match v with
          | PyTuple vs | PyList vs | PyRow _ vs =>
              let? es := row_positional field_value (ValueError "wrong number of fields")
                                        fields vs in
              Ok (ERow es)
          | PyDict kvs =>
              let? es := row_named field_value (fun _ _ => ValueError "missing field")
                                   kvs fields in
              Ok (ERow es)
          | _ => Raise (ValueError "Unexpected tuple with RowType")
          end
      | ListType element _ =>
          match v with
          | PyList vs => let? es := result_map (convert element) vs in Ok (EList es)
          | _ => Raise (TypeError "not a sequence")
          end
      | MapType _ value _ =>
          match v with
          | PyDict kvs =>
              let? es := result_map (fun '(k, x) =>
                                       let? e := convert value x in Ok (k, e)) kvs in
              Ok (EMap (list_to_map es))
          | _ => Raise (TypeError "not a mapping")
          end
      end
  end.

(** Equality of Python values, as [==] decides it on the data of this
    model.  Sequences are compared item by item; two dicts are equal when
    they have the same keys with equal values, whatever order their items
    are held in. *)
Inductive py_equal : PyObj -> PyObj -> Prop :=
| py_equal_refl v : py_equal v v
| py_equal_tuple vs vs' :
    Forall2 py_equal vs vs' -> py_equal (PyTuple vs) (PyTuple vs')
| py_equal_list vs vs' :
    Forall2 py_equal vs vs' -> py_equal (PyList vs) (PyList vs')
| py_equal_row names vs vs' :
    Forall2 py_equal vs vs' -> py_equal (PyRow names vs) (PyRow names vs')
| py_equal_dict kvs kvs' :
    NoDup (map fst kvs) -> NoDup (map fst kvs') ->
    (forall k, option_Forall2 py_equal (assoc k kvs) (assoc k kvs')) ->
    py_equal (PyDict kvs) (PyDict kvs').

(** Modelled from the spec: [RowType.to_sql_type] (pyflink/table/types.py,
    not among the sources) as [from_elements] calls it.  "If hint is a
    scalar DataType ... every record is treated as a scalar value for that
    one field": a record is converted by [convert]; a value that is no
    record is the value of the row's only field. *)
Definition to_sql_type_model (schema : DataType) (obj : PyObj) : result EngineRow :=
  match shape_of obj, schema with
  | None, RowType [(_, t)] _ =>
      match obj with
      | PyNone => convert schema obj
      | _ => let? e := convert t obj in Ok (ERow [e])
      end
  | _, _ => convert schema obj
  end.

(** The types module as the specification describes it, used to run the
    embedded methods on concrete input.  [_create_converter] leaves the
    record as it is; Arrow types are known by their pyarrow names. *)
Definition types_model : TypesModule := {|
  _create_type_verifier t name :=
    Ok (verify t (match name with Some n => n | None => "obj" end));
  _infer_schema_from_data := infer_schema;
  _create_converter _ := Ok (fun obj => Ok obj);
  to_sql_type := to_sql_type_model;
  from_arrow_type name is_nullable :=
    if String.eqb name "int64" then Ok (AtomicType ALong is_nullable)
    else if String.eqb name "double" then Ok (AtomicType ADouble is_nullable)
    else if String.eqb name "string" then Ok (AtomicType AString is_nullable)
    else if String.eqb name "bool" then Ok (AtomicType ABoolean is_nullable)
    else Raise (TypeError "Unsupported type");
  create_arrow_schema _ _ := Ok tt
|}.

End SchemaInferenceConverter.

(* ================================================================== *)
(** * 10. PathResolver (specification 4.2)                             *)
(* ================================================================== *)

(** [from_path] hands the path string to the JVM ([get_method(self._j_tenv,
    "from")(path)], line 606); the resolution itself is done by the
    engine's catalog manager, which is not among the sources.  The
    docstrings of [use_catalog] and [use_database] document its table.
    This module models the algorithm from the specification. *)
Module PathResolver.

Record QualifiedPath : Type := mkQualifiedPath {
  catalog : option string;
  database : option string;
  object : string
}.

(** A parsed segment: written between backticks or not. *)
Inductive segment : Type :=
| Escaped (text : string)
| Plain (text : string).

(** Where the scanner is: at the start of a segment, inside an unescaped
    segment, inside backticks, or just after the closing backtick. *)
Inductive mode : Type :=
| AtStart
| InPlain (text : string)
| InEscaped (text : string)
| AfterEscaped (text : string).

Definition is_dot (c : ascii) : bool := Ascii.eqb c "."%char.
Definition is_backtick (c : ascii) : bool := Ascii.eqb c "`"%char.
Definition snoc (text : string) (c : ascii) : string := text +:+ String c EmptyString.

Definition finish_escaped (text : string) : result segment :=
  match text with
  | EmptyString => Raise (ParseError EmptySegment)
  | _ => Ok (Escaped text)
  end.

(** Modelled from the spec: step 1, "parse path into ... dot-separated
    segments, respecting backtick-escaping (a segment wrapped in matching
    backticks is taken literally, including any embedded dots ...)", and
    of step 5 the unterminated escape.  A segment may not be empty
    (3, QualifiedPath invariant), and a backtick elsewhere than around a
    whole segment is an error. *)
Fixpoint segments (m : mode) (path : string) : result (list segment) :=
  match path with
  | EmptyString =>
      match m with
      | AtStart => Raise (ParseError EmptySegment)
      | InPlain text => Ok [Plain text]
      | InEscaped _ => Raise (ParseError UnterminatedBacktick)
      | AfterEscaped text => let? s := finish_escaped text in Ok [s]
      end
  | String c rest =>
      match m with
      | AtStart =>
          if is_backtick c then segments (InEscaped EmptyString) rest
          else if is_dot c then Raise (ParseError EmptySegment)
          else segments (InPlain (String c EmptyString)) rest
      | InPlain text =>
          if is_dot c then
            let? more := segments AtStart rest in Ok (Plain text :: more)
          else if is_backtick c then Raise (ParseError StrayBacktick)
          else segments (InPlain (snoc text c)) rest
      | InEscaped text =>
          if is_backtick c then segments (AfterEscaped text) rest
          else segments (InEscaped (snoc text c)) rest
      | AfterEscaped text =>
          if is_dot c then
            let? s := finish_escaped text in
            let? more := segments AtStart rest in
            Ok (s :: more)
          else Raise (ParseError StrayBacktick)
      end
  end.

Section Resolve.
(** The reserved words of the SQL parser, which the specification does
    not list. *)
Variable is_reserved : string -> bool.

(** Modelled from the spec: step 1, "an unescaped reserved word that
    collides with a keyword is a ParseError". *)
Definition identifier (s : segment) : result string :=
  match s with
  | Escaped text => Ok text
  | Plain text =>
      if is_reserved text then Raise (ParseError (ReservedWord text)) else Ok text
  end.

(** Modelled from the spec: the path resolution of the engine's catalog
    manager (JVM side, not among the sources), after [resolve(path,
    current_catalog, current_database)] of 4.2, steps 1 to 5. *)
Definition resolve (path current_catalog current_database : string)
  : result QualifiedPath :=
  match path with
  | EmptyString => Raise (ParseError ZeroSegments)
  | _ =>
      let? parsed := segments AtStart path in
      let? names := result_map identifier parsed in
      match names with
      | [obj] =>
          Ok (mkQualifiedPath (Some current_catalog) (Some current_database) obj)
      | [db; obj] =>
          Ok (mkQualifiedPath (Some current_catalog) (Some db) obj)
      | [cat; db; obj] =>
          Ok (mkQualifiedPath (Some cat) (Some db) obj)
      | [] => Raise (ParseError ZeroSegments)
      | _ => Raise (ParseError TooManySegments)
      end
  end.

End Resolve.

(** A keyword table to run [resolve] with: the one reserved word the
    source names ("table is a reserved keyword"), in any case. *)
Definition reserved_sample (word : string) : bool :=
  bool_decide (word ∈ ["table"; "Table"; "TABLE"]).

End PathResolver.

(* ================================================================== *)
(** * 11. Sample surroundings                                          *)
(* ================================================================== *)

(** A gateway on which no call fails; [containsKey] says no and
    [is_local_deployment] says yes. *)
Definition quiet_gateway : Gateway := {|
  java_raises _ _ := None;
  java_truth method _ := String.eqb method "is_local_deployment"
|}.

(** A gateway on which every call fails. *)
Definition failing_gateway : Gateway := {|
  java_raises method _ := Some (JavaError method);
  java_truth _ _ := false
|}.

(** Serializers that write one byte per element or slice and finish. *)
Definition counting_serializers : Serializers := {|
  BatchedSerializer_serialize elements := (map (fun _ => x2a) elements, None);
  pytz_timezone tz := Ok tz;
  ArrowSerializer_serialize _ _ data := (map (fun _ => x2a) data, None)
|}.

(** Serializers that write one byte and then fail. *)
Definition failing_serializers : Serializers := {|
  BatchedSerializer_serialize _ := ([x2a], Some TransportError);
  pytz_timezone tz := Ok tz;
  ArrowSerializer_serialize _ _ _ := ([x2a], Some TransportError)
|}.

Definition empty_world : World := mkWorld ∅ ∅ ∅ 0 [].

Definition the_env : TableEnvironment := mkTableEnvironment (JCall "j_tenv" []).

(** A URL check that refuses the empty string and leaves every other
    string as it is. *)
Definition sample_normalize (url : string) : result string :=
  if String.eqb url "" then Raise (JavaError "java.net.URL") else Ok url.

(** An iteration order of sets of strings: each member at the place of
    its last insertion. *)
Definition sample_set_order (inserted : list string) : list string :=
  remove_dups inserted.

(** A table configuration and an environment configuration that list
    jars, with one jar in common. *)
Definition sample_table_configuration : gmap string string :=
  <["pipeline.jars" := "file:/a.jar;file:/b.jar"]> (<["pipeline.classpaths" := ";"]> ∅).

Definition sample_j_configuration : gmap string string :=
  <["pipeline.jars" := "file:/b.jar;file:/c.jar"]> ∅.

(* ================================================================== *)
(** * 12. Vocabulary of the statements                                 *)
(* ================================================================== *)

(** The verifier [from_elements] builds for a [DataType] schema: for a row
    type the row verifier, for any other type the verifier of that type
    under the name "field value" (lines 1411 and 1420). *)
Definition schema_verifier `{TypesModule} (t : DataType)
  : result (PyObj -> result unit) :=
  if is_RowType t then _create_type_verifier t None
  else _create_type_verifier t (Some "field value").

(** The row type [from_elements] works with for a [DataType] schema. *)
Definition schema_row (t : DataType) : DataType :=
  if is_RowType t then t else RowType [RowField "value" t] true.

(** Some element is an [Expression] and some element is not. *)
Definition mixed (elements : list PyObj) : bool :=
  existsb is_Expression elements && existsb (fun e => negb (is_Expression e)) elements.

(** [from_elements] from line 1443 on, for the row type [row], the
    function [verify_obj] and the elements as they are after line 1440. *)
Definition from_elements_tail `{TypesModule} `{Serializers} `{Gateway}
    (self : TableEnvironment) (row : DataType)
    (verify_obj : PyObj -> result PyObj) (elements : list PyObj) : Py Table :=
  if all_expressions elements then
    let* j_type := _to_java_data_type row in
    let* j_exprs := to_expression_jarray elements in
    let* j_table := jcall "fromValues" [_j_tenv self; j_type; j_exprs] in
    ret (mkTable j_table self)
  else if any_expression elements then
    raise (ValueError
      "It doesn't support part of the elements are Expression, while the others are not.")
  else
    let* rows := lift (verify_and_convert row verify_obj elements) in
    _from_elements self rows row.

(** The argument combinations [StreamTableEnvironment.create] is said to
    refuse: no argument at all, [table_config] alone, [table_config]
    together with [environment_settings], or settings that are not in
    streaming mode. *)
Definition create_refuses (stream_execution_environment : option StreamExecutionEnvironment)
    (table_config : option TableConfig)
    (environment_settings : option EnvironmentSettings) : bool :=
  (bool_decide (stream_execution_environment = None)
     && bool_decide (table_config = None) && bool_decide (environment_settings = None))
  || (bool_decide (stream_execution_environment = None)
        && negb (bool_decide (table_config = None))
        && bool_decide (environment_settings = None))
  || (negb (bool_decide (table_config = None))
        && negb (bool_decide (environment_settings = None)))
  || match environment_settings with
     | Some settings => negb (is_streaming_mode settings)
     | None => false
     end.

(** The exception [e] came back from the last call through the gateway. *)
Definition raised_by_gateway `{Gateway} (e : exn) (w : World) : Prop :=
  exists method args,
    last (jvm_calls w) = Some (method, args) /\ java_raises method args = Some e.

(** A computation that can only fail because a gateway call failed. *)
Definition gateway_only `{Gateway} {A} (c : Py A) : Prop :=
  forall w, match c w with
            | (Ok _, _) => True
            | (Raise e, w') => raised_by_gateway e w'
            end.

(** The Java environment behind [env] was made by one of the two factory
    calls, and that call is in the world's record. *)
Definition constructed (env : TableEnvironment) (w : World) : Prop :=
  exists method args,
    _j_tenv env = JCall method args
    /\ (method = "TableEnvironment.create" \/ method = "StreamTableEnvironment.create")
    /\ In (method, args) (jvm_calls w).

Import SchemaInferenceConverter.

(** The calls recorded so far stay recorded. *)
Definition keeps_calls {A} (c : Py A) : Prop :=
  forall w call, In call (jvm_calls w) -> In call (jvm_calls (snd (c w))).

(** The two (int, str) tuples of the docstring of [from_elements]. *)
Definition sample_rows : list PyObj :=
  [PyTuple [PyInt 1; PyStr "Hi"]; PyTuple [PyInt 2; PyStr "Hello"]].

(** The row type of the docstring of [from_elements]. *)
Definition sample_row_type : DataType :=
  RowType [RowField "a" (AtomicType AInteger true);
           RowField "b" (AtomicType AString true)] true.

(** A computation that leaves the file system alone. *)
Definition keeps_fs {A} (c : Py A) : Prop :=
  forall w, let w' := snd (c w) in
            fs_dirs w' = fs_dirs w /\ fs_files w' = fs_files w /\ fs_open w' = fs_open w.

(** A [pandas.DataFrame] with one column and no rows. *)
Definition empty_frame : DataFrame :=
  mkDataFrame [mkColumn "x" "int64" true []] 0.

(** A name without dots and backticks. *)
Fixpoint plain (name : string) : bool :=
  match name with
  | EmptyString => true
  | String c rest =>
      negb (PathResolver.is_dot c) && negb (PathResolver.is_backtick c) && plain rest
  end.

(** [a] widens to [c] (or is [c]). *)
Definition fits (a c : Atomic) : Prop := widen a c = Some c.

(** The value of field [j] of record [r], fields counted in the order of
    the first record. *)
Definition column_value (first r : PyObj) (j : nat) : option PyObj :=
  match aligned_values first r with
  | Some vs => vs !! j
  | None => None
  end.

(** Record [r] has the first record's shape and arity and its field
    values, in the first record's order, have the atomic types [ts]. *)
Definition typed_as (first r : PyObj) (ts : list Atomic) : Prop :=
  shape_of r = shape_of first /\ arity r = arity first
  /\ exists vs, aligned_values first r = Some vs
                /\ Forall2 (fun v a => atom_of v = Some a) vs ts.

(** The field types of any two records can be widened with each other,
    column by column. *)
Definition reconcilable (first : PyObj) (records : list PyObj) : Prop :=
  forall r1 r2 j v1 v2 a1 a2,
    In r1 records -> In r2 records ->
    column_value first r1 j = Some v1 -> atom_of v1 = Some a1 ->
    column_value first r2 j = Some v2 -> atom_of v2 = Some a2 ->
    widen a1 a2 <> None.

(** The widening order "boolean < integer < long < float < double" of
    the specification, smallest first. *)
Definition widening_order : list Atomic := [ABoolean; AInteger; ALong; AFloat; ADouble].

(** In every column the values of any two records are of the same type,
    or both of types of the widening order. *)
Definition columns_uniform_or_numeric (first : PyObj) (records : list PyObj) : Prop :=
  forall r1 r2 j v1 v2 a1 a2,
    In r1 records -> In r2 records ->
    column_value first r1 j = Some v1 -> atom_of v1 = Some a1 ->
    column_value first r2 j = Some v2 -> atom_of v2 = Some a2 ->
    a1 = a2 \/ (In a1 widening_order /\ In a2 widening_order).

(** A [pandas.DataFrame] with two columns and two rows. *)
Definition two_columns : DataFrame :=
  mkDataFrame [mkColumn "x" "int64" true [PyLong 1; PyLong 2];
               mkColumn "y" "double" true [PyDouble 1 0; PyDouble 1 1]] 2.

(** The conversion of a verified value succeeds. *)
Definition converts (t : DataType) : Prop :=
  forall field v, verify t field v = Ok tt -> exists e, convert t v = Ok e.

(** Equal verified values convert alike. *)
Definition respects (t : DataType) : Prop :=
  forall field v v',
    verify t field v = Ok tt -> py_equal v v' -> convert t v' = convert t v.

(** A record as a mapping, and the same mapping with its items in the
    other order. *)
Definition sample_mapping : PyObj := PyDict [("a", PyInt 1); ("b", PyStr "Hi")].
Definition sample_mapping_reordered : PyObj := PyDict [("b", PyStr "Hi"); ("a", PyInt 1)].

(** [sep in s] *)
Fixpoint contains (sep : ascii) (s : string) : bool :=
  match s with
  | EmptyString => false
  | String c rest => Ascii.eqb c sep || contains sep rest
  end.

(** The entries of a configuration value that lists URLs between
    semicolons, as a set; nothing when the key is not set. *)
Definition entries (configuration : gmap string string) (key : string) : gset string :=
  match configuration !! key with
  | Some value => list_to_set (split ";" value)
  | None => ∅
  end.

(** What a configuration value lists between semicolons, in the order
    of the value; nothing when the key is not set. *)
Definition listed (configuration : gmap string string) (key : string) : list string :=
  match configuration !! key with
  | Some value => split ";" value
  | None => []
  end.

(** [set_order] lists exactly the members of a set, each once, whatever
    the insertions were. *)
Definition lists_the_set (set_order : list string -> list string) : Prop :=
  forall inserted : list string,
    NoDup (set_order inserted) /\ forall url, url ∈ set_order inserted <-> url ∈ inserted.

(** The entry [add_python_archive] writes for an archive and its target
    directory. *)
Definition archive_entry (param_delimiter : string) (archive : string * option string)
  : string :=
  match archive with
  | (archive_path, Some target_dir) => join param_delimiter [archive_path; target_dir]
  | (archive_path, None) => archive_path
  end.

(** Every column of the frame holds [len(pdf)] values. *)
Definition well_formed (pdf : DataFrame) : Prop :=
  Forall (fun c => length (col_data c) = df_len pdf) (df_columns pdf).

(** Column [i] of the slices, put end to end. *)
Definition slices_column (slices : list (list (list PyObj))) (i : nat) : list PyObj :=
  concat (map (fun slice => nth i slice []) slices).

(** A frame of two columns and three rows. *)
Definition sample_frame : DataFrame :=
  mkDataFrame [mkColumn "x" "int64" true [PyLong 1; PyLong 2; PyLong 3];
               mkColumn "y" "string" true [PyStr "a"; PyStr "b"; PyStr "c"]] 3.

(** [setString] is among the calls. *)
Definition sets_string (calls : list (string * list JObj)) : bool :=
  existsb (fun call => String.eqb (fst call) "setString") calls.

(** The calls a computation adds to the record hold a [setString] only
    if [Q]. *)
Definition sets_only_if `{Gateway} (Q : Prop) {A} (c : Py A) : Prop :=
  forall w, exists calls,
    jvm_calls (snd (c w)) = jvm_calls w ++ calls /\ (sets_string calls = true -> Q).

(* ================================================================== *)
(** * 13. Properties of the embedded methods                           *)
(* ================================================================== *)

Section GatewayFacts.
Context `{Gateway}.

Lemma gateway_only_ret {A} (a : A) : gateway_only (ret a).
Proof. intros w. exact I. Qed.

Lemma gateway_only_jcall method args : gateway_only (jcall method args).
Proof.
  intros w. unfold jcall.
  destruct (java_raises method args) as [e|] eqn:E; [|exact I].
  exists method, args. simpl. split; [apply last_snoc | exact E].
Qed.

Lemma gateway_only_bind {A B} (c : Py A) (k : A -> Py B) :
  gateway_only c -> (forall a, gateway_only (k a)) -> gateway_only (bind c k).
Proof.
  intros Hc Hk w. unfold bind. specialize (Hc w).
  destruct (c w) as [[a|e] w1]; [apply Hk | exact Hc].
Qed.

Lemma gateway_only_jcall_bool method args : gateway_only (jcall_bool method args).
Proof.
  apply gateway_only_bind; [apply gateway_only_jcall | intros; apply gateway_only_ret].
Qed.

Lemma jcall_records method args w :
  jvm_calls (snd (jcall method args w)) = jvm_calls w ++ [(method, args)].
Proof. unfold jcall. destruct (java_raises method args); reflexivity. Qed.

Lemma jcall_Ok method args w j w' :
  jcall method args w = (Ok j, w') ->
  j = JCall method args /\ jvm_calls w' = jvm_calls w ++ [(method, args)].
Proof.
  unfold jcall. destruct (java_raises method args); intros E; inversion E; auto.
Qed.

Lemma keeps_calls_ret {A} (a : A) : keeps_calls (ret a).
Proof. intros w call Hin. exact Hin. Qed.

Lemma keeps_calls_jcall method args : keeps_calls (jcall method args).
Proof.
  intros w call Hin. rewrite jcall_records. apply in_or_app. left. exact Hin.
Qed.

Lemma keeps_calls_bind {A B} (c : Py A) (k : A -> Py B) :
  keeps_calls c -> (forall a, keeps_calls (k a)) -> keeps_calls (bind c k).
Proof.
  intros Hc Hk w call Hin. unfold bind. specialize (Hc w call Hin).
  destruct (c w) as [[a|e] w1]; simpl in *; [apply Hk; exact Hc | exact Hc].
Qed.

Lemma keeps_calls_jcall_bool method args : keeps_calls (jcall_bool method args).
Proof.
  apply keeps_calls_bind; [apply keeps_calls_jcall | intros; apply keeps_calls_ret].
Qed.

End GatewayFacts.

Ltac gateway_steps :=
  repeat first
    [ apply gateway_only_ret | apply gateway_only_jcall | apply gateway_only_jcall_bool
    | apply gateway_only_bind; [| intros ?]
    | match goal with |- gateway_only (if ?b then _ else _) => destruct b end ].

Ltac keeps_steps :=
  repeat first
    [ apply keeps_calls_ret | apply keeps_calls_jcall | apply keeps_calls_jcall_bool
    | apply keeps_calls_bind; [| intros ?]
    | match goal with |- keeps_calls (if ?b then _ else _) => destruct b end ].

Section CreateFacts.
Context `{Gateway}.
Import StreamTableEnvironment.

Lemma init_gateway_only j_tenv : gateway_only (__init__ j_tenv).
Proof.
  unfold __init__, _set_python_executable_for_local_executor, _get_j_env.
  gateway_steps.
Qed.

Lemma init_keeps_calls j_tenv : keeps_calls (__init__ j_tenv).
Proof.
  unfold __init__, _set_python_executable_for_local_executor, _get_j_env.
  keeps_steps.
Qed.

Lemma init_Ok j_tenv w env w' :
  __init__ j_tenv w = (Ok env, w') -> env = mkTableEnvironment j_tenv.
Proof.
  unfold __init__. unfold bind at 1.
  destruct (_set_python_executable_for_local_executor _ w) as [[u|e] w1];
    intros E; inversion E; reflexivity.
Qed.

(** Once the factory call [method(args)] has been made, [__init__] either
    returns the environment around its result or fails on a later call. *)
Lemma create_tail method args w :
  match bind (jcall method args) __init__ w with
  | (Ok env, w') =>
      _j_tenv env = JCall method args /\ In (method, args) (jvm_calls w')
  | (Raise e, w') => raised_by_gateway e w'
  end.
Proof.
  pose proof (gateway_only_jcall method args w) as Hg.
  unfold bind. destruct (jcall method args w) as [[j|e] w1] eqn:Ej; [|exact Hg].
  apply jcall_Ok in Ej as [-> Hcalls].
  pose proof (init_gateway_only (JCall method args) w1) as Hi.
  pose proof (init_keeps_calls (JCall method args) w1 (method, args)) as Hk.
  destruct (__init__ (JCall method args) w1) as [[env|e] w2] eqn:Ei; [|exact Hi].
  apply init_Ok in Ei as ->. split; [reflexivity|].
  apply Hk. rewrite Hcalls. apply in_or_app. right. left. reflexivity.
Qed.

End CreateFacts.

(** C10.  [StreamTableEnvironment.create] raises a [ValueError], having
    made no call through the gateway, exactly for the argument
    combinations of [create_refuses]: no argument, [table_config] alone,
    [table_config] with [environment_settings], or settings not in
    streaming mode.  For every other combination it makes the factory
    call and returns the environment built around its result; the only way
    it can fail then is an exception coming back from the gateway. *)
Theorem create_refuses_or_constructs :
  forall (G : Gateway) stream_execution_environment table_config environment_settings w,
    if create_refuses stream_execution_environment table_config environment_settings
    then exists msg,
           StreamTableEnvironment.create stream_execution_environment table_config
             environment_settings w = (Raise (ValueError msg), w)
    else match StreamTableEnvironment.create stream_execution_environment table_config
                 environment_settings w with
         | (Ok env, w') => constructed env w'
         | (Raise e, w') => raised_by_gateway e w'
         end.
Proof.
  intros G env tc es w.
  destruct env as [env|], tc as [tc|], es as [[j streaming]|];
    try destruct streaming.
  all: lazymatch goal with
       | |- if ?b then _ else _ =>
           let v := eval vm_compute in b in change b with v; cbv iota
       end.
  all: try (eexists; reflexivity).
  all: unfold StreamTableEnvironment.create; cbn [is_streaming_mode negb].
  all: lazymatch goal with
       | |- context [jcall ?m ?a] =>
           pose proof (create_tail m a w) as Ht;
           lazymatch goal with
           | |- match ?t with pair _ _ => _ end =>
               change t with (bind (jcall m a) StreamTableEnvironment.__init__ w)
           end
       end.
  all: destruct (bind _ StreamTableEnvironment.__init__ w) as [[env'|e'] w'];
    [| exact Ht].
  all: destruct Ht as [Hj Hin]; eexists _, _; split; [exact Hj|]; split; [|exact Hin]; auto.
Qed.

Lemma result_map_ext {A B} (f g : A -> result B) (xs : list A) :
  Forall (fun x => f x = g x) xs -> result_map f xs = result_map g xs.
Proof.
  induction 1 as [|x xs Hx _ IH]; simpl; [reflexivity|].
  rewrite Hx, IH. reflexivity.
Qed.

(** A comprehension over a list with an element its body raises on does
    not produce a list. *)
Lemma result_map_raises {A B} (f : A -> result B) (xs : list A) x e :
  In x xs -> f x = Raise e -> exists e', result_map f xs = Raise e'.
Proof.
  induction xs as [|y ys IH]; intros Hin Hx; [destruct Hin|].
  simpl. destruct Hin as [->|Hin].
  - rewrite Hx. eexists. reflexivity.
  - destruct (f y) as [b|e1]; simpl; [|eexists; reflexivity].
    destruct (IH Hin Hx) as [e' ->]. eexists. reflexivity.
Qed.

Lemma mixed_not_all_expressions elements :
  mixed elements = true ->
  all_expressions elements = false /\ any_expression elements = true.
Proof.
  unfold mixed, all_expressions, any_expression.
  intros Hm. apply andb_prop in Hm as [Hany Hnot]. split; [|exact Hany].
  apply andb_false_intro2.
  apply existsb_exists in Hnot as [x [Hin Hx]].
  destruct (forallb is_Expression elements) eqn:Hall; [|reflexivity].
  rewrite forallb_forall in Hall. rewrite (Hall x Hin) in Hx. discriminate.
Qed.

Section FromElementsFacts.
Context `{TypesModule} `{Serializers} `{Gateway}.

(** Lines 1410-1428 for a [DataType] schema. *)
Lemma prepare_schema_type t verify_schema :
  prepare_schema (SchemaType t) verify_schema =
  (let? verify_func := if verify_schema then schema_verifier t else Ok (fun _ : PyObj => Ok tt) in
   Ok (SchemaType (schema_row t), verify_obj_with verify_func)).
Proof.
  unfold prepare_schema, schema_row, schema_verifier, add, RowType_new.
  destruct (is_RowType t), verify_schema; reflexivity.
Qed.

Lemma schema_row_is_row t : is_RowType (schema_row t) = true.
Proof. unfold schema_row. destruct (is_RowType t) eqn:E; [exact E | reflexivity]. Qed.

Lemma infer_if_needed_type elements t :
  infer_if_needed elements (SchemaType (schema_row t)) = Ok (schema_row t, elements).
Proof. unfold infer_if_needed. rewrite schema_row_is_row. reflexivity. Qed.

(** [from_elements] once lines 1410-1440 have gone through. *)
Lemma from_elements_prepared self elements schema verify_schema w schema' verify_obj
    row converted :
  prepare_schema schema verify_schema = Ok (schema', verify_obj) ->
  infer_if_needed elements schema' = Ok (row, converted) ->
  from_elements self elements schema verify_schema w =
  from_elements_tail self row verify_obj converted w.
Proof.
  intros Hp Hi. unfold from_elements.
  unfold bind at 1, lift at 1. rewrite Hp. cbn beta iota.
  unfold bind at 1, lift at 1. rewrite Hi. reflexivity.
Qed.

(** [from_elements] for a [DataType] schema whose verifier was built. *)
Lemma from_elements_type self elements t (verify_schema : bool) w verify_func :
  (if verify_schema then schema_verifier t else Ok (fun _ : PyObj => Ok tt)) = Ok verify_func ->
  from_elements self elements (SchemaType t) verify_schema w =
  from_elements_tail self (schema_row t) (verify_obj_with verify_func) elements w.
Proof.
  intros Hv. apply from_elements_prepared with (schema' := SchemaType (schema_row t)).
  - rewrite prepare_schema_type, Hv. reflexivity.
  - apply infer_if_needed_type.
Qed.

End FromElementsFacts.

(** C1.  For a [DataType] schema (a row type or a scalar type) whose
    verifier is built and accepts every element, the call with
    [verify_schema=False] has the same outcome as the call with
    [verify_schema=True]: the same table or exception and the same files
    and gateway calls. *)
Theorem from_elements_verify_schema_irrelevant :
  forall (T : TypesModule) (S : Serializers) (G : Gateway) self elements t w verify_func,
    schema_verifier t = Ok verify_func ->
    Forall (fun element => verify_func element = Ok tt) elements ->
    from_elements self elements (SchemaType t) false w =
    from_elements self elements (SchemaType t) true w.
Proof.
  intros T S G self elements t w verify_func Hbuilt Hok.
  rewrite (from_elements_type self elements t false w (fun _ : PyObj => Ok tt) eq_refl).
  rewrite (from_elements_type self elements t true w verify_func Hbuilt).
  unfold from_elements_tail.
  destruct (all_expressions elements); [reflexivity|].
  destruct (any_expression elements); [reflexivity|].
  assert (Hsame :
    verify_and_convert (schema_row t) (verify_obj_with (fun _ => Ok tt)) elements =
    verify_and_convert (schema_row t) (verify_obj_with verify_func) elements).
  { unfold verify_and_convert. apply result_map_ext.
    eapply Forall_impl; [exact Hok|]. intros element Hv.
    unfold verify_obj_with. cbn beta. rewrite Hv. reflexivity. }
  unfold bind, lift. cbn beta iota. rewrite Hsame. reflexivity.
Qed.





(** C5.  For a [DataType] schema verified with [verify_schema=True]: if
    the elements are not all expressions (so the method gets to verifying
    them) and the verifier raises on one of them, [from_elements] raises
    and leaves the world as it found it: no temporary directory or file
    was created, nothing was written and no call went through the
    gateway. *)
Theorem from_elements_verification_failure_aborts :
  forall (T : TypesModule) (S : Serializers) (G : Gateway) self elements t w verify_func
         element e,
    schema_verifier t = Ok verify_func ->
    all_expressions elements = false ->
    In element elements ->
    verify_func element = Raise e ->
    exists e', from_elements self elements (SchemaType t) true w = (Raise e', w).
Proof.
  intros T S G self elements t w verify_func element e Hbuilt Hall Hin Hfail.
  rewrite (from_elements_type self elements t true w verify_func Hbuilt).
  unfold from_elements_tail. rewrite Hall.
  destruct (any_expression elements); [eexists; reflexivity|].
  destruct (result_map_raises
              (fun x => let? x' := verify_obj_with verify_func x in
                        to_sql_type (schema_row t) x')
              elements element e Hin) as [e' He'].
  { unfold verify_obj_with. rewrite Hfail. reflexivity. }
  exists e'. unfold bind, lift, verify_and_convert. rewrite He'. reflexivity.
Qed.

Lemma from_elements_verify_schema_irrelevant_witness :
  @schema_verifier types_model sample_row_type = Ok (verify sample_row_type "obj")
  /\ Forall (fun element => verify sample_row_type "obj" element = Ok tt) sample_rows
  /\ @from_elements types_model counting_serializers quiet_gateway
       the_env sample_rows (SchemaType sample_row_type) false empty_world =
     @from_elements types_model counting_serializers quiet_gateway
       the_env sample_rows (SchemaType sample_row_type) true empty_world.
Proof.
  assert (Hok : Forall (fun element => verify sample_row_type "obj" element = Ok tt)
                       sample_rows)
    by (repeat constructor).
  split; [reflexivity|]. split; [exact Hok|].
  exact (from_elements_verify_schema_irrelevant types_model counting_serializers
           quiet_gateway the_env sample_rows sample_row_type empty_world
           (verify sample_row_type "obj") eq_refl Hok).
Defined.


Lemma from_elements_verification_failure_aborts_witness :
  all_expressions [PyTuple [PyInt 1; PyStr "Hi"]; PyTuple [PyStr "2"; PyStr "Hello"]] = false
  /\ verify sample_row_type "obj" (PyTuple [PyStr "2"; PyStr "Hello"]) =
     Raise (ValidationError "a" "INT")
  /\ exists e',
       @from_elements types_model counting_serializers quiet_gateway the_env
         [PyTuple [PyInt 1; PyStr "Hi"]; PyTuple [PyStr "2"; PyStr "Hello"]]
         (SchemaType sample_row_type) true empty_world = (Raise e', empty_world).
Proof.
  split; [reflexivity|]. split; [reflexivity|].
  exact (from_elements_verification_failure_aborts types_model counting_serializers
           quiet_gateway the_env
           [PyTuple [PyInt 1; PyStr "Hi"]; PyTuple [PyStr "2"; PyStr "Hello"]]
           sample_row_type empty_world (verify sample_row_type "obj")
           (PyTuple [PyStr "2"; PyStr "Hello"])
           (ValidationError "a" "INT") eq_refl eq_refl (or_intror (or_introl eq_refl))
           eq_refl).
Defined.

(** C9, as stated, fails: with a [schema] that is neither [None], a list,
    a tuple nor a [DataType], mixed elements meet the [TypeError] of line
    1437 before line 1450 looks at them. *)
Lemma from_elements_mixed_unsupported_schema :
  mixed [PyExpression "lit(1)"; PyInt 2] = true
  /\ @from_elements types_model counting_serializers quiet_gateway the_env
       [PyExpression "lit(1)"; PyInt 2] (SchemaOther "'a, b'") true empty_world =
     (Raise (TypeError "schema should be RowType, list, tuple or None"), empty_world)
  /\ forall msg w',
       @from_elements types_model counting_serializers quiet_gateway the_env
         [PyExpression "lit(1)"; PyInt 2] (SchemaOther "'a, b'") true empty_world <>
       (Raise (ValueError msg), w').
Proof.
  split; [reflexivity|]. split; [reflexivity|].
  intros msg w' Heq. vm_compute in Heq. discriminate Heq.
Qed.

(** C9, amended.  Mixed elements (some an [Expression], some not) make
    [from_elements] raise [ValueError], with nothing created and no
    gateway call made, whenever the method gets to line 1443 with them:
    for a [DataType] schema as soon as its verifier is built (or not asked
    for); for [None] or a list of names when schema inference and the
    inferred converter succeed and the converted elements are mixed.  For
    any other [schema] the method raises [TypeError] whatever the elements
    are. *)
Theorem from_elements_mixed_elements :
  forall (T : TypesModule) (S : Serializers) (G : Gateway) self elements
         (verify_schema : bool) w,
    (forall t verify_func,
       (if verify_schema then schema_verifier t else Ok (fun _ : PyObj => Ok tt)) = Ok verify_func ->
       mixed elements = true ->
       exists msg, from_elements self elements (SchemaType t) verify_schema w =
                   (Raise (ValueError msg), w))
    /\ (forall schema schema' verify_obj row converted,
          prepare_schema schema verify_schema = Ok (schema', verify_obj) ->
          infer_if_needed elements schema' = Ok (row, converted) ->
          mixed converted = true ->
          exists msg, from_elements self elements schema verify_schema w =
                      (Raise (ValueError msg), w))
    /\ (forall repr,
          exists msg, from_elements self elements (SchemaOther repr) verify_schema w =
                      (Raise (TypeError msg), w)).
Proof.
  intros T S G self elements verify_schema w.
  assert (Htail : forall row verify_obj converted,
            mixed converted = true ->
            exists msg, from_elements_tail self row verify_obj converted w =
                        (Raise (ValueError msg), w)).
  { intros row verify_obj converted Hmixed.
    apply mixed_not_all_expressions in Hmixed as [Hall Hany].
    unfold from_elements_tail. rewrite Hall, Hany. eexists. reflexivity. }
  split; [|split].
  - intros t verify_func Hbuilt Hmixed.
    rewrite (from_elements_type self elements t verify_schema w verify_func Hbuilt).
    apply Htail. exact Hmixed.
  - intros schema schema' verify_obj row converted Hp Hi Hmixed.
    rewrite (from_elements_prepared self elements schema verify_schema w _ _ _ _ Hp Hi).
    apply Htail. exact Hmixed.
  - intros repr. eexists. reflexivity.
Qed.

Lemma from_elements_mixed_elements_witness :
  mixed [PyExpression "lit(1)"; PyInt 2] = true
  /\ exists msg,
       @from_elements types_model counting_serializers quiet_gateway the_env
         [PyExpression "lit(1)"; PyInt 2] (SchemaType sample_row_type) true empty_world =
       (Raise (ValueError msg), empty_world).
Proof.
  split; [reflexivity|].
  exact (proj1 (from_elements_mixed_elements types_model counting_serializers quiet_gateway
                  the_env [PyExpression "lit(1)"; PyInt 2] true empty_world)
               sample_row_type (verify sample_row_type "obj") eq_refl eq_refl).
Defined.

(** ** The temporary sink *)

Lemma keeps_fs_ret {A} (a : A) : keeps_fs (ret a).
Proof. intros w. simpl. auto. Qed.

Lemma keeps_fs_raise {A} (e : exn) : keeps_fs (@raise A e).
Proof. intros w. simpl. auto. Qed.

Lemma keeps_fs_lift {A} (r : result A) : keeps_fs (lift r).
Proof. intros w. simpl. auto. Qed.

Lemma keeps_fs_bind {A B} (c : Py A) (k : A -> Py B) :
  keeps_fs c -> (forall a, keeps_fs (k a)) -> keeps_fs (bind c k).
Proof.
  intros Hc Hk w. unfold bind. specialize (Hc w). simpl in Hc.
  destruct (c w) as [[a|e] w1]; simpl in *; [|exact Hc].
  specialize (Hk a w1). simpl in Hk.
  destruct Hc as (Hd & Hf & Ho), Hk as (Hd' & Hf' & Ho').
  rewrite Hd', Hf', Ho'. auto.
Qed.

Lemma keeps_fs_jcall `{Gateway} method args : keeps_fs (jcall method args).
Proof. intros w. unfold jcall. destruct (java_raises method args); simpl; auto. Qed.

Lemma keeps_fs_readPythonObjects `{Gateway} name batched :
  keeps_fs (readPythonObjects name batched).
Proof.
  intros w. unfold readPythonObjects.
  destruct (fs_files w !! name); [apply keeps_fs_jcall | simpl; auto].
Qed.

Ltac keeps_fs_steps :=
  repeat first
    [ apply keeps_fs_ret | apply keeps_fs_raise | apply keeps_fs_lift
    | apply keeps_fs_jcall | apply keeps_fs_readPythonObjects
    | apply keeps_fs_bind; [| intros ?] ].

(** What a failed or finished first step leaves is what the whole
    sequence leaves, if the rest does not touch the file system. *)
Lemma bind_fs {A B} (c : Py A) (k : A -> Py B) w :
  (forall a, keeps_fs (k a)) ->
  let w1 := snd (c w) in
  let w' := snd (bind c k w) in
  fs_dirs w' = fs_dirs w1 /\ fs_files w' = fs_files w1 /\ fs_open w' = fs_open w1.
Proof.
  intros Hk. unfold bind. destruct (c w) as [[a|e] w1]; simpl; [|auto].
  apply (Hk a w1).
Qed.

(** [with temp_file: serializer.serialize(..., temp_file)] on an open
    file: the bytes are appended and the file is closed, whether the
    serializer finished or raised. *)
Lemma with_serialize_fs (name : string) (out : list byte * option exn) w old :
  name ∈ fs_open w -> fs_files w !! name = Some old ->
  let w' := snd (with_ name
                   (let (data, failure) := out in
                    let* _ := write name data in
                    match failure with Some e => raise e | None => ret tt end) w) in
  fs_dirs w' = fs_dirs w
  /\ fs_files w' = <[name := old ++ fst out]> (fs_files w)
  /\ fs_open w' = fs_open w ∖ {[name]}.
Proof.
  intros Hopen Hfile. destruct out as [data failure].
  unfold with_, bind, write. rewrite decide_True by exact Hopen. rewrite Hfile.
  destruct failure; simpl; auto.
Qed.

Section SinkFacts.
Context `{TypesModule} `{Serializers} `{Gateway}.

(** C4.  The file system after [_from_elements], on every path through
    it: the temporary file is closed and unlinked, but the directory that
    [tempfile.mkdtemp()] created for it is still there. *)
Theorem _from_elements_leaves_directory :
  forall self elements schema w,
    let d := "/tmp/tmp" +:+ pretty (fs_next w) in
    let name := d +:+ "/tmp" +:+ pretty (S (fs_next w)) in
    let w' := snd (_from_elements self elements schema w) in
    fs_dirs w' = {[d]} ∪ fs_dirs w
    /\ fs_files w' = delete name (fs_files w)
    /\ fs_open w' = (({[name]} ∪ fs_open w) ∖ {[name]}).
Proof.
  intros self elements schema w d name w'.
  assert (E : exists r, _from_elements self elements schema w = (r, w')).
  { subst w'. destruct (_from_elements self elements schema w). eexists. reflexivity. }
  clearbody w'. destruct E as [r E].
  unfold _from_elements in E.
  unfold bind at 1, mkdtemp at 1 in E. fold d in E.
  set (w1 := mkWorld ({[d]} ∪ fs_dirs w) (fs_files w) (fs_open w) (S (fs_next w))
                     (jvm_calls w)) in E.
  unfold bind at 1, NamedTemporaryFile at 1 in E.
  rewrite decide_True in E
    by (simpl; apply elem_of_union; left; apply elem_of_singleton; reflexivity).
  change (d +:+ "/tmp" +:+ pretty (fs_next w1)) with name in E.
  set (w2 := mkWorld (fs_dirs w1) (<[name := []]> (fs_files w1)) ({[name]} ∪ fs_open w1)
                     (S (fs_next w1)) (jvm_calls w1)) in E.
  unfold try_finally in E.
  match type of E with context [bind ?c ?k w2] =>
    pose proof (bind_fs c k w2) as Hb;
    pose proof (with_serialize_fs name (BatchedSerializer_serialize elements) w2 []) as Hw
  end.
  specialize (Hb ltac:(intros a; keeps_fs_steps)).
  assert (Hopen : name ∈ fs_open w2)
    by (simpl; apply elem_of_union; left; apply elem_of_singleton; reflexivity).
  specialize (Hw Hopen (lookup_insert_eq _ _ _)).
  cbv zeta in Hb, Hw.
  destruct Hb as (Hd & Hf & Ho). destruct Hw as (Hd' & Hf' & Ho').
  rewrite Hd' in Hd. rewrite Hf' in Hf. rewrite Ho' in Ho. clear Hd' Hf' Ho'.
  match type of E with context [bind ?c ?k w2] => destruct (bind c k w2) as [r3 w3] end.
  simpl in Hd, Hf, Ho. unfold unlink in E.
  rewrite Hf, lookup_insert_eq in E. simpl in E.
  inversion E; subst w'; clear E. simpl.
  split; [exact Hd|]. split; [|exact Ho].
  rewrite delete_insert_eq. apply delete_insert_eq.
Qed.

End SinkFacts.

(** On a fresh file system, converting the docstring's rows leaves the
    directory [/tmp/tmp0] behind and nothing else. *)
Lemma _from_elements_fresh_run :
  let run := @_from_elements counting_serializers quiet_gateway the_env
               [ERow [EScalar AInteger (PyInt 1); EScalar AString (PyStr "Hi")]]
               sample_row_type empty_world in
  is_ok (fst run) = true
  /\ fs_dirs (snd run) = {["/tmp/tmp0"]}
  /\ fs_files (snd run) = ∅
  /\ fs_open (snd run) = ∅.
Proof. vm_compute. repeat split; reflexivity. Qed.

(** The same when the serializer fails half way: the exception gets out,
    the file is gone, the directory stays. *)
Lemma _from_elements_failed_run :
  let run := @_from_elements failing_serializers quiet_gateway the_env
               [ERow [EScalar AInteger (PyInt 1); EScalar AString (PyStr "Hi")]]
               sample_row_type empty_world in
  fst run = Raise TransportError
  /\ fs_dirs (snd run) = {["/tmp/tmp0"]}
  /\ fs_files (snd run) = ∅
  /\ fs_open (snd run) = ∅
  /\ jvm_calls (snd run) = [].
Proof. vm_compute. repeat split; reflexivity. Qed.

(** [from_pandas] on a frame without rows: [step] is 0, [range] raises at
    line 1553, before the [try] of line 1555, and the temporary file of
    line 1546 stays open and on disk. *)
Lemma from_pandas_empty_frame_leaks_file :
  let run := @from_pandas types_model counting_serializers quiet_gateway the_env
               (IsDataFrame empty_frame) PdNone 1 empty_world in
  fst run = Raise (ValueError "range() arg 3 must not be zero")
  /\ fs_dirs (snd run) = {["/tmp/tmp0"]}
  /\ fs_files (snd run) = {["/tmp/tmp0/tmp1" := []]}
  /\ fs_open (snd run) = {["/tmp/tmp0/tmp1"]}.
Proof. vm_compute. repeat split; reflexivity. Qed.

(** [from_pandas] with [splits_num=0]: [ZeroDivisionError] at line 1552,
    with the same leftovers. *)
Lemma from_pandas_zero_splits_leaks_file :
  let pdf := mkDataFrame [mkColumn "x" "int64" true [PyLong 1; PyLong 2]] 2 in
  let run := @from_pandas types_model counting_serializers quiet_gateway the_env
               (IsDataFrame pdf) PdNone 0 empty_world in
  fst run = Raise ZeroDivisionError
  /\ fs_files (snd run) = {["/tmp/tmp0/tmp1" := []]}
  /\ fs_open (snd run) = {["/tmp/tmp0/tmp1"]}.
Proof. vm_compute. repeat split; reflexivity. Qed.

(* ================================================================== *)
(** * 14. Properties of the path resolver                              *)
(* ================================================================== *)

(** C6.  For every current catalog [C] and current database [D], and a
    keyword table that reserves none of the three names, [resolve] gives
    the documented table: [tab1] is [(C, D, tab1)], [db1.tab1] is
    [(C, db1, tab1)] and [cat1.db1.tab1] is [(cat1, db1, tab1)]. *)
Theorem resolve_documented_table :
  forall (is_reserved : string -> bool) (C D : string),
    is_reserved "tab1" = false ->
    is_reserved "db1" = false ->
    is_reserved "cat1" = false ->
    PathResolver.resolve is_reserved "tab1" C D =
      Ok (PathResolver.mkQualifiedPath (Some C) (Some D) "tab1")
    /\ PathResolver.resolve is_reserved "db1.tab1" C D =
      Ok (PathResolver.mkQualifiedPath (Some C) (Some "db1") "tab1")
    /\ PathResolver.resolve is_reserved "cat1.db1.tab1" C D =
      Ok (PathResolver.mkQualifiedPath (Some "cat1") (Some "db1") "tab1").
Proof.
  intros is_reserved C D Htab Hdb Hcat.
  repeat split; cbv; rewrite ?Hcat, ?Hdb, ?Htab; reflexivity.
Qed.

Lemma resolve_documented_table_witness :
  PathResolver.resolve PathResolver.reserved_sample "tab1" "default_catalog"
    "default_database" =
    Ok (PathResolver.mkQualifiedPath (Some "default_catalog") (Some "default_database")
          "tab1")
  /\ PathResolver.resolve PathResolver.reserved_sample "db1.tab1" "default_catalog"
    "default_database" =
    Ok (PathResolver.mkQualifiedPath (Some "default_catalog") (Some "db1") "tab1")
  /\ PathResolver.resolve PathResolver.reserved_sample "cat1.db1.tab1" "default_catalog"
    "default_database" =
    Ok (PathResolver.mkQualifiedPath (Some "cat1") (Some "db1") "tab1").
Proof.
  exact (resolve_documented_table PathResolver.reserved_sample "default_catalog"
           "default_database" eq_refl eq_refl eq_refl).
Defined.

Lemma append_cons (c : ascii) (text rest : string) :
  String c text +:+ rest = String c (text +:+ rest).
Proof. reflexivity. Qed.

Lemma append_snoc (text rest : string) (c : ascii) :
  PathResolver.snoc text c +:+ rest = text +:+ String c rest.
Proof.
  unfold PathResolver.snoc. induction text as [|c0 text IH]; [reflexivity|].
  rewrite !append_cons, IH. reflexivity.
Qed.

Lemma append_empty (text : string) : text +:+ EmptyString = text.
Proof.
  induction text as [|c text IH]; [reflexivity|]. rewrite append_cons, IH. reflexivity.
Qed.

Lemma plain_cons c name :
  plain (String c name) = true ->
  PathResolver.is_dot c = false /\ PathResolver.is_backtick c = false /\ plain name = true.
Proof.
  simpl. intros Hp. apply andb_prop in Hp as [Hc Hp]. apply andb_prop in Hc as [Hdot Htick].
  apply negb_true_iff in Hdot, Htick. auto.
Qed.

(** Scanning a plain name to the end of the path, or to a dot. *)
Lemma segments_plain_end (name text : string) :
  plain name = true ->
  PathResolver.segments (PathResolver.InPlain text) name =
  Ok [PathResolver.Plain (text +:+ name)].
Proof.
  revert text. induction name as [|c name IH]; intros text Hp.
  - rewrite append_empty. reflexivity.
  - apply plain_cons in Hp as (Hdot & Htick & Hp).
    cbn [PathResolver.segments]. rewrite Hdot, Htick, (IH _ Hp), append_snoc. reflexivity.
Qed.

Lemma segments_plain_dot (name text rest : string) :
  plain name = true ->
  PathResolver.segments (PathResolver.InPlain text) (name +:+ String "." rest) =
  (let? more := PathResolver.segments PathResolver.AtStart rest in
   Ok (PathResolver.Plain (text +:+ name) :: more)).
Proof.
  revert text. induction name as [|c name IH]; intros text Hp.
  - rewrite append_empty. reflexivity.
  - apply plain_cons in Hp as (Hdot & Htick & Hp).
    rewrite append_cons. cbn [PathResolver.segments].
    rewrite Hdot, Htick, (IH _ Hp), append_snoc. reflexivity.
Qed.

Lemma segments_start (name rest : string) :
  name <> EmptyString -> plain name = true ->
  PathResolver.segments PathResolver.AtStart (name +:+ String "." rest) =
    (let? more := PathResolver.segments PathResolver.AtStart rest in
     Ok (PathResolver.Plain name :: more))
  /\ PathResolver.segments PathResolver.AtStart name = Ok [PathResolver.Plain name].
Proof.
  destruct name as [|c name]; [congruence|]. intros _ Hp.
  apply plain_cons in Hp as (Hdot & Htick & Hp).
  rewrite append_cons. cbn [PathResolver.segments]. rewrite Hdot, Htick.
  rewrite (segments_plain_dot _ _ _ Hp), (segments_plain_end _ _ Hp). auto.
Qed.

(** [resolve] on a path that is not empty. *)
Lemma resolve_nonempty (is_reserved : string -> bool) (path C D : string) :
  path <> EmptyString ->
  PathResolver.resolve is_reserved path C D =
  (let? parsed := PathResolver.segments PathResolver.AtStart path in
   let? names := result_map (PathResolver.identifier is_reserved) parsed in
   match names with
   | [obj] => Ok (PathResolver.mkQualifiedPath (Some C) (Some D) obj)
   | [db; obj] => Ok (PathResolver.mkQualifiedPath (Some C) (Some db) obj)
   | [cat; db; obj] => Ok (PathResolver.mkQualifiedPath (Some cat) (Some db) obj)
   | [] => Raise (ParseError ZeroSegments)
   | _ => Raise (ParseError TooManySegments)
   end).
Proof. destruct path; [congruence | reflexivity]. Qed.

(** The resolution table for any names: one, two and three plain,
    unreserved segments. *)
Lemma resolve_plain_paths :
  forall (is_reserved : string -> bool) (cat db tab C D : string),
    cat <> EmptyString -> db <> EmptyString -> tab <> EmptyString ->
    plain cat = true -> plain db = true -> plain tab = true ->
    is_reserved cat = false -> is_reserved db = false -> is_reserved tab = false ->
    PathResolver.resolve is_reserved tab C D =
      Ok (PathResolver.mkQualifiedPath (Some C) (Some D) tab)
    /\ PathResolver.resolve is_reserved (db +:+ String "." tab) C D =
      Ok (PathResolver.mkQualifiedPath (Some C) (Some db) tab)
    /\ PathResolver.resolve is_reserved (cat +:+ String "." (db +:+ String "." tab)) C D =
      Ok (PathResolver.mkQualifiedPath (Some cat) (Some db) tab).
Proof.
  intros is_reserved cat db tab C D Hcat Hdb Htab Pcat Pdb Ptab Rcat Rdb Rtab.
  destruct (segments_start tab EmptyString Htab Ptab) as [_ Stab].
  destruct (segments_start db tab Hdb Pdb) as [Sdb _].
  destruct (segments_start cat (db +:+ String "." tab) Hcat Pcat) as [Scat _].
  assert (Hne : forall a b, a <> EmptyString -> a +:+ b <> EmptyString)
    by (intros [|c a] b Ha; [congruence | discriminate]).
  repeat split; rewrite resolve_nonempty by auto.
  - rewrite Stab. simpl. rewrite Rtab. reflexivity.
  - rewrite Sdb, Stab. simpl. rewrite Rdb, Rtab. reflexivity.
  - rewrite Scat, Sdb, Stab. simpl. rewrite Rcat, Rdb, Rtab. reflexivity.
Qed.

(** The other rows of specification 8: an escaped segment keeps its dot,
    and the empty path, a fourth segment and an open backtick are parse
    errors, whatever the keywords are. *)
Lemma resolve_escaped_and_errors :
  forall (is_reserved : string -> bool) (C D : string),
    (is_reserved "c" = false ->
     PathResolver.resolve is_reserved "`a.b`.c" C D =
       Ok (PathResolver.mkQualifiedPath (Some C) (Some "a.b") "c"))
    /\ PathResolver.resolve is_reserved "" C D = Raise (ParseError ZeroSegments)
    /\ PathResolver.resolve is_reserved "`a`.`b`.`c`.`d`" C D =
         Raise (ParseError TooManySegments)
    /\ PathResolver.resolve is_reserved "`a.b" C D = Raise (ParseError UnterminatedBacktick).
Proof.
  intros is_reserved C D. repeat split.
  intros Hc. cbv. rewrite Hc. reflexivity.
Qed.

(* ================================================================== *)
(** * 15. Properties of schema inference                               *)
(* ================================================================== *)

Lemma widen_sound a t c :
  widen a t = Some c -> fits a c /\ fits t c /\ (c = a \/ c = t).
Proof.
  unfold fits. destruct a, t; cbv; intros E; inversion E; subst; auto.
Qed.

Lemma fits_trans a b c : fits a b -> fits b c -> fits a c.
Proof. unfold fits. destruct a, b; try discriminate; destruct c; cbv; congruence. Qed.

Lemma fits_refl a : fits a a.
Proof. destruct a; reflexivity. Qed.

(** Two types with a common widening can be widened with each other. *)
Lemma fits_common a b c : fits a c -> fits b c -> widen a b <> None.
Proof. unfold fits. destruct a, c; try discriminate; destruct b; cbv; congruence. Qed.

Lemma atoms_of_Ok record field vs ts :
  atoms_of record field vs = Ok ts -> Forall2 (fun v a => atom_of v = Some a) vs ts.
Proof.
  revert field ts. induction vs as [|v vs IH]; intros field ts; simpl.
  - intros E. inversion E. constructor.
  - destruct (atom_of v) as [a|] eqn:Ea; [|discriminate].
    destruct (atoms_of record (S field) vs) as [r|e] eqn:Er; simpl; [|discriminate].
    intros E. inversion E. constructor; [exact Ea | eapply IH; exact Er].
Qed.

Lemma assoc_all_length keys kvs vs :
  assoc_all keys kvs = Some vs -> length vs = length keys.
Proof.
  revert vs. induction keys as [|k keys IH]; intros vs; simpl.
  - intros E. inversion E. reflexivity.
  - destruct (assoc k kvs); [|discriminate].
    destruct (assoc_all keys kvs) as [vs'|]; [|discriminate].
    intros E. inversion E. simpl. f_equal. apply IH. reflexivity.
Qed.

Lemma aligned_values_arity first r vs :
  aligned_values first r = Some vs -> arity r = arity first /\ length vs = arity first.
Proof.
  unfold aligned_values.
  destruct (arity r =? arity first)%nat eqn:Ea; simpl; [|discriminate].
  apply Nat.eqb_eq in Ea. intros E. split; [exact Ea|].
  destruct first, r; try discriminate; simpl in *.
  - inversion E; subst. exact Ea.
  - apply assoc_all_length in E. rewrite E. apply length_map.
  - inversion E; subst. exact Ea.
  - destruct (bool_decide _); [|discriminate]. inversion E; subst. exact Ea.
Qed.

Lemma record_types_Ok first record r ts :
  record_types first record r = Ok ts -> typed_as first r ts.
Proof.
  unfold record_types, typed_as.
  destruct (shape_of first) as [s0|] eqn:E0; [|discriminate].
  destruct (shape_of r) as [s|] eqn:Es; [|discriminate].
  destruct (Shape_eqb s0 s) eqn:Eq; [|discriminate].
  destruct (aligned_values first r) as [vs|] eqn:Ev; [|discriminate].
  intros E. split; [|split].
  - destruct s0, s; try discriminate; reflexivity.
  - apply (aligned_values_arity _ _ _ Ev).
  - exists vs. split; [reflexivity | eapply atoms_of_Ok; exact E].
Qed.

Lemma typed_as_length first r ts : typed_as first r ts -> length ts = arity first.
Proof.
  intros (_ & _ & vs & Ev & Hts).
  rewrite <- (Forall2_length _ _ _ Hts). apply (aligned_values_arity _ _ _ Ev).
Qed.

(** A field value of a typed record has the type listed for it. *)
Lemma typed_as_column first r ts j v :
  typed_as first r ts -> column_value first r j = Some v ->
  exists a, ts !! j = Some a /\ atom_of v = Some a.
Proof.
  intros (_ & _ & vs & Ev & Hts). unfold column_value. rewrite Ev. intros Hj.
  destruct (Forall2_lookup_l _ _ _ _ _ Hts Hj) as (a & Ha & Hv). eauto.
Qed.

Lemma typed_as_attained first r ts j a :
  typed_as first r ts -> ts !! j = Some a ->
  exists v, column_value first r j = Some v /\ atom_of v = Some a.
Proof.
  intros (_ & _ & vs & Ev & Hts) Hj. unfold column_value. rewrite Ev.
  destruct (Forall2_lookup_r _ _ _ _ _ Hts Hj) as (v & Hv & Ha). eauto.
Qed.

Lemma merge_types_Ok record field acc ts acc' :
  merge_types record field acc ts = Ok acc' ->
  length acc = length ts /\ length acc' = length acc
  /\ forall j c, acc' !! j = Some c ->
       exists a t, acc !! j = Some a /\ ts !! j = Some t /\ widen a t = Some c.
Proof.
  revert field ts acc'. induction acc as [|a acc IH]; intros field ts acc'; simpl.
  - destruct ts; [|discriminate]. intros E. inversion E.
    repeat split; try reflexivity. intros j c Hj. destruct j; discriminate.
  - destruct ts as [|t ts]; [discriminate|].
    destruct (widen a t) as [c0|] eqn:Ew; [|discriminate].
    destruct (merge_types record (S field) acc ts) as [r|e] eqn:Er; simpl; [|discriminate].
    intros E. inversion E; subst. destruct (IH _ _ _ Er) as (Hl & Hl' & Hlook).
    simpl. repeat split; [congruence | congruence |].
    intros [|j] c Hj; simpl in *.
    + inversion Hj; subst. eauto.
    + apply Hlook. exact Hj.
Qed.

(** What a successful inference of the column types establishes: every
    record is typed, every type met in a column fits the column's type,
    and the column's type is the type of one of its values. *)
Lemma infer_columns_Ok first record acc records cs :
  infer_columns first record acc records = Ok cs ->
  length cs = length acc
  /\ (forall j a c, acc !! j = Some a -> cs !! j = Some c -> fits a c)
  /\ (forall r, In r records ->
        exists ts, typed_as first r ts /\ length ts = length cs
                   /\ forall j a c, ts !! j = Some a -> cs !! j = Some c -> fits a c)
  /\ (forall j c, cs !! j = Some c ->
        acc !! j = Some c
        \/ exists r ts, In r records /\ typed_as first r ts /\ ts !! j = Some c).
Proof.
  revert record acc. induction records as [|r rest IH]; intros record acc; simpl.
  - intros E. inversion E; subst. repeat split; auto.
    + intros j a c Ha Hc. rewrite Ha in Hc. inversion Hc. apply fits_refl.
    + intros r [].
  - destruct (record_types first record r) as [ts|e] eqn:Et; simpl; [|discriminate].
    destruct (merge_types record 0 acc ts) as [acc'|e] eqn:Em; simpl; [|discriminate].
    intros E. apply record_types_Ok in Et.
    destruct (merge_types_Ok _ _ _ _ _ Em) as (Hlen & Hlen' & Hmerge).
    destruct (IH _ _ E) as (Hl & Hfit & Hrec & Hatt).
    assert (Hstep : forall j c', acc' !! j = Some c' ->
              exists a t, acc !! j = Some a /\ ts !! j = Some t
                          /\ fits a c' /\ fits t c' /\ (c' = a \/ c' = t)).
    { intros j c' Hj. destruct (Hmerge j c' Hj) as (a & t & Ha & Ht & Hw).
      exists a, t. repeat split; auto; apply (widen_sound _ _ _ Hw). }
    assert (Hin : forall j c, cs !! j = Some c -> exists c', acc' !! j = Some c').
    { intros j c Hc. apply lookup_lt_is_Some. rewrite <- Hl.
      apply lookup_lt_is_Some. eauto. }
    split; [congruence|]. split; [|split].
    + intros j a c Ha Hc. destruct (Hin j c Hc) as [c' Hc'].
      destruct (Hstep j c' Hc') as (a0 & t & Ha0 & _ & Hfa & _ & _).
      rewrite Ha in Ha0. inversion Ha0; subst.
      eapply fits_trans; [exact Hfa | eapply Hfit; eauto].
    + intros r' [<-|Hr'].
      * exists ts. split; [exact Et|]. split; [congruence|].
        intros j a c Ha Hc. destruct (Hin j c Hc) as [c' Hc'].
        destruct (Hstep j c' Hc') as (a0 & t & _ & Ht & _ & Hft & _).
        rewrite Ha in Ht. inversion Ht; subst.
        eapply fits_trans; [exact Hft | eapply Hfit; eauto].
      * apply Hrec. exact Hr'.
    + intros j c Hc. destruct (Hatt j c Hc) as [Hacc'|(r' & ts' & Hr' & Ht' & Hj)].
      * destruct (Hstep j c Hacc') as (a & t & Ha & Ht & _ & _ & [->| ->]).
        -- left. exact Ha.
        -- right. exists r, ts. auto.
      * right. exists r', ts'. auto.
Qed.

(** What a successful [infer_schema] establishes. *)
Lemma infer_schema_Ok records name_hint t :
  infer_schema records name_hint = Ok t ->
  exists first rest names cs,
    records = first :: rest
    /\ t = RowType (zip names (map (fun a => AtomicType a true) cs)) true
    /\ length names = arity first /\ length cs = arity first
    /\ (forall hint, name_hint = Some hint -> names = hint)
    /\ (forall r, In r records ->
          exists ts, typed_as first r ts
                     /\ forall j a c, ts !! j = Some a -> cs !! j = Some c -> fits a c)
    /\ (forall j c, cs !! j = Some c ->
          exists r ts, In r records /\ typed_as first r ts /\ ts !! j = Some c).
Proof.
  unfold infer_schema. destruct records as [|first rest]; [discriminate|].
  destruct (record_types first 0 first) as [ts0|e] eqn:E0; simpl; [|discriminate].
  apply record_types_Ok in E0.
  set (checked := match name_hint with
                  | Some hint => if (length hint =? arity first)%nat then Ok hint else _
                  | None => _
                  end).
  destruct checked as [names|e] eqn:En; simpl; [|discriminate].
  destruct (infer_columns first 1 ts0 rest) as [cs|e] eqn:Ec; simpl; [|discriminate].
  intros E. inversion E; subst t. clear E.
  destruct (infer_columns_Ok _ _ _ _ _ Ec) as (Hl & Hfit & Hrec & Hatt).
  pose proof (typed_as_length _ _ _ E0) as Hl0.
  exists first, rest, names, cs. split; [reflexivity|]. split; [reflexivity|].
  assert (Hnames : length names = arity first
                   /\ forall hint, name_hint = Some hint -> names = hint).
  { subst checked. destruct name_hint as [hint|].
    - destruct (length hint =? arity first)%nat eqn:Eh; [|discriminate].
      inversion En; subst. apply Nat.eqb_eq in Eh. split; [exact Eh|].
      intros hint' Eq. inversion Eq. reflexivity.
    - destruct (length (own_names first) =? arity first)%nat eqn:Eh; [|discriminate].
      inversion En; subst. apply Nat.eqb_eq in Eh. split; [exact Eh|]. discriminate. }
  destruct Hnames as [Hn Hhint].
  split; [exact Hn|]. split; [congruence|]. split; [exact Hhint|]. split.
  - intros r [<-|Hr].
    + exists ts0. split; [exact E0|]. exact Hfit.
    + destruct (Hrec r Hr) as (ts & Ht & _ & Hf). exists ts. auto.
  - intros j c Hc. destruct (Hatt j c Hc) as [H0|(r & ts & Hr & Ht & Hj)].
    + exists first, ts0. split; [left; reflexivity|]. auto.
    + exists r, ts. split; [right; exact Hr|]. auto.
Qed.

(** Inference raises nothing but [SchemaError]. *)
Lemma atoms_of_raises record field vs e :
  atoms_of record field vs = Raise e -> exists why, e = SchemaError why.
Proof.
  revert field. induction vs as [|v vs IH]; intros field; simpl; [discriminate|].
  destruct (atom_of v); [|intros E; inversion E; eauto].
  destruct (atoms_of record (S field) vs) eqn:Er; simpl; [discriminate|].
  intros E. inversion E; subst. eapply IH. exact Er.
Qed.

Lemma record_types_raises first record r e :
  record_types first record r = Raise e -> exists why, e = SchemaError why.
Proof.
  unfold record_types.
  destruct (shape_of first), (shape_of r); try (intros E; inversion E; eauto; fail).
  destruct (Shape_eqb _ _); [|intros E; inversion E; eauto].
  destruct (aligned_values first r); [apply atoms_of_raises | intros E; inversion E; eauto].
Qed.

Lemma merge_types_raises record field acc ts e :
  merge_types record field acc ts = Raise e -> exists why, e = SchemaError why.
Proof.
  revert field ts. induction acc as [|a acc IH]; intros field [|t ts]; simpl;
    try discriminate; try (intros E; inversion E; eauto; fail).
  destruct (widen a t); [|intros E; inversion E; eauto].
  destruct (merge_types record (S field) acc ts) eqn:Er; simpl; [discriminate|].
  intros E. inversion E; subst. eapply IH. exact Er.
Qed.

Lemma infer_columns_raises first record acc records e :
  infer_columns first record acc records = Raise e -> exists why, e = SchemaError why.
Proof.
  revert record acc. induction records as [|r rest IH]; intros record acc; simpl;
    [discriminate|].
  destruct (record_types first record r) eqn:Et; simpl;
    [|intros E; inversion E; subst; eapply record_types_raises; exact Et].
  destruct (merge_types record 0 acc a) eqn:Em; simpl;
    [|intros E; inversion E; subst; eapply merge_types_raises; exact Em].
  apply IH.
Qed.

Lemma infer_schema_raises records name_hint e :
  infer_schema records name_hint = Raise e -> exists why, e = SchemaError why.
Proof.
  unfold infer_schema. destruct records as [|first rest]; [intros E; inversion E; eauto|].
  destruct (record_types first 0 first) eqn:E0; simpl;
    [|intros E; inversion E; subst; eapply record_types_raises; exact E0].
  destruct name_hint as [hint|].
  - destruct (length hint =? arity first)%nat; simpl; [|intros E; inversion E; eauto].
    destruct (infer_columns first 1 a rest) eqn:Ec; simpl; [discriminate|].
    intros E. inversion E; subst. eapply infer_columns_raises. exact Ec.
  - destruct (length (own_names first) =? arity first)%nat; simpl;
      [|intros E; inversion E; eauto].
    destruct (infer_columns first 1 a rest) eqn:Ec; simpl; [discriminate|].
    intros E. inversion E; subst. eapply infer_columns_raises. exact Ec.
Qed.

(** An inference that cannot succeed fails with a [SchemaError]. *)
Lemma infer_schema_not_Ok records name_hint :
  (forall t, infer_schema records name_hint <> Ok t) ->
  exists why, infer_schema records name_hint = Raise (SchemaError why).
Proof.
  intros Hno. destruct (infer_schema records name_hint) as [t|e] eqn:E.
  - destruct (Hno t). reflexivity.
  - destruct (infer_schema_raises _ _ _ E) as [why ->]. eauto.
Qed.

(** The column types of an inferred row type are looked up like the
    columns. *)
Lemma inferred_field_type (names : list string) (cs : list Atomic) j c :
  length names = length cs -> cs !! j = Some c ->
  snd <$> zip names (map (fun a => AtomicType a true) cs) !! j = Some (AtomicType c true).
Proof.
  revert cs j. induction names as [|n names IH]; intros [|c0 cs] j Hlen Hc;
    try discriminate; simpl in *.
  destruct j as [|j]; simpl in *.
  - inversion Hc. reflexivity.
  - apply IH; [congruence | exact Hc].
Qed.

(** ** Inference succeeds on uniform, reconcilable records *)

Lemma atoms_of_typed record field vs ts :
  Forall2 (fun v a => atom_of v = Some a) vs ts -> atoms_of record field vs = Ok ts.
Proof.
  intros Hts. revert field. induction Hts as [|v a vs ts Ha _ IH]; intros field; simpl.
  - reflexivity.
  - rewrite Ha, IH. reflexivity.
Qed.

Lemma aligned_values_shape first r vs :
  aligned_values first r = Some vs ->
  exists s, shape_of first = Some s /\ shape_of r = Some s.
Proof.
  unfold aligned_values. destruct (negb _); [discriminate|].
  destruct first, r; try discriminate; intros _; eexists; split; reflexivity.
Qed.

Lemma record_types_typed first record r ts :
  typed_as first r ts -> record_types first record r = Ok ts.
Proof.
  intros (_ & _ & vs & Ev & Hts). unfold record_types.
  destruct (aligned_values_shape _ _ _ Ev) as (s & -> & ->).
  replace (Shape_eqb s s) with true by (destruct s; reflexivity).
  rewrite Ev. apply atoms_of_typed. exact Hts.
Qed.

Lemma merge_types_succeeds record field acc ts :
  length acc = length ts ->
  (forall j a t, acc !! j = Some a -> ts !! j = Some t -> widen a t <> None) ->
  exists acc', merge_types record field acc ts = Ok acc'.
Proof.
  revert field ts. induction acc as [|a acc IH]; intros field [|t ts] Hlen Hw;
    try discriminate; simpl; [eauto|].
  destruct (widen a t) as [c|] eqn:Ew;
    [|destruct (Hw 0%nat a t eq_refl eq_refl Ew)].
  destruct (IH (S field) ts) as [acc' ->]; [simpl in Hlen; congruence | |simpl; eauto].
  intros j a' t' Ha Ht. apply (Hw (S j) a' t'); assumption.
Qed.

Lemma infer_columns_succeeds first all records record acc :
  (forall r, In r records -> In r all) ->
  (forall r, In r all -> exists ts, typed_as first r ts) ->
  reconcilable first all ->
  length acc = arity first ->
  (forall j a, acc !! j = Some a ->
     exists r v, In r all /\ column_value first r j = Some v /\ atom_of v = Some a) ->
  exists cs, infer_columns first record acc records = Ok cs.
Proof.
  intros Hsub Htyped Hrec. revert record acc.
  induction records as [|r rest IH]; intros record acc Hlen Hacc; simpl; [eauto|].
  destruct (Htyped r (Hsub r (or_introl eq_refl))) as [ts Ht].
  rewrite (record_types_typed _ record _ _ Ht). simpl.
  assert (Hlen_ts : length acc = length ts)
    by (rewrite Hlen; symmetry; eapply typed_as_length; exact Ht).
  assert (Hwiden : forall j a t, acc !! j = Some a -> ts !! j = Some t -> widen a t <> None).
  { intros j a t Ha Htj. destruct (Hacc j a Ha) as (r0 & v0 & Hr0 & Hv0 & Ha0).
    destruct (typed_as_attained _ _ _ _ _ Ht Htj) as (v & Hv & Hat).
    exact (Hrec r0 r j v0 v a t Hr0 (Hsub r (or_introl eq_refl)) Hv0 Ha0 Hv Hat). }
  destruct (merge_types_succeeds record 0 acc ts Hlen_ts Hwiden) as [acc' Hm].
  rewrite Hm. simpl. destruct (merge_types_Ok _ _ _ _ _ Hm) as (_ & Hlen' & Hlook).
  apply IH.
  - intros r' Hr'. apply Hsub. right. exact Hr'.
  - congruence.
  - intros j c Hc. destruct (Hlook j c Hc) as (a & t & Ha & Htj & Hw).
    destruct (widen_sound _ _ _ Hw) as (_ & _ & [->| ->]).
    + apply Hacc. exact Ha.
    + destruct (typed_as_attained _ _ _ _ _ Ht Htj) as (v & Hv & Hat).
      exists r, v. split; [apply Hsub; left; reflexivity|]. auto.
Qed.

(** Records that all have the first record's shape and arity, with atomic
    field values that can be widened with each other column by column,
    and names of the right number, infer to a row type. *)
Lemma infer_schema_succeeds first rest name_hint :
  (forall r, In r (first :: rest) -> exists ts, typed_as first r ts) ->
  reconcilable first (first :: rest) ->
  length (match name_hint with Some hint => hint | None => own_names first end)
    = arity first ->
  exists fields, infer_schema (first :: rest) name_hint = Ok (RowType fields true).
Proof.
  intros Htyped Hrec Hnames. unfold infer_schema.
  destruct (Htyped first (or_introl eq_refl)) as [ts0 Ht0].
  rewrite (record_types_typed _ 0%nat _ _ Ht0). simpl.
  assert (Hn : exists names,
            match name_hint with
            | Some hint =>
                if (length hint =? arity first)%nat then Ok hint
                else Raise (SchemaError (NameHintLength (length hint) (arity first)))
            | None =>
                if (length (own_names first) =? arity first)%nat then Ok (own_names first)
                else Raise (SchemaError (ArityMismatch 0))
            end = Ok names).
  { destruct name_hint as [hint|]; apply Nat.eqb_eq in Hnames; rewrite Hnames; eauto. }
  destruct Hn as [names ->]. simpl.
  destruct (infer_columns_succeeds first (first :: rest) rest 1%nat ts0) as [cs ->].
  - intros r Hr. right. exact Hr.
  - exact Htyped.
  - exact Hrec.
  - eapply typed_as_length. exact Ht0.
  - intros j a Ha. destruct (typed_as_attained _ _ _ _ _ Ht0 Ha) as (v & Hv & Hat).
    exists first, v. split; [left; reflexivity|]. auto.
  - simpl. eauto.
Qed.

Lemma widening_chain (i j : nat) (a b : Atomic) :
  widening_order !! i = Some a -> widening_order !! j = Some b -> (i <= j)%nat ->
  widen a b = Some b /\ widen b a = Some b.
Proof.
  intros Hi Hj Hle.
  assert (Hi5 : (i < 5)%nat) by (apply lookup_lt_Some in Hi; exact Hi).
  assert (Hj5 : (j < 5)%nat) by (apply lookup_lt_Some in Hj; exact Hj).
  destruct i as [|[|[|[|[|i]]]]]; try lia; injection Hi as <-;
    destruct j as [|[|[|[|[|j]]]]]; try lia; injection Hj as <-;
    split; reflexivity.
Qed.

Lemma widen_same (a : Atomic) : widen a a = Some a.
Proof. destruct a; reflexivity. Qed.

Lemma uniform_or_numeric_reconcilable first records :
  columns_uniform_or_numeric first records -> reconcilable first records.
Proof.
  intros Hu r1 r2 j v1 v2 a1 a2 Hr1 Hr2 Hv1 Ha1 Hv2 Ha2.
  destruct (Hu r1 r2 j v1 v2 a1 a2 Hr1 Hr2 Hv1 Ha1 Hv2 Ha2) as [->|[H1 H2]].
  - rewrite widen_same. discriminate.
  - simpl in H1, H2.
    repeat match goal with H : _ \/ _ |- _ => destruct H as [<-|H] end;
      solve [discriminate | contradiction].
Qed.

(** C7.  The widening order is the chain boolean < integer < long < float
    < double: any two of its types reconcile to the later one (so integer
    and float to float, integer and double to double), and string
    reconciles with none of them.  A sequence of records of one shape and
    arity, in whose columns the values are of one type or of types of the
    order, infers to a row type, and a column of it that holds integers
    and floats (or integers and doubles), at least one of them floating
    point, has the floating point type; the same holds of the column
    whenever the sequence infers to a row type at all.  A sequence with a
    string and an integer in the same column does not infer:
    [infer_schema] raises [SchemaError]. *)
Theorem infer_schema_widening :
  forall (records : list PyObj) (name_hint : option (list string)),
    ((forall i j a b,
        widening_order !! i = Some a -> widening_order !! j = Some b -> (i <= j)%nat ->
        widen a b = Some b /\ widen b a = Some b)
     /\ forall a, In a widening_order ->
                  widen AString a = None /\ widen a AString = None)
    /\ (forall first rest fields is_nullable j floating,
          records = first :: rest ->
          infer_schema records name_hint = Ok (RowType fields is_nullable) ->
          floating = AFloat \/ floating = ADouble ->
          (forall r, In r records ->
             exists v, column_value first r j = Some v
                       /\ (atom_of v = Some AInteger \/ atom_of v = Some floating)) ->
          (exists r v, In r records /\ column_value first r j = Some v
                       /\ atom_of v = Some floating) ->
          snd <$> fields !! j = Some (AtomicType floating true))
    /\ (forall first rest j floating,
          records = first :: rest ->
          (forall r, In r records -> exists ts, typed_as first r ts) ->
          columns_uniform_or_numeric first records ->
          length (match name_hint with Some hint => hint | None => own_names first end)
            = arity first ->
          floating = AFloat \/ floating = ADouble ->
          (forall r, In r records ->
             exists v, column_value first r j = Some v
                       /\ (atom_of v = Some AInteger \/ atom_of v = Some floating)) ->
          (exists r v, In r records /\ column_value first r j = Some v
                       /\ atom_of v = Some floating) ->
          exists fields,
            infer_schema records name_hint = Ok (RowType fields true)
            /\ snd <$> fields !! j = Some (AtomicType floating true))
    /\ (forall first rest j r1 r2 v1 v2,
          records = first :: rest ->
          In r1 records -> In r2 records ->
          column_value first r1 j = Some v1 -> atom_of v1 = Some AString ->
          column_value first r2 j = Some v2 -> atom_of v2 = Some AInteger ->
          exists why, infer_schema records name_hint = Raise (SchemaError why)).
Proof.
  intros records name_hint.
  assert (Hcolumn : forall first rest fields is_nullable j floating,
            records = first :: rest ->
            infer_schema records name_hint = Ok (RowType fields is_nullable) ->
            floating = AFloat \/ floating = ADouble ->
            (forall r, In r records ->
               exists v, column_value first r j = Some v
                         /\ (atom_of v = Some AInteger \/ atom_of v = Some floating)) ->
            (exists r v, In r records /\ column_value first r j = Some v
                         /\ atom_of v = Some floating) ->
            snd <$> fields !! j = Some (AtomicType floating true)).
  { intros first rest fields is_nullable j floating -> Hinf Hfl Hall (r & v & Hr & Hv & Ha).
    destruct (infer_schema_Ok _ _ _ Hinf)
      as (first' & rest' & names & cs & Heq & Ht & Hn & Hc & _ & Hrec & Hatt).
    inversion Heq; subst first' rest'. inversion Ht; subst fields is_nullable.
    destruct (Hrec r Hr) as (ts & Htyped & Hfits).
    destruct (typed_as_column _ _ _ _ _ Htyped Hv) as (a & Hj & Ha').
    assert (a = floating) by congruence. subst a.
    assert (Hlt : (j < length cs)%nat).
    { rewrite Hc, <- (typed_as_length _ _ _ Htyped). eapply lookup_lt_Some. exact Hj. }
    destruct (lookup_lt_is_Some_2 _ _ Hlt) as [c Hcj].
    apply inferred_field_type; [congruence|]. rewrite Hcj. f_equal.
    pose proof (Hfits j floating c Hj Hcj) as Hfc.
    destruct (Hatt j c Hcj) as (r' & ts' & Hr' & Htyped' & Hj').
    destruct (typed_as_attained _ _ _ _ _ Htyped' Hj') as (v' & Hv' & Ha'').
    destruct (Hall r' Hr') as (v'' & Hv'' & Hor).
    rewrite Hv' in Hv''. inversion Hv''; subst v''.
    unfold fits in Hfc.
    destruct Hor as [Hi|Hf]; [|congruence].
    assert (c = AInteger) by congruence. subst c.
    destruct Hfl; subst floating; discriminate Hfc. }
  split; [|split; [exact Hcolumn|split]].
  - split; [exact widening_chain|].
    intros a Ha. simpl in Ha.
    repeat match goal with H : _ \/ _ |- _ => destruct H as [<-|H] end;
      solve [split; reflexivity | contradiction].
  - intros first rest j floating Heq Htyped Hcols Hnames Hfl Hall Hsome. subst records.
    pose proof (uniform_or_numeric_reconcilable _ _ Hcols) as Hrec.
    destruct (infer_schema_succeeds first rest name_hint Htyped Hrec Hnames)
      as [fields Hinf].
    exists fields. split; [exact Hinf|].
    exact (Hcolumn first rest fields true j floating eq_refl Hinf Hfl Hall Hsome).
  - intros first rest j r1 r2 v1 v2 -> Hr1 Hr2 Hv1 Ha1 Hv2 Ha2.
    apply infer_schema_not_Ok. intros t Hinf.
    destruct (infer_schema_Ok _ _ _ Hinf)
      as (first' & rest' & names & cs & Heq & _ & _ & Hc & _ & Hrec & _).
    inversion Heq; subst first' rest'.
    destruct (Hrec r1 Hr1) as (ts1 & Ht1 & Hf1).
    destruct (Hrec r2 Hr2) as (ts2 & Ht2 & Hf2).
    destruct (typed_as_column _ _ _ _ _ Ht1 Hv1) as (a1 & Hj1 & Ha1').
    destruct (typed_as_column _ _ _ _ _ Ht2 Hv2) as (a2 & Hj2 & Ha2').
    assert (a1 = AString) by congruence. assert (a2 = AInteger) by congruence. subst.
    assert (Hlt : (j < length cs)%nat).
    { rewrite Hc, <- (typed_as_length _ _ _ Ht1). eapply lookup_lt_Some. exact Hj1. }
    destruct (lookup_lt_is_Some_2 _ _ Hlt) as [c Hcj].
    apply (fits_common AString AInteger c (Hf1 _ _ _ Hj1 Hcj) (Hf2 _ _ _ Hj2 Hcj)).
    reflexivity.
Qed.

Lemma sample_widening_columns :
  columns_uniform_or_numeric (PyTuple [PyInt 1; PyStr "Hi"])
    [PyTuple [PyInt 1; PyStr "Hi"]; PyTuple [PyFloat 3 (-1); PyStr "Hello"]].
Proof.
  intros r1 r2 j v1 v2 a1 a2 Hr1 Hr2 Hv1 Ha1 Hv2 Ha2.
  destruct Hr1 as [<-|[<-|[]]]; destruct Hr2 as [<-|[<-|[]]];
    destruct j as [|[|j]]; cbv in Hv1, Hv2; try discriminate;
    injection Hv1 as <-; injection Hv2 as <-;
    cbv in Ha1, Ha2; injection Ha1 as <-; injection Ha2 as <-;
    first [left; reflexivity | right; cbv; tauto].
Qed.

Lemma infer_schema_widening_witness :
  (exists fields,
     infer_schema [PyTuple [PyInt 1; PyStr "Hi"]; PyTuple [PyFloat 3 (-1); PyStr "Hello"]]
       None = Ok (RowType fields true)
     /\ snd <$> fields !! 0%nat = Some (AtomicType AFloat true))
  /\ exists why,
       infer_schema [PyTuple [PyStr "1"; PyStr "Hi"]; PyTuple [PyInt 2; PyStr "Hello"]] None =
       Raise (SchemaError why).
Proof.
  split.
  - refine (proj1 (proj2 (proj2 (infer_schema_widening
              [PyTuple [PyInt 1; PyStr "Hi"]; PyTuple [PyFloat 3 (-1); PyStr "Hello"]] None)))
              _ _ 0%nat AFloat eq_refl _ sample_widening_columns eq_refl
              (or_introl eq_refl) _ _).
    + intros r [<-|[<-|[]]]; eexists; repeat split; eexists;
        (split; [reflexivity|]); repeat constructor.
    + intros r [<-|[<-|[]]]; eexists; (split; [reflexivity|]); auto.
    + exists (PyTuple [PyFloat 3 (-1); PyStr "Hello"]), (PyFloat 3 (-1)).
      split; [right; left; reflexivity|]. split; reflexivity.
  - exact (proj2 (proj2 (proj2 (infer_schema_widening
              [PyTuple [PyStr "1"; PyStr "Hi"]; PyTuple [PyInt 2; PyStr "Hello"]] None)))
              _ _ 0%nat _ _ (PyStr "1") (PyInt 2) eq_refl
              (or_introl eq_refl) (or_intror (or_introl eq_refl))
              eq_refl eq_refl eq_refl eq_refl).
Defined.

(** ** Name hints that do not match the arity *)

Lemma zip_names_fst {A} (names : list string) (xs : list A) :
  map fst (zip names xs) = take (length xs) names.
Proof.
  revert xs. induction names as [|n names IH]; intros [|x xs]; simpl; try reflexivity.
  f_equal. apply IH.
Qed.

Lemma result_map_named {A} (g : A -> result DataType) (l : list (string * A)) :
  Forall (fun p => is_ok (g (snd p)) = true) l ->
  exists fields,
    result_map (fun '(field_name, field) => let? t := g field in Ok (RowField field_name t)) l
      = Ok fields
    /\ map fst fields = map fst l.
Proof.
  induction 1 as [|[n x] l Hx _ (fields & IH & Hf)]; simpl.
  - exists []. auto.
  - simpl in Hx. destruct (g x) as [t|e]; [|discriminate]. simpl.
    rewrite IH. simpl. exists (RowField n t :: fields). simpl. rewrite Hf. auto.
Qed.

(** C3, as stated, fails in [from_pandas]: three names for a frame of
    two columns are paired with the columns by [zip] (line 1533), the
    third name is dropped, and the table is created. *)
Lemma from_pandas_name_hint_truncated :
  @pandas_result_type types_model (df_columns two_columns) (PdNames ["a"; "b"; "c"]) =
    Ok (RowType [("a", AtomicType ALong true); ("b", AtomicType ADouble true)] true)
  /\ is_ok (fst (@from_pandas types_model counting_serializers quiet_gateway the_env
                   (IsDataFrame two_columns) (PdNames ["a"; "b"; "c"]) 1 empty_world)) = true.
Proof. split; vm_compute; reflexivity. Qed.

(** C3, amended.  Schema inference over records ([infer_schema], which
    [from_elements] reaches through [_infer_schema_from_data]) raises
    [SchemaError] when a record has another shape or arity than the first,
    when a names hint has another length than the arity, and when two
    values of one column have types without a common widening; a 2-tuple
    and a 3-tuple in one call is such an error.  [from_elements] passes an
    exception of the inference on and creates nothing.  In [from_pandas] a
    list of names is paired with the frame's columns position by position:
    the row type has the first names, as many as there are columns, and no
    exception is raised for a difference in length. *)
Theorem schema_inference_failures :
  forall (T : TypesModule) (S : Serializers) (G : Gateway)
         (records : list PyObj) (name_hint : option (list string)),
    (forall first rest r,
       records = first :: rest -> In r records ->
       shape_of r <> shape_of first \/ arity r <> arity first ->
       exists why, infer_schema records name_hint = Raise (SchemaError why))
    /\ (forall first rest hint,
          records = first :: rest -> name_hint = Some hint ->
          length hint <> arity first ->
          exists why, infer_schema records name_hint = Raise (SchemaError why))
    /\ (forall first rest j r1 r2 v1 v2 a1 a2,
          records = first :: rest -> In r1 records -> In r2 records ->
          column_value first r1 j = Some v1 -> atom_of v1 = Some a1 ->
          column_value first r2 j = Some v2 -> atom_of v2 = Some a2 ->
          widen a1 a2 = None ->
          exists why, infer_schema records name_hint = Raise (SchemaError why))
    /\ (forall a b c d e,
          exists why, infer_schema [PyTuple [a; b]; PyTuple [c; d; e]] name_hint =
                      Raise (SchemaError why))
    /\ (forall self verify_schema w e,
          _infer_schema_from_data records name_hint = Raise e ->
          from_elements self records
            (match name_hint with Some names => SchemaNames names | None => SchemaNone end)
            verify_schema w = (Raise e, w))
    /\ (forall arrow_schema name names,
          Forall (fun field => is_ok (from_arrow_type (col_type field) (col_nullable field))
                               = true) arrow_schema ->
          exists fields,
            pandas_result_type arrow_schema (PdNames (name :: names)) =
              Ok (RowType fields true)
            /\ map fst fields = take (length arrow_schema) (name :: names)).
Proof.
  intros T S G records name_hint.
  assert (HA : forall first rest r,
            records = first :: rest -> In r records ->
            shape_of r <> shape_of first \/ arity r <> arity first ->
            exists why, infer_schema records name_hint = Raise (SchemaError why)).
  { intros first rest r -> Hr Hdiff. apply infer_schema_not_Ok. intros t Hinf.
    destruct (infer_schema_Ok _ _ _ Hinf)
      as (first' & rest' & names & cs & Heq & _ & _ & _ & _ & Hrec & _).
    inversion Heq; subst first' rest'.
    destruct (Hrec r Hr) as (ts & (Hs & Ha & _) & _). destruct Hdiff; contradiction. }
  split; [exact HA|]. split; [|split; [|split; [|split]]].
  - intros first rest hint -> -> Hlen. apply infer_schema_not_Ok. intros t Hinf.
    destruct (infer_schema_Ok _ _ _ Hinf)
      as (first' & rest' & names & cs & Heq & _ & Hn & _ & Hhint & _).
    inversion Heq; subst first' rest'. rewrite (Hhint hint eq_refl) in Hn. contradiction.
  - intros first rest j r1 r2 v1 v2 a1 a2 -> Hr1 Hr2 Hv1 Ha1 Hv2 Ha2 Hw.
    apply infer_schema_not_Ok. intros t Hinf.
    destruct (infer_schema_Ok _ _ _ Hinf)
      as (first' & rest' & names & cs & Heq & _ & _ & Hc & _ & Hrec & _).
    inversion Heq; subst first' rest'.
    destruct (Hrec r1 Hr1) as (ts1 & Ht1 & Hf1).
    destruct (Hrec r2 Hr2) as (ts2 & Ht2 & Hf2).
    destruct (typed_as_column _ _ _ _ _ Ht1 Hv1) as (b1 & Hj1 & Hb1).
    destruct (typed_as_column _ _ _ _ _ Ht2 Hv2) as (b2 & Hj2 & Hb2).
    assert (b1 = a1) by congruence. assert (b2 = a2) by congruence. subst.
    assert (Hlt : (j < length cs)%nat).
    { rewrite Hc, <- (typed_as_length _ _ _ Ht1). eapply lookup_lt_Some. exact Hj1. }
    destruct (lookup_lt_is_Some_2 _ _ Hlt) as [c Hcj].
    apply (fits_common a1 a2 c (Hf1 _ _ _ Hj1 Hcj) (Hf2 _ _ _ Hj2 Hcj)). exact Hw.
  - intros a b c d e.
    destruct (infer_schema_not_Ok [PyTuple [a; b]; PyTuple [c; d; e]] name_hint)
      as [why Hwhy]; [|eauto].
    intros t Hinf.
    destruct (infer_schema_Ok _ _ _ Hinf)
      as (first' & rest' & names & cs & Heq & _ & _ & _ & _ & Hrec & _).
    inversion Heq; subst first' rest'.
    destruct (Hrec (PyTuple [c; d; e])) as (ts & (_ & Ha & _) & _);
      [right; left; reflexivity | discriminate Ha].
  - intros self verify_schema w e Hraise.
    unfold from_elements. destruct name_hint as [names|]; simpl;
      unfold bind, lift, infer_if_needed; rewrite Hraise; reflexivity.
  - intros arrow_schema name names Hok.
    destruct (result_map_named
                (fun field => from_arrow_type (col_type field) (col_nullable field))
                (zip (name :: names) arrow_schema)) as (fields & Hf & Hnames).
    { apply Forall_forall. intros [n field] Hin. simpl.
      rewrite Forall_forall in Hok. apply Hok.
      apply (elem_of_zip_r _ _ _ _ Hin). }
    exists fields. split.
    + unfold pandas_result_type. rewrite Hf. reflexivity.
    + rewrite Hnames. apply zip_names_fst.
Qed.

(* ================================================================== *)
(** * 16. Properties of conversion                                     *)
(* ================================================================== *)

(** Induction over a [DataType] with the hypothesis for every field of a
    row. *)
Section DataType_nested_ind.
Variable P : DataType -> Prop.
Hypothesis Hatomic : forall a n, P (AtomicType a n).
Hypothesis Hrow : forall fields n, Forall (fun f => P (snd f)) fields -> P (RowType fields n).
Hypothesis Hlist : forall element n, P element -> P (ListType element n).
Hypothesis Hmap : forall key value n, P key -> P value -> P (MapType key value n).

Fixpoint DataType_nested_ind (t : DataType) : P t :=
  match t with
  | AtomicType a n => Hatomic a n
  | RowType fields n =>
      Hrow fields n
        ((fix go (fs : list (string * DataType)) : Forall (fun f => P (snd f)) fs :=
            match fs with
            | [] => @List.Forall_nil _ _
            | (name, ft) :: fs' =>
                @List.Forall_cons _ (fun f => P (snd f)) (name, ft) fs'
                  (DataType_nested_ind ft) (go fs')
            end) fields)
  | ListType element n => Hlist element n (DataType_nested_ind element)
  | MapType key value n =>
      Hmap key value n (DataType_nested_ind key) (DataType_nested_ind value)
  end.
End DataType_nested_ind.

Lemma result_bind_Ok {A B} (r : result A) (k : A -> result B) b :
  result_bind r k = Ok b -> exists a, r = Ok a /\ k a = Ok b.
Proof. destruct r as [a|e]; simpl; [eauto | discriminate]. Qed.

Lemma result_map_Ok_In {A B} (f : A -> result B) xs ys x :
  result_map f xs = Ok ys -> In x xs -> exists y, f x = Ok y.
Proof.
  revert ys. induction xs as [|x0 xs IH]; intros ys Hmap Hin; [destruct Hin|].
  simpl in Hmap. apply result_bind_Ok in Hmap as (y0 & Hy0 & Hrest).
  apply result_bind_Ok in Hrest as (ys0 & Hys0 & _).
  destruct Hin as [->|Hin]; [eauto | eapply IH; eauto].
Qed.

Lemma result_map_total {A B} (f : A -> result B) xs :
  (forall x, In x xs -> exists y, f x = Ok y) -> exists ys, result_map f xs = Ok ys.
Proof.
  induction xs as [|x xs IH]; intros Hall; simpl; [eauto|].
  destruct (Hall x (or_introl eq_refl)) as [y ->].
  destruct IH as [ys ->]; [intros x' Hx'; apply Hall; right; exact Hx'|].
  simpl. eauto.
Qed.

Lemma assoc_In key kvs x : assoc key kvs = Some x -> In (key, x) kvs.
Proof.
  induction kvs as [|[k v] kvs IH]; simpl; [discriminate|].
  destruct (String.eqb_spec key k) as [->|Hne].
  - intros E. inversion E. left. reflexivity.
  - intros E. right. apply IH. exact E.
Qed.

Lemma assoc_NoDup key kvs x :
  NoDup (map fst kvs) -> In (key, x) kvs -> assoc key kvs = Some x.
Proof.
  induction kvs as [|[k v] kvs IH]; simpl; intros Hnd Hin; [destruct Hin|].
  apply NoDup_cons in Hnd as [Hnotin Hnd].
  destruct Hin as [E|Hin].
  - inversion E; subst. rewrite String.eqb_refl. reflexivity.
  - destruct (String.eqb_spec key k) as [->|Hne]; [|apply IH; assumption].
    exfalso. apply Hnotin. apply list_elem_of_In.
    change k with (fst (k, x)). apply in_map. exact Hin.
Qed.

Lemma row_positional_total (fields : list (string * DataType)) bad bad' vs us :
  Forall (fun f => converts (snd f)) fields ->
  row_positional (fun name ft x => verify ft name x) bad fields vs = Ok us ->
  exists es, row_positional (fun _ ft x => convert ft x) bad' fields vs = Ok es.
Proof.
  intros Hall. revert vs us.
  induction Hall as [|[name ft] fields Hft _ IH]; intros [|x vs] us; simpl;
    try discriminate; [eauto|].
  intros Hv. apply result_bind_Ok in Hv as ([] & Hx & Hrest).
  apply result_bind_Ok in Hrest as (us' & Hvs & _).
  simpl in Hft. destruct (Hft name x Hx) as [e ->].
  destruct (IH _ _ Hvs) as [es ->]. simpl. eauto.
Qed.

Lemma row_named_total (fields : list (string * DataType)) missing missing' kvs us :
  Forall (fun f => converts (snd f)) fields ->
  row_named (fun name ft x => verify ft name x) missing kvs fields = Ok us ->
  exists es, row_named (fun _ ft x => convert ft x) missing' kvs fields = Ok es.
Proof.
  intros Hall. revert us.
  induction Hall as [|[name ft] fields Hft _ IH]; intros us; simpl; [eauto|].
  destruct (assoc name kvs) as [x|]; [|discriminate].
  intros Hv. apply result_bind_Ok in Hv as ([] & Hx & Hrest).
  apply result_bind_Ok in Hrest as (us' & Hvs & _).
  simpl in Hft. destruct (Hft name x Hx) as [e ->].
  destruct (IH _ Hvs) as [es ->]. simpl. eauto.
Qed.

(** Specification 4.1: [convert] is "total ... once validation has
    passed". *)
Lemma convert_total : forall t, converts t.
Proof.
  induction t as [a n|fields n IH|element n IH|key value n _ IH] using DataType_nested_ind;
    intros field v Hv.
  - destruct v; simpl in *; eauto; discriminate.
  - destruct v; simpl in Hv |- *; eauto; try discriminate.
    + apply result_bind_Ok in Hv as (us & Hus & _).
      destruct (row_positional_total fields _ (ValueError "wrong number of fields") _ _ IH Hus)
        as [es ->]. simpl. eauto.
    + destruct (length items =? length fields)%nat; [|discriminate].
      apply result_bind_Ok in Hv as (us & Hus & _).
      destruct (row_named_total fields _ (fun _ _ => ValueError "missing field") _ _ IH Hus)
        as [es ->]. simpl. eauto.
    + apply result_bind_Ok in Hv as (us & Hus & _).
      destruct (row_positional_total fields _ (ValueError "wrong number of fields") _ _ IH Hus)
        as [es ->]. simpl. eauto.
    + apply result_bind_Ok in Hv as (us & Hus & _).
      destruct (row_positional_total fields _ (ValueError "wrong number of fields") _ _ IH Hus)
        as [es ->]. simpl. eauto.
  - destruct v; simpl in Hv |- *; eauto; try discriminate.
    apply result_bind_Ok in Hv as (us & Hus & _).
    destruct (result_map_total (convert element) items) as [es ->]; [|simpl; eauto].
    intros x Hx. destruct (result_map_Ok_In _ _ _ _ Hus Hx) as [[] Hvx].
    eapply IH. exact Hvx.
  - destruct v; simpl in Hv |- *; eauto; try discriminate.
    apply result_bind_Ok in Hv as (us & Hus & _).
    destruct (result_map_total
                (fun '(k, x) => let? e := convert value x in Ok (k, e)) items)
      as [es ->]; [|simpl; eauto].
    intros [k x] Hx. destruct (result_map_Ok_In _ _ _ _ Hus Hx) as [[] Hvx].
    apply result_bind_Ok in Hvx as ([] & _ & Hvx).
    destruct (IH field x Hvx) as [e ->]. simpl. eauto.
Qed.

Lemma row_positional_respects (fields : list (string * DataType)) bad bad' vs vs' us :
  Forall (fun f => respects (snd f)) fields ->
  Forall2 py_equal vs vs' ->
  row_positional (fun name ft x => verify ft name x) bad fields vs = Ok us ->
  row_positional (fun _ ft x => convert ft x) bad' fields vs' =
  row_positional (fun _ ft x => convert ft x) bad' fields vs.
Proof.
  intros Hall. revert vs vs' us.
  induction Hall as [|[name ft] fields Hft _ IH]; intros vs vs' us Heq;
    destruct Heq as [|x x' vs vs' Hx Heq]; simpl; try discriminate; [reflexivity|].
  intros Hv. apply result_bind_Ok in Hv as ([] & Hvx & Hrest).
  apply result_bind_Ok in Hrest as (us' & Hvs & _).
  simpl in Hft. rewrite (Hft name x x' Hvx Hx), (IH _ _ _ Heq Hvs). reflexivity.
Qed.

Lemma row_named_respects (fields : list (string * DataType)) missing missing' kvs kvs' us :
  Forall (fun f => respects (snd f)) fields ->
  (forall k, option_Forall2 py_equal (assoc k kvs) (assoc k kvs')) ->
  row_named (fun name ft x => verify ft name x) missing kvs fields = Ok us ->
  row_named (fun _ ft x => convert ft x) missing' kvs' fields =
  row_named (fun _ ft x => convert ft x) missing' kvs fields.
Proof.
  intros Hall Heq. revert us.
  induction Hall as [|[name ft] fields Hft _ IH]; intros us; simpl; [reflexivity|].
  destruct (Heq name) as [x x' Hx|]; [|discriminate].
  intros Hv. apply result_bind_Ok in Hv as ([] & Hvx & Hrest).
  apply result_bind_Ok in Hrest as (us' & Hvs & _).
  simpl in Hft. rewrite (Hft name x x' Hvx Hx), (IH _ Hvs). reflexivity.
Qed.

Lemma result_map_respects (element : DataType) field vs vs' us :
  respects element ->
  Forall2 py_equal vs vs' ->
  result_map (verify element field) vs = Ok us ->
  result_map (convert element) vs' = result_map (convert element) vs.
Proof.
  intros He Heq. revert us.
  induction Heq as [|x x' vs vs' Hx _ IH]; intros us; simpl; [reflexivity|].
  intros Hv. apply result_bind_Ok in Hv as ([] & Hvx & Hrest).
  apply result_bind_Ok in Hrest as (us' & Hvs & _).
  rewrite (He field x x' Hvx Hx), (IH _ Hvs). reflexivity.
Qed.

(** The entries of a converted mapping, read as a finite map: the value
    under a key is the conversion of the value the mapping holds there. *)
Lemma converted_entries_lookup (value : DataType) kvs es k :
  result_map (fun '(k, x) => let? e := convert value x in Ok (k, e)) kvs = Ok es ->
  (list_to_map es : gmap string EngineRow) !! k =
  match assoc k kvs with
  | Some x => match convert value x with Ok e => Some e | Raise _ => None end
  | None => None
  end.
Proof.
  revert es. induction kvs as [|[k0 x0] kvs IH]; intros es; simpl.
  - intros E. inversion E. reflexivity.
  - intros Hm. apply result_bind_Ok in Hm as ([k1 e1] & Hx0 & Hrest).
    apply result_bind_Ok in Hrest as (es' & Hes' & E). inversion E; subst es. clear E.
    apply result_bind_Ok in Hx0 as (e0 & He0 & E). inversion E; subst k1 e1. clear E.
    simpl. destruct (String.eqb_spec k k0) as [->|Hne].
    + rewrite lookup_insert_eq, He0. reflexivity.
    + rewrite lookup_insert_ne by congruence. apply IH. exact Hes'.
Qed.

Lemma map_entries_respect (value : DataType) field kvs kvs' :
  respects value ->
  NoDup (map fst kvs') ->
  (forall k, option_Forall2 py_equal (assoc k kvs) (assoc k kvs')) ->
  (forall k x, In (k, x) kvs -> verify value field x = Ok tt) ->
  exists es es',
    result_map (fun '(k, x) => let? e := convert value x in Ok (k, e)) kvs = Ok es
    /\ result_map (fun '(k, x) => let? e := convert value x in Ok (k, e)) kvs' = Ok es'
    /\ (list_to_map es' : gmap string EngineRow) = list_to_map es.
Proof.
  intros Hv Hnd Heq Hver.
  assert (Hverified : forall k x, assoc k kvs = Some x -> verify value field x = Ok tt).
  { intros k x Hk. apply assoc_In in Hk. eapply Hver. exact Hk. }
  assert (Hsame : forall k x x', assoc k kvs = Some x -> assoc k kvs' = Some x' ->
                                 convert value x' = convert value x).
  { intros k x x' Hk Hk'. specialize (Heq k). rewrite Hk, Hk' in Heq.
    inversion Heq; subst. eapply Hv; eauto. }
  destruct (result_map_total
              (fun '(k, x) => let? e := convert value x in Ok (k, e)) kvs) as [es Hes].
  { intros [k x] Hin.
    destruct (convert_total value field x (Hver k x Hin)) as [e ->]. simpl. eauto. }
  destruct (result_map_total
              (fun '(k, x) => let? e := convert value x in Ok (k, e)) kvs') as [es' Hes'].
  { intros [k x'] Hin. pose proof (assoc_NoDup _ _ _ Hnd Hin) as Hk'.
    pose proof (Heq k) as Hrel. rewrite Hk' in Hrel. inversion Hrel as [x y Hxy Hk E|]; subst.
    symmetry in Hk. rewrite (Hsame k x x' Hk Hk').
    destruct (convert_total value field x (Hverified k x Hk)) as [e ->]. simpl. eauto. }
  exists es, es'. split; [exact Hes|]. split; [exact Hes'|].
  apply map_eq. intros k.
  rewrite (converted_entries_lookup _ _ _ k Hes), (converted_entries_lookup _ _ _ k Hes').
  pose proof (Heq k) as Hrel.
  destruct (assoc k kvs) as [y|] eqn:Hk, (assoc k kvs') as [y'|] eqn:Hk';
    inversion Hrel; subst; [|reflexivity].
  rewrite (Hsame k y y' Hk Hk'). reflexivity.
Qed.

(** C8.  For every schema [t] and every record [v] that passes [verify]
    against it, a record [v'] equal to [v] converts to the same engine
    row.  Equal records may hold the items of their mappings in different
    orders, so the conversion does not depend on the order in which a
    mapping is iterated. *)
Theorem convert_deterministic :
  forall (t : DataType) (field : string) (v v' : PyObj),
    verify t field v = Ok tt -> py_equal v v' -> convert t v' = convert t v.
Proof.
  induction t as [a n|fields n IH|element n IH|key value n _ IH] using DataType_nested_ind;
    intros field v v' Hv Heq;
    destruct Heq as [v|vs vs' Heq|vs vs' Heq|names vs vs' Heq|kvs kvs' Hnd Hnd' Heq];
    try reflexivity; simpl in Hv |- *; try discriminate.
  - apply result_bind_Ok in Hv as (us & Hus & _).
    rewrite (row_positional_respects fields _ _ _ _ _ IH Heq Hus). reflexivity.
  - apply result_bind_Ok in Hv as (us & Hus & _).
    rewrite (row_positional_respects fields _ _ _ _ _ IH Heq Hus). reflexivity.
  - apply result_bind_Ok in Hv as (us & Hus & _).
    rewrite (row_positional_respects fields _ _ _ _ _ IH Heq Hus). reflexivity.
  - destruct (length kvs =? length fields)%nat; [|discriminate].
    apply result_bind_Ok in Hv as (us & Hus & _).
    rewrite (row_named_respects fields _ _ _ _ _ IH Heq Hus). reflexivity.
  - apply result_bind_Ok in Hv as (us & Hus & _).
    rewrite (result_map_respects element field _ _ _ IH Heq Hus). reflexivity.
  - apply result_bind_Ok in Hv as (us & Hus & _).
    destruct (map_entries_respect value field kvs kvs' IH Hnd' Heq)
      as (es & es' & -> & -> & Hmap).
    + intros k x Hin. destruct (result_map_Ok_In _ _ _ _ Hus Hin) as [[] Hx].
      apply result_bind_Ok in Hx as ([] & _ & Hx). exact Hx.
    + simpl. rewrite Hmap. reflexivity.
Qed.

Lemma sample_mappings_equal : py_equal sample_mapping sample_mapping_reordered.
Proof.
  apply py_equal_dict.
  - repeat constructor; simpl; intros Hin; repeat (apply elem_of_cons in Hin as [Hin|Hin]);
      try discriminate; inversion Hin.
  - repeat constructor; simpl; intros Hin; repeat (apply elem_of_cons in Hin as [Hin|Hin]);
      try discriminate; inversion Hin.
  - intros k. simpl.
    destruct (String.eqb_spec k "a") as [Ha|Ha], (String.eqb_spec k "b") as [Hb|Hb];
      try (subst; discriminate); repeat constructor.
Qed.

Lemma convert_deterministic_witness :
  verify sample_row_type "obj" sample_mapping = Ok tt
  /\ py_equal sample_mapping sample_mapping_reordered
  /\ convert sample_row_type sample_mapping_reordered = convert sample_row_type sample_mapping.
Proof.
  split; [reflexivity|]. split; [exact sample_mappings_equal|].
  exact (convert_deterministic sample_row_type "obj" sample_mapping sample_mapping_reordered
           eq_refl sample_mappings_equal).
Defined.

Lemma schema_inference_failures_witness :
  exists why,
    infer_schema [PyTuple [PyInt 1; PyStr "Hi"]; PyTuple [PyInt 2; PyStr "Hello"; PyInt 3]]
                 (Some ["a"; "b"]) = Raise (SchemaError why).
Proof.
  refine (proj1 (schema_inference_failures types_model counting_serializers quiet_gateway
                   [PyTuple [PyInt 1; PyStr "Hi"]; PyTuple [PyInt 2; PyStr "Hello"; PyInt 3]]
                   (Some ["a"; "b"]))
                _ _ (PyTuple [PyInt 2; PyStr "Hello"; PyInt 3]) eq_refl
                (or_intror (or_introl eq_refl)) (or_intror _)).
  simpl. lia.
Defined.

(* ================================================================== *)
(** * 17. Properties of the configuration methods                      *)
(* ================================================================== *)

Lemma append_assoc (a b c : string) : (a +:+ b) +:+ c = a +:+ b +:+ c.
Proof.
  induction a as [|x a IH]; [reflexivity|]. rewrite !append_cons, IH. reflexivity.
Qed.

Lemma join_cons (sep item : string) (rest : list string) :
  rest <> [] -> join sep (item :: rest) = item +:+ sep +:+ join sep rest.
Proof. destruct rest; [congruence | reflexivity]. Qed.

Lemma join_snoc (sep item : string) (items : list string) :
  items <> [] -> join sep (items ++ [item]) = join sep items +:+ sep +:+ item.
Proof.
  induction items as [|x items IH]; [congruence|]. intros _.
  destruct items as [|y items]; [reflexivity|].
  change ((x :: y :: items) ++ [item]) with (x :: (y :: items) ++ [item]).
  rewrite join_cons by discriminate. rewrite IH by discriminate.
  rewrite (join_cons sep x (y :: items)) by discriminate.
  rewrite !append_assoc. reflexivity.
Qed.

Section PythonDependenciesFacts.
Variables PYTHON_FILES PYTHON_REQUIREMENTS PYTHON_ARCHIVES : string.
Variables FILE_DELIMITER PARAM_DELIMITER : string.

(** What the configuration holds under [PYTHON_FILES] after the files
    [files] were added one after the other. *)
Lemma add_python_file_fold (configuration : gmap string string) (files : list string) :
  files <> [] ->
  foldl (add_python_file PYTHON_FILES FILE_DELIMITER) configuration files !! PYTHON_FILES =
  Some (join FILE_DELIMITER
          (rev files ++ match configuration !! PYTHON_FILES with
                        | Some old => [old]
                        | None => []
                        end)).
Proof.
  induction files as [|file files IH] using rev_ind; [congruence|]. intros _.
  rewrite foldl_snoc, rev_app_distr. simpl rev. simpl app.
  unfold add_python_file at 1. rewrite lookup_insert_eq.
  destruct files as [|f0 files].
  - simpl. destruct (configuration !! PYTHON_FILES); reflexivity.
  - rewrite IH by discriminate. f_equal.
    set (listed := rev (f0 :: files) ++ _).
    rewrite (join_cons FILE_DELIMITER file listed).
    + reflexivity.
    + subst listed. intros E. apply app_eq_nil in E as [E _].
      apply (f_equal (@length string)) in E. rewrite length_rev in E. discriminate.
Qed.

(** X1.  Files added with [add_python_file] to a configuration that has
    none are listed most recent first: after adding [files] in order, the
    value of the option is the files in reverse order, joined by the file
    delimiter. *)
Theorem add_python_file_most_recent_first :
  forall (configuration : gmap string string) (files : list string),
    configuration !! PYTHON_FILES = None ->
    files <> [] ->
    foldl (add_python_file PYTHON_FILES FILE_DELIMITER) configuration files !! PYTHON_FILES =
    Some (join FILE_DELIMITER (rev files)).
Proof.
  intros configuration files Hnone Hfiles.
  rewrite add_python_file_fold by exact Hfiles. rewrite Hnone, app_nil_r. reflexivity.
Qed.

(** X2.  Archives added with [add_python_archive] are listed in the order
    they were added, after what the option held before; an archive with a
    target directory is listed as path, parameter delimiter, directory. *)
Theorem add_python_archive_in_order :
  forall (configuration : gmap string string) (archives : list (string * option string)),
    archives <> [] ->
    foldl (fun conf archive =>
             add_python_archive PYTHON_ARCHIVES FILE_DELIMITER PARAM_DELIMITER
               conf (fst archive) (snd archive))
          configuration archives !! PYTHON_ARCHIVES =
    Some (join FILE_DELIMITER
            (match configuration !! PYTHON_ARCHIVES with
             | Some old => [old]
             | None => []
             end ++ map (archive_entry PARAM_DELIMITER) archives)).
Proof.
  intros configuration archives.
  induction archives as [|archive archives IH] using rev_ind; [congruence|]. intros _.
  rewrite foldl_snoc, map_app. simpl map.
  unfold add_python_archive at 1. rewrite lookup_insert_eq.
  replace (match archive.2 with
           | Some target_dir => join PARAM_DELIMITER [archive.1; target_dir]
           | None => archive.1
           end) with (archive_entry PARAM_DELIMITER archive)
    by (destruct archive as [a [t|]]; reflexivity).
  destruct archives as [|a0 archives].
  - simpl. destruct (configuration !! PYTHON_ARCHIVES); reflexivity.
  - rewrite IH by discriminate. f_equal. rewrite app_assoc.
    rewrite join_snoc; [reflexivity|].
    intros E. apply app_eq_nil in E as [_ E]. discriminate.
Qed.

(** X3.  Adding a file and adding an archive do not interfere: the two
    calls commute when the options have different keys. *)
Theorem add_python_file_archive_commute :
  forall (configuration : gmap string string) file_path archive_path target_dir,
    PYTHON_FILES <> PYTHON_ARCHIVES ->
    add_python_archive PYTHON_ARCHIVES FILE_DELIMITER PARAM_DELIMITER
      (add_python_file PYTHON_FILES FILE_DELIMITER configuration file_path)
      archive_path target_dir =
    add_python_file PYTHON_FILES FILE_DELIMITER
      (add_python_archive PYTHON_ARCHIVES FILE_DELIMITER PARAM_DELIMITER
         configuration archive_path target_dir)
      file_path.
Proof.
  intros configuration file_path archive_path target_dir Hne.
  unfold add_python_archive, add_python_file.
  rewrite !lookup_insert_ne by congruence.
  apply insert_insert_ne. congruence.
Qed.

End PythonDependenciesFacts.

Lemma add_python_file_most_recent_first_witness :
  (<["other" := "x"]> ∅ : gmap string string) !! "python.files" = None /\
  ["a.py"; "b.py"; "c.py"] <> [] /\
  foldl (add_python_file "python.files" ",") (<["other" := "x"]> ∅) ["a.py"; "b.py"; "c.py"]
    !! "python.files" = Some "c.py,b.py,a.py".
Proof.
  split; [reflexivity|]. split; [discriminate|].
  apply (add_python_file_most_recent_first "python.files" ","
           (<["other" := "x"]> ∅) ["a.py"; "b.py"; "c.py"]); [reflexivity | discriminate].
Defined.

Lemma add_python_archive_in_order_witness :
  [("a.zip", Some "data"); ("b.zip", None)] <> [] /\
  foldl (fun conf archive =>
           add_python_archive "python.archives" "," "#" conf (fst archive) (snd archive))
        (<["python.archives" := "old.zip"]> ∅) [("a.zip", Some "data"); ("b.zip", None)]
    !! "python.archives" = Some "old.zip,a.zip#data,b.zip".
Proof.
  split; [discriminate|].
  etrans.
  - apply (add_python_archive_in_order "python.archives" "," "#"
             (<["python.archives" := "old.zip"]> ∅)
             [("a.zip", Some "data"); ("b.zip", None)]). discriminate.
  - vm_compute. reflexivity.
Defined.

Lemma add_python_file_archive_commute_witness :
  "python.files" <> "python.archives" /\
  add_python_archive "python.archives" "," "#"
    (add_python_file "python.files" "," ∅ "a.py") "a.zip" (Some "data") =
  add_python_file "python.files" ","
    (add_python_archive "python.archives" "," "#" ∅ "a.zip" (Some "data")) "a.py".
Proof.
  split; [discriminate|].
  apply (add_python_file_archive_commute "python.files" "python.archives" "," "#"
           ∅ "a.py" "a.zip" (Some "data")); discriminate.
Defined.

(* ================================================================== *)
(** * 18. Properties of the jar lists                                  *)
(* ================================================================== *)

Lemma split_nonempty (sep : ascii) (s : string) : split sep s <> [].
Proof.
  destruct s as [|c s]; simpl; [discriminate|].
  destruct (Ascii.eqb c sep); [discriminate|].
  destruct (split sep s); discriminate.
Qed.

Lemma split_no_sep (sep : ascii) (s : string) :
  Forall (fun piece => contains sep piece = false) (split sep s).
Proof.
  induction s as [|c s IH]; simpl.
  - constructor; [reflexivity | constructor].
  - destruct (Ascii.eqb c sep) eqn:E.
    + constructor; [reflexivity | exact IH].
    + destruct (split sep s) as [|piece pieces].
      * constructor; [simpl; rewrite E; reflexivity | constructor].
      * inversion IH; subst. constructor; [simpl; rewrite E; assumption | assumption].
Qed.

Lemma split_plain (sep : ascii) (piece : string) :
  contains sep piece = false -> split sep piece = [piece].
Proof.
  induction piece as [|c piece IH]; intros Hc; [reflexivity|].
  simpl in Hc. apply orb_false_elim in Hc as [Hc1 Hc2].
  simpl. rewrite Hc1, IH by exact Hc2. reflexivity.
Qed.

Lemma split_append (sep : ascii) (piece rest : string) :
  contains sep piece = false ->
  split sep (piece +:+ String sep rest) = piece :: split sep rest.
Proof.
  induction piece as [|c piece IH]; intros Hc.
  - change (EmptyString +:+ String sep rest) with (String sep rest).
    simpl. rewrite Ascii.eqb_refl. reflexivity.
  - simpl in Hc. apply orb_false_elim in Hc as [Hc1 Hc2].
    rewrite append_cons. simpl. rewrite Hc1, IH by exact Hc2. reflexivity.
Qed.

(** [sep.join(pieces).split(sep) == pieces] when no piece holds the
    separator and there is a piece. *)
Lemma split_join (sep : ascii) (pieces : list string) :
  pieces <> [] ->
  Forall (fun piece => contains sep piece = false) pieces ->
  split sep (join (String sep EmptyString) pieces) = pieces.
Proof.
  induction pieces as [|piece pieces IH]; [congruence|]. intros _ Hall.
  inversion Hall as [|? ? Hp Hrest]; subst.
  destruct pieces as [|p2 pieces].
  - simpl. apply split_plain; assumption.
  - rewrite join_cons by discriminate.
    change (String sep EmptyString +:+ join (String sep EmptyString) (p2 :: pieces))
      with (String sep (join (String sep EmptyString) (p2 :: pieces))).
    rewrite split_append by assumption.
    rewrite IH; [reflexivity | discriminate | assumption].
Qed.

Lemma add_each (inserted l : list string) :
  foldl (fun (inserted : list string) url => inserted ++ [url]) inserted l = inserted ++ l.
Proof.
  revert inserted. induction l as [|x l IH]; intros inserted; simpl.
  - symmetry. apply app_nil_r.
  - rewrite IH, <- app_assoc. reflexivity.
Qed.

Lemma result_map_length {A B} (f : A -> result B) (xs : list A) ys :
  result_map f xs = Ok ys -> length ys = length xs.
Proof.
  revert ys. induction xs as [|x xs IH]; intros ys Hmap; simpl in Hmap.
  - injection Hmap as <-. reflexivity.
  - apply result_bind_Ok in Hmap as (y & _ & Hrest).
    apply result_bind_Ok in Hrest as (ys0 & Hys0 & Hret).
    injection Hret as <-. simpl. rewrite (IH ys0 Hys0). reflexivity.
Qed.

Lemma sample_set_order_lists : lists_the_set sample_set_order.
Proof.
  intros inserted. split; [apply NoDup_remove_dups|]. intros url. apply elem_of_remove_dups.
Qed.

Lemma entries_listed (configuration : gmap string string) key :
  entries configuration key = list_to_set (listed configuration key).
Proof. unfold entries, listed. destruct (configuration !! key); reflexivity. Qed.

Section JarsFacts.
Variable normalize : string -> result string.
Variable set_order : list string -> list string.
Hypothesis set_order_lists : lists_the_set set_order.

(** The insertions [_add_jars_to_j_env_config] makes: the normalized URLs,
    then what the environment configuration listed. *)
Lemma merged_insertions (urls : list string) (j_configuration : gmap string string) key :
  match j_configuration !! key with
  | Some existing =>
      foldl (fun (inserted : list string) url => inserted ++ [url]) urls
            (split ";" existing)
  | None => urls
  end = urls ++ listed j_configuration key.
Proof.
  unfold listed. destruct (j_configuration !! key) as [existing|].
  - apply add_each.
  - symmetry. apply app_nil_r.
Qed.

(** Reading back the value written for URLs without semicolons gives the
    set in its iteration order. *)
Lemma written_value_round_trip (inserted : list string) :
  inserted <> [] ->
  Forall (fun url => contains ";" url = false) inserted ->
  split ";" (join ";" (set_order inserted)) = set_order inserted.
Proof.
  intros Hne Hplain. destruct (set_order_lists inserted) as [_ Hmem].
  apply split_join.
  - intros E. destruct inserted as [|url inserted]; [congruence|].
    assert (Hin : url ∈ set_order (url :: inserted)) by (apply Hmem; left).
    rewrite E in Hin. inversion Hin.
  - rewrite Forall_forall in Hplain. apply Forall_forall.
    intros url Hin. apply Hplain, Hmem, Hin.
Qed.

Lemma merged_plain (urls : list string) (j_configuration : gmap string string) key :
  Forall (fun url => contains ";" url = false) urls ->
  Forall (fun url => contains ";" url = false) (urls ++ listed j_configuration key).
Proof.
  intros Hurls. apply Forall_app. split; [exact Hurls|].
  unfold listed. destruct (j_configuration !! key) as [existing|].
  - apply split_no_sep.
  - constructor.
Qed.

Lemma merged_nonempty (jar_urls : string) (urls : list string)
    (j_configuration : gmap string string) key :
  result_map normalize (split ";" jar_urls) = Ok urls ->
  urls ++ listed j_configuration key <> [].
Proof.
  intros Hmap E. apply result_map_length in Hmap.
  destruct urls as [|url urls]; [|discriminate].
  pose proof (split_nonempty ";" jar_urls) as Hne.
  destruct (split ";" jar_urls); [congruence | discriminate].
Qed.

Lemma _add_jars_run table_configuration key j_configuration jar_urls urls :
  table_configuration !! key = Some jar_urls ->
  result_map normalize (split ";" jar_urls) = Ok urls ->
  _add_jars_to_j_env_config normalize set_order table_configuration key j_configuration =
  (Ok tt, <[key := join ";" (set_order (urls ++ listed j_configuration key))]>
            j_configuration).
Proof.
  intros Hkey Hmap. unfold _add_jars_to_j_env_config.
  rewrite Hkey, Hmap, merged_insertions. reflexivity.
Qed.

(** What the written value lists, read back. *)
Lemma written_listed key j_configuration jar_urls urls :
  result_map normalize (split ";" jar_urls) = Ok urls ->
  Forall (fun url => contains ";" url = false) urls ->
  listed (<[key := join ";" (set_order (urls ++ listed j_configuration key))]>
            j_configuration) key
  = set_order (urls ++ listed j_configuration key).
Proof.
  intros Hmap Hplain. unfold listed at 1. rewrite lookup_insert_eq.
  apply written_value_round_trip.
  - eapply merged_nonempty, Hmap.
  - apply merged_plain, Hplain.
Qed.

Lemma set_order_members (inserted : list string) :
  list_to_set (C := gset string) (set_order inserted) = list_to_set inserted.
Proof.
  destruct (set_order_lists inserted) as [_ Hmem].
  apply set_eq. intros url. rewrite !elem_of_list_to_set. apply Hmem.
Qed.

(** X4.  After a merge the environment configuration lists, under the
    key, exactly the normalized URLs of the table configuration and the
    URLs it listed before; other keys are as they were. *)
Theorem _add_jars_merges_entries :
  forall table_configuration key j_configuration jar_urls urls,
    table_configuration !! key = Some jar_urls ->
    result_map normalize (split ";" jar_urls) = Ok urls ->
    Forall (fun url => contains ";" url = false) urls ->
    exists j_configuration',
      _add_jars_to_j_env_config normalize set_order table_configuration key j_configuration =
        (Ok tt, j_configuration')
      /\ entries j_configuration' key = list_to_set urls ∪ entries j_configuration key
      /\ forall other, other <> key -> j_configuration' !! other = j_configuration !! other.
Proof.
  intros table_configuration key j_configuration jar_urls urls Hkey Hmap Hplain.
  eexists. split; [apply (_add_jars_run _ _ _ _ _ Hkey Hmap)|]. split.
  - rewrite entries_listed, (written_listed _ _ _ _ Hmap Hplain).
    rewrite set_order_members, list_to_set_app_L, <- entries_listed. reflexivity.
  - intros other Hother. apply lookup_insert_ne. congruence.
Qed.

(** X5.  Duplicates are removed by comparing strings: the value a merge
    writes lists no string twice, and every entry the environment
    configuration listed before is still listed exactly as it was spelled
    there (only the URLs of the table configuration are normalized). *)
Theorem _add_jars_no_duplicates :
  forall table_configuration key j_configuration jar_urls urls,
    table_configuration !! key = Some jar_urls ->
    result_map normalize (split ";" jar_urls) = Ok urls ->
    Forall (fun url => contains ";" url = false) urls ->
    exists value,
      snd (_add_jars_to_j_env_config normalize set_order table_configuration key
             j_configuration) !! key = Some value
      /\ NoDup (split ";" value)
      /\ Forall (fun old => old ∈ split ";" value) (listed j_configuration key).
Proof.
  intros table_configuration key j_configuration jar_urls urls Hkey Hmap Hplain.
  rewrite (_add_jars_run _ _ _ _ _ Hkey Hmap). unfold snd.
  eexists. split; [apply lookup_insert_eq|].
  rewrite written_value_round_trip.
  - split; [apply (set_order_lists _)|].
    apply Forall_forall. intros old Hold.
    apply (set_order_lists _). apply elem_of_app. right. exact Hold.
  - eapply merged_nonempty, Hmap.
  - apply merged_plain, Hplain.
Qed.

(** X6.  A second merge of the same table configuration succeeds and
    changes nothing but, possibly, the order of the entries: the
    environment configuration lists the same set of entries under the key
    as after the first merge, and every other key is as it was. *)
Theorem _add_jars_idempotent :
  forall table_configuration key j_configuration jar_urls urls once,
    table_configuration !! key = Some jar_urls ->
    result_map normalize (split ";" jar_urls) = Ok urls ->
    Forall (fun url => contains ";" url = false) urls ->
    _add_jars_to_j_env_config normalize set_order table_configuration key j_configuration =
      (Ok tt, once) ->
    exists twice,
      _add_jars_to_j_env_config normalize set_order table_configuration key once =
        (Ok tt, twice)
      /\ entries twice key = entries once key
      /\ forall other, other <> key -> twice !! other = once !! other.
Proof.
  intros table_configuration key j_configuration jar_urls urls once Hkey Hmap Hplain Honce.
  rewrite (_add_jars_run _ _ _ _ _ Hkey Hmap) in Honce. injection Honce as <-.
  eexists. split; [apply (_add_jars_run _ _ _ _ _ Hkey Hmap)|]. split.
  - rewrite (entries_listed (<[key := _]> (<[key := _]> j_configuration))).
    rewrite (written_listed _ _ _ _ Hmap Hplain).
    rewrite set_order_members, list_to_set_app_L, <- entries_listed.
    rewrite (entries_listed (<[key := _]> j_configuration)).
    rewrite (written_listed _ _ _ _ Hmap Hplain).
    rewrite set_order_members, list_to_set_app_L.
    set_solver.
  - intros other Hother. apply lookup_insert_ne. congruence.
Qed.

(** X7.  [_before_execute] is not atomic: when the jars merge and a URL
    of the classpaths is refused, the call raises and the environment
    configuration keeps the merged jars. *)
Theorem _before_execute_keeps_jars_on_failure :
  forall jars_key classpaths_key table_configuration j_configuration merged
         classpaths url e,
    _add_jars_to_j_env_config normalize set_order table_configuration jars_key
      j_configuration = (Ok tt, merged) ->
    table_configuration !! classpaths_key = Some classpaths ->
    In url (split ";" classpaths) ->
    normalize url = Raise e ->
    exists e',
      _before_execute normalize set_order jars_key classpaths_key table_configuration
        j_configuration = (Raise e', merged).
Proof.
  intros jars_key classpaths_key table_configuration j_configuration merged
         classpaths url e Hjars Hkey Hin Hurl.
  unfold _before_execute. rewrite Hjars.
  unfold _add_jars_to_j_env_config. rewrite Hkey.
  destruct (result_map_raises normalize _ _ _ Hin Hurl) as [e' ->].
  exists e'. reflexivity.
Qed.

End JarsFacts.

(** The same jar under two spellings: the table configuration's URL is
    normalized, the environment configuration's is not, and both are
    written. *)
Lemma _add_jars_keeps_both_spellings :
  let normalize url :=
    if String.eqb url "file:///a.jar" then Ok "file:/a.jar" else sample_normalize url in
  snd (_add_jars_to_j_env_config normalize sample_set_order
         (<["pipeline.jars" := "file:///a.jar"]> ∅) "pipeline.jars"
         (<["pipeline.jars" := "file:///a.jar"]> ∅)) !! "pipeline.jars"
  = Some "file:/a.jar;file:///a.jar".
Proof. vm_compute. reflexivity. Qed.

Lemma _add_jars_merges_entries_witness :
  exists j_configuration',
    _add_jars_to_j_env_config sample_normalize sample_set_order sample_table_configuration
      "pipeline.jars" sample_j_configuration = (Ok tt, j_configuration')
    /\ entries j_configuration' "pipeline.jars" =
       list_to_set ["file:/a.jar"; "file:/b.jar"]
       ∪ entries sample_j_configuration "pipeline.jars"
    /\ forall other, other <> "pipeline.jars" ->
                     j_configuration' !! other = sample_j_configuration !! other.
Proof.
  apply (_add_jars_merges_entries sample_normalize sample_set_order sample_set_order_lists
           sample_table_configuration "pipeline.jars" sample_j_configuration
           "file:/a.jar;file:/b.jar" ["file:/a.jar"; "file:/b.jar"]).
  - reflexivity.
  - vm_compute. reflexivity.
  - repeat constructor.
Defined.

Lemma _add_jars_no_duplicates_witness :
  exists value,
    snd (_add_jars_to_j_env_config sample_normalize sample_set_order
           sample_table_configuration "pipeline.jars" sample_j_configuration)
      !! "pipeline.jars" = Some value
    /\ NoDup (split ";" value)
    /\ Forall (fun old => old ∈ split ";" value)
              (listed sample_j_configuration "pipeline.jars").
Proof.
  apply (_add_jars_no_duplicates sample_normalize sample_set_order sample_set_order_lists
           sample_table_configuration "pipeline.jars" sample_j_configuration
           "file:/a.jar;file:/b.jar" ["file:/a.jar"; "file:/b.jar"]).
  - reflexivity.
  - vm_compute. reflexivity.
  - repeat constructor.
Defined.

Lemma _add_jars_idempotent_witness :
  let once :=
    snd (_add_jars_to_j_env_config sample_normalize sample_set_order
           sample_table_configuration "pipeline.jars" sample_j_configuration) in
  exists twice,
    _add_jars_to_j_env_config sample_normalize sample_set_order sample_table_configuration
      "pipeline.jars" once = (Ok tt, twice)
    /\ entries twice "pipeline.jars" = entries once "pipeline.jars"
    /\ forall other, other <> "pipeline.jars" -> twice !! other = once !! other.
Proof.
  apply (_add_jars_idempotent sample_normalize sample_set_order sample_set_order_lists
           sample_table_configuration "pipeline.jars" sample_j_configuration
           "file:/a.jar;file:/b.jar" ["file:/a.jar"; "file:/b.jar"]).
  - reflexivity.
  - vm_compute. reflexivity.
  - repeat constructor.
  - vm_compute. reflexivity.
Defined.

Lemma _before_execute_keeps_jars_on_failure_witness :
  exists merged e',
    _add_jars_to_j_env_config sample_normalize sample_set_order sample_table_configuration
      "pipeline.jars" sample_j_configuration = (Ok tt, merged)
    /\ _before_execute sample_normalize sample_set_order "pipeline.jars"
         "pipeline.classpaths" sample_table_configuration sample_j_configuration =
       (Raise e', merged).
Proof.
  eexists.
  assert (Hjars : _add_jars_to_j_env_config sample_normalize sample_set_order
                    sample_table_configuration "pipeline.jars" sample_j_configuration =
                  (Ok tt, _)) by (vm_compute; reflexivity).
  destruct (_before_execute_keeps_jars_on_failure sample_normalize sample_set_order
              "pipeline.jars" "pipeline.classpaths" sample_table_configuration
              sample_j_configuration _ ";" "" (JavaError "java.net.URL")
              Hjars eq_refl (or_introl eq_refl) eq_refl) as [e' He'].
  exists e'. split; [exact Hjars | exact He'].
Defined.

(* ================================================================== *)
(** * 19. Properties of from_data_stream                               *)
(* ================================================================== *)

Section StreamFacts.
Context `{Gateway}.

Lemma jcall_quiet method args w :
  java_raises method args = None ->
  jcall method args w =
  (Ok (JCall method args),
   mkWorld (fs_dirs w) (fs_files w) (fs_open w) (fs_next w)
           (jvm_calls w ++ [(method, args)])).
Proof. intros Hquiet. unfold jcall. rewrite Hquiet. reflexivity. Qed.

Lemma not_all_expressions (fields : list PyObj) field :
  In field fields -> is_Expression field = false -> forallb is_Expression fields = false.
Proof.
  intros Hin Hfield. destruct (forallb is_Expression fields) eqn:Hall; [|reflexivity].
  rewrite forallb_forall in Hall. rewrite (Hall field Hin) in Hfield. discriminate.
Qed.

(** X8.  [from_data_stream] checks its [fields] late: when they are
    neither empty, nor all expressions, nor one string, it raises, but by
    then it has asked the stream for its execution environment and
    configured that for Python operators.  No [fromDataStream] call is
    made.  The exception is the [ValueError] of line 1766 for a single
    field; for two or more fields it is the [TypeError] of formatting that
    message. *)
Theorem from_data_stream_rejects_after_configuring :
  forall self data_stream fields field w,
    In field fields ->
    is_Expression field = false ->
    (forall names, fields <> [PyStr names]) ->
    let j_data_stream := _j_data_stream data_stream in
    let j_env := JCall "getExecutionEnvironment" [j_data_stream] in
    java_raises "getExecutionEnvironment" [j_data_stream] = None ->
    java_raises "PythonConfigUtil.configPythonOperator" [j_env] = None ->
    exists w',
      from_data_stream self data_stream fields w =
        (Raise (if (length fields =? 1)%nat
                then ValueError "Invalid arguments for 'fields'"
                else TypeError "not all arguments converted during string formatting"),
         w')
      /\ jvm_calls w' =
         jvm_calls w ++ [("getExecutionEnvironment", [j_data_stream]);
                         ("PythonConfigUtil.configPythonOperator", [j_env])].
Proof.
  intros self data_stream fields field w Hin Hfield Hstr j_data_stream j_env Hq1 Hq2.
  unfold from_data_stream, bind. fold j_data_stream.
  rewrite (jcall_quiet _ _ w Hq1). fold j_env.
  rewrite (jcall_quiet _ _ _ Hq2).
  rewrite (not_all_expressions fields field Hin Hfield).
  destruct fields as [|f1 fields]; [destruct Hin|].
  assert (Hdone : forall e : exn,
            exists w',
              (@raise Table e
                 (mkWorld (fs_dirs w) (fs_files w) (fs_open w) (fs_next w)
                    ((jvm_calls w ++ [("getExecutionEnvironment", [j_data_stream])]) ++
                     [("PythonConfigUtil.configPythonOperator", [j_env])]))) = (Raise e, w')
              /\ jvm_calls w' =
                 jvm_calls w ++ [("getExecutionEnvironment", [j_data_stream]);
                                 ("PythonConfigUtil.configPythonOperator", [j_env])]).
  { intros e. eexists. split; [reflexivity|]. simpl. rewrite <- app_assoc. reflexivity. }
  destruct fields as [|f2 fields].
  - cbn [length Nat.eqb].
    destruct f1; try apply Hdone. exfalso. exact (Hstr _ eq_refl).
  - cbn [length Nat.eqb]. destruct f1; apply Hdone.
Qed.

End StreamFacts.

Lemma from_data_stream_rejects_after_configuring_witness :
  (exists w',
     @from_data_stream quiet_gateway the_env (mkDataStream (JCall "j_data_stream" []))
       [PyStr "a"; PyStr "b"] empty_world =
       (Raise (TypeError "not all arguments converted during string formatting"), w')
     /\ jvm_calls w' =
        jvm_calls empty_world ++
        [("getExecutionEnvironment", [JCall "j_data_stream" []]);
         ("PythonConfigUtil.configPythonOperator",
          [JCall "getExecutionEnvironment" [JCall "j_data_stream" []]])])
  /\ (exists w',
        @from_data_stream quiet_gateway the_env (mkDataStream (JCall "j_data_stream" []))
          [PyInt 1] empty_world =
          (Raise (ValueError "Invalid arguments for 'fields'"), w')
        /\ jvm_calls w' =
           jvm_calls empty_world ++
           [("getExecutionEnvironment", [JCall "j_data_stream" []]);
            ("PythonConfigUtil.configPythonOperator",
             [JCall "getExecutionEnvironment" [JCall "j_data_stream" []]])]).
Proof.
  split.
  - apply (@from_data_stream_rejects_after_configuring quiet_gateway the_env
             (mkDataStream (JCall "j_data_stream" [])) [PyStr "a"; PyStr "b"] (PyStr "a")
             empty_world).
    + left. reflexivity.
    + reflexivity.
    + intros names. discriminate.
    + reflexivity.
    + reflexivity.
  - apply (@from_data_stream_rejects_after_configuring quiet_gateway the_env
             (mkDataStream (JCall "j_data_stream" [])) [PyInt 1] (PyInt 1) empty_world).
    + left. reflexivity.
    + reflexivity.
    + intros names. discriminate.
    + reflexivity.
    + reflexivity.
Defined.

(* ================================================================== *)
(** * 20. Properties of the slices of from_pandas                      *)
(* ================================================================== *)

Lemma bind_ext {A B} (c : Py A) (k k' : A -> Py B) w :
  (forall a w1, k a w1 = k' a w1) -> bind c k w = bind c k' w.
Proof. intros Hk. unfold bind. destruct (c w) as [[a|e] w1]; [apply Hk | reflexivity]. Qed.

(** [from_pandas] computes its slices as [pandas_slices] does. *)
Lemma from_pandas_uses_slices `{TypesModule} `{Serializers} `{Gateway}
    self pdf schema splits_num w :
  from_pandas self (IsDataFrame pdf) schema splits_num w =
  (let* result_type := lift (pandas_result_type (df_columns pdf) schema) in
   let* d := mkdtemp in
   let* temp_file := NamedTemporaryFile d in
   let* _ := lift (create_arrow_schema (field_names result_type)
                                       (field_types result_type)) in
   let* config := get_config self in
   let* tz := jcall "getLocalTimeZone" [config] in
   let* timezone := lift (pytz_timezone tz) in
   let* data := lift (pandas_slices pdf splits_num) in
   try_finally
     (let* _ := with_ temp_file
                  (let (bytes, failure) :=
                     ArrowSerializer_serialize result_type timezone data in
                   let* _ := write temp_file bytes in
                   match failure with Some e => raise e | None => ret tt end) in
      let* j_type := _to_java_type result_type in
      let* legacy := jcall "TypeConversions.fromLegacyInfoToDataType" [j_type] in
      let* data_type := jcall "notNull" [legacy] in
      let* row_data := jcall "load_java_class"
                             [JString "org.apache.flink.table.data.RowData"] in
      let* data_type := jcall "bridgedTo" [data_type; row_data] in
      let* j_arrow_table_source :=
        jcall "ArrowUtils.createArrowTableSource" [data_type; JString temp_file] in
      let* j_table := jcall "fromTableSource" [_j_tenv self; j_arrow_table_source] in
      ret (mkTable j_table self))
     (unlink temp_file)) w.
Proof.
  unfold from_pandas, pandas_slices.
  repeat (apply bind_ext; intros ? ?).
  unfold bind, lift.
  destruct (floordiv (- Z.of_nat (df_len pdf)) splits_num) as [q|e]; [|reflexivity].
  simpl. destruct (range (Z.of_nat (df_len pdf)) (- q)) as [starts|e]; reflexivity.
Qed.

Lemma chunks_concat {A} (l : list A) (step : Z) (n : nat) (start : Z) :
  0 < step -> 0 <= start ->
  Z.of_nat (length l) <= start + Z.of_nat n * step ->
  concat (map (fun start => take (Z.to_nat step) (drop (Z.to_nat start) l))
              (range_from n start step))
  = drop (Z.to_nat start) l.
Proof.
  intros Hstep. revert start. induction n as [|n IH]; intros start Hstart Hlen; simpl.
  - symmetry. apply drop_ge. lia.
  - rewrite IH by lia.
    replace (Z.to_nat (start + step)) with (Z.to_nat start + Z.to_nat step)%nat by lia.
    rewrite <- drop_drop. apply take_drop.
Qed.

Lemma nth_map_lookup {A B} (f : A -> B) (l : list A) (i : nat) (c : A) (d : B) :
  l !! i = Some c -> nth i (map f l) d = f c.
Proof.
  revert i. induction l as [|x l IH]; intros [|i] Hi; try discriminate.
  - injection Hi as ->. reflexivity.
  - simpl. apply IH. exact Hi.
Qed.

Lemma range_from_length (n : nat) (start step : Z) : length (range_from n start step) = n.
Proof. revert start. induction n as [|n IH]; intros start; simpl; [|rewrite IH]; reflexivity. Qed.

(** X9.  For a frame with rows and [splits_num >= 1], lines 1552-1554
    cut the frame into at least one and at most [splits_num] slices, and
    the slices put end to end give every column back: no row is lost,
    repeated or reordered. *)
Theorem pandas_slices_partition :
  forall pdf splits_num,
    well_formed pdf ->
    (1 <= df_len pdf)%nat ->
    1 <= splits_num ->
    exists slices,
      pandas_slices pdf splits_num = Ok slices
      /\ 1 <= Z.of_nat (length slices) <= splits_num
      /\ forall i c, df_columns pdf !! i = Some c -> slices_column slices i = col_data c.
Proof.
  intros pdf splits_num Hwf Hrows Hsplits.
  unfold pandas_slices, floordiv.
  destruct (Z.eqb_spec splits_num 0) as [Hz|_]; [lia|]. cbn [result_bind].
  set (len := Z.of_nat (df_len pdf)).
  set (step := - (- len / splits_num)).
  assert (Hlen : 1 <= len) by (subst len; lia).
  assert (Hstep : 0 < step /\ len <= splits_num * step).
  { subst step. pose proof (Z.div_mod (- len) splits_num ltac:(lia)) as Hdm.
    pose proof (Z.mod_pos_bound (- len) splits_num ltac:(lia)) as Hmod.
    split; nia. }
  destruct Hstep as [Hstep Hcover].
  unfold range. destruct (Z.eqb_spec step 0) as [Hz|_]; [lia|].
  destruct (Z.ltb_spec 0 step) as [_|Hn]; [|lia]. cbn [result_bind].
  set (n := (len + step - 1) / step).
  assert (Hn : 1 <= n <= splits_num /\ len <= n * step).
  { subst n. pose proof (Z.div_mod (len + step - 1) step ltac:(lia)) as Hdm.
    pose proof (Z.mod_pos_bound (len + step - 1) step Hstep) as Hmod.
    repeat split; nia. }
  destruct Hn as [Hn Hall].
  eexists. split; [reflexivity|]. split.
  - rewrite length_map, range_from_length. lia.
  - intros i c Hc. unfold slices_column. rewrite map_map.
    rewrite (map_ext _ (fun start =>
                          take (Z.to_nat step) (drop (Z.to_nat start) (col_data c)))).
    2: { intros start. unfold iloc.
         exact (nth_map_lookup
                  (fun c => take (Z.to_nat step) (drop (Z.to_nat start) (col_data c)))
                  _ _ _ _ Hc). }
    rewrite (chunks_concat (col_data c) step (Z.to_nat n) 0 Hstep ltac:(lia)).
    + reflexivity.
    + unfold well_formed in Hwf. rewrite Forall_forall in Hwf.
      rewrite (Hwf c (list_elem_of_lookup_2 _ _ _ Hc)). fold len. lia.
Qed.

Lemma pandas_slices_partition_witness :
  exists slices,
    pandas_slices sample_frame 2 = Ok slices
    /\ 1 <= Z.of_nat (length slices) <= 2
    /\ forall i c, df_columns sample_frame !! i = Some c ->
                   slices_column slices i = col_data c.
Proof.
  apply (pandas_slices_partition sample_frame 2).
  - repeat constructor.
  - simpl. lia.
  - lia.
Defined.

(** X10.  A negative [splits_num] is not refused as such: for a frame
    with fewer rows than its absolute value the step is 0 and [range]
    raises [ValueError]; for any other frame with rows the step is
    negative, [range] is empty and there is no slice at all. *)
Theorem pandas_slices_negative_splits :
  forall pdf splits_num,
    (1 <= df_len pdf)%nat ->
    splits_num < 0 ->
    pandas_slices pdf splits_num =
    if Z.of_nat (df_len pdf) <? - splits_num
    then Raise (ValueError "range() arg 3 must not be zero")
    else Ok [].
Proof.
  intros pdf splits_num Hrows Hsplits.
  unfold pandas_slices, floordiv.
  destruct (Z.eqb_spec splits_num 0) as [Hz|_]; [lia|]. cbn [result_bind].
  set (len := Z.of_nat (df_len pdf)).
  assert (Hlen : 1 <= len) by (subst len; lia).
  pose proof (Z.div_mod (- len) splits_num ltac:(lia)) as Hdm.
  pose proof (Z.mod_neg_bound (- len) splits_num Hsplits) as Hmod.
  unfold range.
  destruct (Z.ltb_spec len (- splits_num)) as [Hfew|Hmany].
  - assert (Hq : - len / splits_num = 0) by nia.
    rewrite Hq. reflexivity.
  - assert (Hq : 1 <= - len / splits_num) by nia.
    destruct (Z.eqb_spec (- (- len / splits_num)) 0) as [Hz|_]; [lia|].
    destruct (Z.ltb_spec 0 (- (- len / splits_num))) as [Hp|_]; [lia|].
    reflexivity.
Qed.

Lemma pandas_slices_negative_splits_witness :
  pandas_slices sample_frame (-2) = Ok []
  /\ pandas_slices sample_frame (-5) = Raise (ValueError "range() arg 3 must not be zero").
Proof.
  split.
  - apply (pandas_slices_negative_splits sample_frame (-2)); [simpl; lia | lia].
  - apply (pandas_slices_negative_splits sample_frame (-5)); [simpl; lia | lia].
Defined.

(* ================================================================== *)
(** * 21. Properties of _from_elements                                 *)
(* ================================================================== *)

Lemma bind_Ok {A B} (c : Py A) (k : A -> Py B) w b w' :
  bind c k w = (Ok b, w') -> exists a w1, c w = (Ok a, w1) /\ k a w1 = (Ok b, w').
Proof.
  unfold bind. destruct (c w) as [[a|e] w1]; intros E; [eauto | discriminate].
Qed.

Lemma sink_file_ready {A} (k : string -> Py A) (w : World) :
  let d := "/tmp/tmp" +:+ pretty (fs_next w) in
  let name := d +:+ "/tmp" +:+ pretty (S (fs_next w)) in
  (let* d := mkdtemp in let* temp_file := NamedTemporaryFile d in k temp_file) w =
  k name (mkWorld ({[d]} ∪ fs_dirs w) (<[name := []]> (fs_files w)) ({[name]} ∪ fs_open w)
                  (S (S (fs_next w))) (jvm_calls w)).
Proof.
  intros d name. unfold bind at 1, mkdtemp at 1. fold d.
  unfold bind at 1, NamedTemporaryFile at 1.
  rewrite decide_True
    by (simpl; apply elem_of_union; left; apply elem_of_singleton; reflexivity).
  reflexivity.
Qed.

(** [with temp_file: serializer.serialize(..., temp_file)] on an open
    file: the outcome is the serializer's. *)
Lemma with_serialize_run (name : string) (out : list byte * option exn) w old :
  name ∈ fs_open w -> fs_files w !! name = Some old ->
  with_ name (let (data, failure) := out in
              let* _ := write name data in
              match failure with Some e => raise e | None => ret tt end) w =
  (match snd out with Some e => Raise e | None => Ok tt end,
   mkWorld (fs_dirs w) (<[name := old ++ fst out]> (fs_files w)) (fs_open w ∖ {[name]})
           (fs_next w) (jvm_calls w)).
Proof.
  intros Hopen Hfile. destruct out as [data failure].
  unfold with_, bind, write. rewrite decide_True by exact Hopen. rewrite Hfile.
  destruct failure; reflexivity.
Qed.

Lemma keeps_fs_run {A} (c : Py A) w r w' :
  keeps_fs c -> c w = (r, w') -> fs_files w' = fs_files w.
Proof. intros Hc Hrun. pose proof (Hc w) as Hw. rewrite Hrun in Hw. apply Hw. Qed.

Lemma keeps_calls_run `{Gateway} {A} (c : Py A) w r w' call :
  keeps_calls c -> c w = (r, w') -> In call (jvm_calls w) -> In call (jvm_calls w').
Proof. intros Hc Hrun Hin. pose proof (Hc w call Hin) as Hw. rewrite Hrun in Hw. exact Hw. Qed.

Section SinkRuns.
Context `{Serializers} `{Gateway}.

(** X11.  When the serializer raises, [_from_elements] raises the same
    exception and no call has gone through the gateway: the JVM is asked
    for nothing before the elements are on disk. *)
Theorem _from_elements_serializer_failure :
  forall self elements schema w data e,
    BatchedSerializer_serialize elements = (data, Some e) ->
    exists w', _from_elements self elements schema w = (Raise e, w')
               /\ jvm_calls w' = jvm_calls w.
Proof.
  intros self elements schema w data e Hser.
  unfold _from_elements. rewrite sink_file_ready.
  unfold try_finally. unfold bind at 1.
  rewrite (with_serialize_run _ _ _ []);
    [| simpl; apply elem_of_union; left; apply elem_of_singleton; reflexivity
     | apply lookup_insert_eq ].
  rewrite Hser. cbn [snd fst].
  unfold unlink. cbn [fs_files]. rewrite lookup_insert_eq.
  eexists. split; reflexivity.
Qed.

(** X12.  When [_from_elements] returns a table, the serializer finished,
    the gateway was handed the temporary file while it held exactly the
    serialized elements (read as batched), the file is gone afterwards,
    and the table belongs to the environment. *)
Theorem _from_elements_reads_what_was_written :
  forall self elements schema w table w',
    _from_elements self elements schema w = (Ok table, w') ->
    let d := "/tmp/tmp" +:+ pretty (fs_next w) in
    let name := d +:+ "/tmp" +:+ pretty (S (fs_next w)) in
    snd (BatchedSerializer_serialize elements) = None
    /\ In ("PythonBridgeUtils.readPythonObjects",
           [JString name; JBoolean true;
            JFileContents (fst (BatchedSerializer_serialize elements))])
          (jvm_calls w')
    /\ fs_files w' !! name = None.
Proof.
  intros self elements schema w table w' Hrun d name.
  unfold _from_elements in Hrun. rewrite sink_file_ready in Hrun.
  fold d in Hrun. fold name in Hrun.
  unfold try_finally in Hrun.
  match type of Hrun with context [bind ?c ?k ?w2] =>
    destruct (bind c k w2) as [r w3] eqn:Hbody
  end.
  destruct (unlink name w3) as [[u|e] w4] eqn:Hunlink; [|discriminate].
  injection Hrun as -> ->.
  apply bind_Ok in Hbody as (u1 & wa & Hwith & Hbody).
  rewrite (with_serialize_run _ _ _ []) in Hwith;
    [| simpl; apply elem_of_union; left; apply elem_of_singleton; reflexivity
     | apply lookup_insert_eq ].
  destruct (snd (BatchedSerializer_serialize elements)) as [e|] eqn:Hser; [discriminate|].
  injection Hwith as _ <-. split; [reflexivity|].
  apply bind_Ok in Hbody as (row_type_info & wb & Htype & Hbody).
  apply bind_Ok in Hbody as (j_env & wc & Henv & Hbody).
  apply bind_Ok in Hbody as (execution_config & wd & Hconfig & Hbody).
  apply bind_Ok in Hbody as (j_objs & we & Hread & Hbody).
  assert (Hfile : fs_files wd !! name = Some (fst (BatchedSerializer_serialize elements))).
  { assert (Kenv : keeps_fs (_get_j_env self)) by (unfold _get_j_env; keeps_fs_steps).
    assert (Ktype : keeps_fs (_to_java_type schema))
      by (unfold _to_java_type; keeps_fs_steps).
    rewrite (keeps_fs_run _ _ _ _ (keeps_fs_jcall _ _) Hconfig).
    rewrite (keeps_fs_run _ _ _ _ Kenv Henv).
    rewrite (keeps_fs_run _ _ _ _ Ktype Htype).
    apply lookup_insert_eq. }
  unfold readPythonObjects in Hread. rewrite Hfile in Hread.
  apply jcall_Ok in Hread as [_ Hcalls].
  assert (Hin : In ("PythonBridgeUtils.readPythonObjects",
                    [JString name; JBoolean true;
                     JFileContents (fst (BatchedSerializer_serialize elements))])
                   (jvm_calls w3)).
  { eapply keeps_calls_run; [| exact Hbody |].
    - keeps_steps.
    - rewrite Hcalls. apply in_or_app. right. left. reflexivity. }
  unfold unlink in Hunlink. destruct (fs_files w3 !! name); [|discriminate].
  injection Hunlink as _ <-. split; [exact Hin|]. apply lookup_delete_eq.
Qed.

End SinkRuns.

Lemma _from_elements_serializer_failure_witness :
  exists w',
    @_from_elements failing_serializers quiet_gateway the_env [] sample_row_type
      empty_world = (Raise TransportError, w')
    /\ jvm_calls w' = jvm_calls empty_world.
Proof.
  apply (@_from_elements_serializer_failure failing_serializers quiet_gateway the_env []
           sample_row_type empty_world [x2a] TransportError).
  reflexivity.
Defined.

Lemma _from_elements_reads_what_was_written_witness :
  exists table w',
    @_from_elements counting_serializers quiet_gateway the_env
      [ERow [EScalar AInteger (PyInt 1); EScalar AString (PyStr "Hi")]]
      sample_row_type empty_world = (Ok table, w')
    /\ In ("PythonBridgeUtils.readPythonObjects",
           [JString "/tmp/tmp0/tmp1"; JBoolean true; JFileContents [x2a]])
          (jvm_calls w')
    /\ fs_files w' !! "/tmp/tmp0/tmp1" = None.
Proof.
  assert (Hrun : exists table w',
            @_from_elements counting_serializers quiet_gateway the_env
              [ERow [EScalar AInteger (PyInt 1); EScalar AString (PyStr "Hi")]]
              sample_row_type empty_world = (Ok table, w'))
    by (vm_compute; eauto).
  destruct Hrun as (table & w' & Hrun). exists table, w'.
  split; [exact Hrun|].
  exact (proj2 (@_from_elements_reads_what_was_written counting_serializers quiet_gateway
                  the_env _ sample_row_type empty_world table w' Hrun)).
Defined.

(* ================================================================== *)
(** * 22. Properties of __init__ and of the schema arguments           *)
(* ================================================================== *)

Section ExecutableFacts.
Context `{Gateway}.
Import StreamTableEnvironment.

Lemma sets_only_if_ret (Q : Prop) {A} (a : A) : sets_only_if Q (ret a).
Proof. intros w. exists []. split; [symmetry; apply app_nil_r | discriminate]. Qed.

Lemma sets_only_if_ret_bind (Q : Prop) {A B} (a : A) (k : A -> Py B) :
  sets_only_if Q (k a) -> sets_only_if Q (bind (ret a) k).
Proof. intros Hk w. exact (Hk w). Qed.

Lemma sets_only_if_assoc (Q : Prop) {A B C} (c : Py A) (k : A -> Py B) (k' : B -> Py C) :
  sets_only_if Q (bind c (fun a => bind (k a) k')) -> sets_only_if Q (bind (bind c k) k').
Proof.
  intros Hc w. destruct (Hc w) as (calls & Hcalls & Hq). exists calls.
  split; [|exact Hq]. rewrite <- Hcalls. unfold bind.
  destruct (c w) as [[a|e] w1]; reflexivity.
Qed.

Lemma sets_only_if_jcall_bind (Q : Prop) {A} method args (k : JObj -> Py A) :
  (String.eqb method "setString" = true -> Q) ->
  sets_only_if Q (k (JCall method args)) ->
  sets_only_if Q (bind (jcall method args) k).
Proof.
  intros Hm Hk w. unfold bind, jcall.
  destruct (java_raises method args) as [e|].
  - exists [(method, args)]. split; [reflexivity|].
    unfold sets_string. cbn [existsb fst]. rewrite orb_false_r. exact Hm.
  - match goal with |- context [k _ ?w1] => destruct (Hk w1) as (calls & Hcalls & Hq) end.
    exists ((method, args) :: calls). split.
    + rewrite Hcalls. cbn [jvm_calls]. rewrite <- app_assoc. reflexivity.
    + unfold sets_string. cbn [existsb fst]. intros Hs.
      apply orb_true_iff in Hs as [Hs|Hs]; [exact (Hm Hs) | exact (Hq Hs)].
Qed.

(** X13.  [__init__] writes the Python executable into the environment
    configuration only when the configuration does not hold one and the
    deployment is local: a [setString] call is among the calls it makes
    only if [containsKey] answered no and [is_local_deployment] yes. *)
Theorem init_sets_executable_only_when_unset :
  forall j_tenv w,
    let j_config :=
      JCall "get_j_env_configuration" [JCall "getExecEnv" [JCall "getPlanner" [j_tenv]]] in
    let key := JCall "PythonOptions.PYTHON_EXECUTABLE.key" [] in
    exists calls,
      jvm_calls (snd (__init__ j_tenv w)) = jvm_calls w ++ calls
      /\ (sets_string calls = true ->
          java_truth "containsKey" [j_config; key] = false
          /\ java_truth "is_local_deployment" [j_config] = true).
Proof.
  intros j_tenv w j_config key. revert w.
  change (sets_only_if (java_truth "containsKey" [j_config; key] = false
                        /\ java_truth "is_local_deployment" [j_config] = true)
                       (__init__ j_tenv)).
  unfold __init__, _set_python_executable_for_local_executor, _get_j_env, jcall_bool.
  cbn [_j_tenv].
  repeat first
    [ apply sets_only_if_assoc
    | apply sets_only_if_jcall_bind; [discriminate|] ].
  fold j_config. fold key.
  apply sets_only_if_ret_bind.
  destruct (java_truth "containsKey" [j_config; key]); cbn [negb].
  { apply sets_only_if_ret_bind, sets_only_if_ret. }
  repeat first
    [ apply sets_only_if_assoc
    | apply sets_only_if_jcall_bind; [discriminate|] ].
  apply sets_only_if_ret_bind.
  destruct (java_truth "is_local_deployment" [j_config]).
  2: { apply sets_only_if_ret_bind, sets_only_if_ret. }
  repeat first
    [ apply sets_only_if_assoc
    | apply sets_only_if_jcall_bind; [first [discriminate | intros _; split; reflexivity]|]
    | apply sets_only_if_ret_bind ].
  exact (sets_only_if_ret _ (mkTableEnvironment j_tenv)).
Qed.

End ExecutableFacts.

(** On the quiet gateway, where no executable is configured and the
    deployment is local, [__init__] does write it. *)
Lemma init_sets_executable_sample :
  sets_string (jvm_calls (snd (@StreamTableEnvironment.__init__ quiet_gateway
                                 (JCall "j_tenv" []) empty_world))) = true.
Proof. vm_compute. reflexivity. Qed.

Lemma zip_types_snd {A B} (names : list A) (types : list B) :
  map snd (zip names types) = take (length names) types.
Proof.
  revert types. induction names as [|n names IH]; intros [|t types]; simpl; try reflexivity.
  f_equal. apply IH.
Qed.

(** X14.  A list of [DataType]s as the schema of [from_pandas] is paired
    with the column names by [zip], which stops at the shorter of the two:
    the row type never fails to build, and has as many fields as the
    shorter list, the first columns with the first types. *)
Theorem pandas_result_type_types_truncate :
  forall (T : TypesModule) columns types,
    types <> [] ->
    exists row,
      pandas_result_type columns (PdTypes types) = Ok row
      /\ field_names row = take (length types) (map col_name columns)
      /\ field_types row = take (length columns) types.
Proof.
  intros T columns types Htypes.
  destruct types as [|t types]; [congruence|].
  eexists. split; [reflexivity|].
  unfold field_names, field_types. rewrite !map_map.
  split.
  - rewrite <- (zip_names_fst (map col_name columns) (t :: types)).
    apply map_ext. intros [field_name field_type]. reflexivity.
  - rewrite <- (length_map col_name columns).
    rewrite <- (zip_types_snd (map col_name columns) (t :: types)).
    apply map_ext. intros [field_name field_type]. reflexivity.
Qed.

Lemma pandas_result_type_types_truncate_witness :
  exists row,
    @pandas_result_type SchemaInferenceConverter.types_model (df_columns sample_frame)
      (PdTypes [AtomicType ALong true]) = Ok row
    /\ field_names row = take 1%nat (map col_name (df_columns sample_frame))
    /\ field_types row = take 2%nat [AtomicType ALong true].
Proof.
  apply (pandas_result_type_types_truncate SchemaInferenceConverter.types_model
           (df_columns sample_frame) [AtomicType ALong true]).
  discriminate.
Defined.

Section ExpressionFacts.
Context `{TypesModule} `{Serializers} `{Gateway}.

(** X15.  Elements that are all expressions are never verified: for a
    [DataType] schema whose verifier is built, [verify_schema] makes no
    difference whatever the verifier thinks of the elements, and no
    temporary directory or file is made. *)
Theorem from_elements_expressions_never_verified :
  forall self elements t w verify_func,
    schema_verifier t = Ok verify_func ->
    all_expressions elements = true ->
    from_elements self elements (SchemaType t) true w =
      from_elements self elements (SchemaType t) false w
    /\ let w' := snd (from_elements self elements (SchemaType t) true w) in
       fs_dirs w' = fs_dirs w /\ fs_files w' = fs_files w /\ fs_open w' = fs_open w.
Proof.
  intros self elements t w verify_func Hbuilt Hall.
  rewrite (from_elements_type self elements t true w verify_func Hbuilt).
  rewrite (from_elements_type self elements t false w (fun _ : PyObj => Ok tt) eq_refl).
  unfold from_elements_tail. rewrite Hall. split; [reflexivity|].
  assert (Hkeeps : keeps_fs
            (let* j_type := _to_java_data_type (schema_row t) in
             let* j_exprs := to_expression_jarray elements in
             let* j_table := jcall "fromValues" [_j_tenv self; j_type; j_exprs] in
             ret (mkTable j_table self)))
    by (unfold _to_java_data_type, to_expression_jarray; keeps_fs_steps).
  exact (Hkeeps w).
Qed.

End ExpressionFacts.

Lemma from_elements_expressions_never_verified_witness :
  is_ok (verify sample_row_type "obj" (PyExpression "a")) = false
  /\ @from_elements types_model counting_serializers quiet_gateway the_env
       [PyExpression "a"; PyExpression "b"] (SchemaType sample_row_type) true empty_world =
     @from_elements types_model counting_serializers quiet_gateway the_env
       [PyExpression "a"; PyExpression "b"] (SchemaType sample_row_type) false empty_world.
Proof.
  split; [vm_compute; reflexivity|].
  exact (proj1 (@from_elements_expressions_never_verified types_model counting_serializers
                  quiet_gateway the_env [PyExpression "a"; PyExpression "b"]
                  sample_row_type empty_world (verify sample_row_type "obj")
                  eq_refl eq_refl)).
Defined.
